(** * Backup handler of the MapReduce project (aws/backup/lambda-backup.py)

    A shallow embedding of the Lambda backup handler and of its helpers
    ([list_source_objects], [cleanup_old_backups], [send_metrics],
    [restore_from_backup], [list_backups], [get_backup_info]) and the
    properties of the backup, retention and restore data flow.

    The handler talks to three things it does not own: the object store
    (boto3's S3 client), the telemetry sink (the CloudWatch client) and the
    clock.  They are modelled as an environment [Env] of oracles: every
    request the code issues is appended to a trace, and the oracle decides,
    from the number of requests issued so far and the request itself,
    whether the call returns or raises.  The properties are about the
    requests the code issues and about what it returns, for every
    environment.  What the object store keeps is modelled for one thing
    only, the user metadata of the objects which the copies create (module
    [Store], after S3's CopyObject): this is what decides whether a backup
    carries the metadata the handler passes. *)

From Stdlib Require Import ZArith String Ascii List DecimalString DecimalZ DecimalPos Lia Bool.
From stdpp Require Import base option list gmap strings.

Local Open Scope string_scope.
Local Open Scope Z_scope.

(** ** Python values used by the handler *)

Module Py.

(** A Python [str] is a Rocq [string], one character per code point
    (code points below 256). *)

(** [str(n)] for an [int]. *)
Definition str_int (n : Z) : string := NilZero.string_of_int (Z.to_int n).

Fixpoint zeros (k : nat) : string :=
  match k with
  | O => ""
  | S k' => String "0" (zeros k')
  end.

(** [s.zfill]-like left padding used by the ["%0wd"] conversions. *)
Definition zfill (w : nat) (s : string) : string :=
  zeros (w - String.length s) +:+ s.

(** ["%0wd" % n]. *)
Definition pct_0d (w : nat) (n : Z) : string :=
  if n <? 0 then "-" +:+ zfill (w - 1) (str_int (- n))
  else zfill w (str_int n).

(** The character of a decimal digit. *)
Definition digit (n : Z) : ascii := ascii_of_N (48 + Z.to_N n).

(** [str(x)] / f-string rendering of a value that may be [None]. *)
Definition str_opt (o : option string) : string :=
  match o with
  | Some s => s
  | None => "None"
  end.

(** *** Exceptions

    Only subclasses of [Exception] occur; an exception is its class name
    and the text [str(e)] gives. *)
Record Exn := mkExn { exn_class : string; exn_str : string }.

Definition KeyError (k : string) : Exn := mkExn "KeyError" ("'" +:+ k +:+ "'").
Definition OverflowError (msg : string) : Exn := mkExn "OverflowError" msg.
Definition TypeError (msg : string) : Exn := mkExn "TypeError" msg.

(** The outcome of evaluating a Python expression or statement. *)
Inductive Result (A : Type) : Type :=
| Return (a : A)
| Raise (e : Exn).
Arguments Return {A} a.
Arguments Raise {A} e.

(** *** json.dumps

    The handler serialises flat dictionaries whose values are strings and
    integers, with the default separators and [ensure_ascii=True]. *)
Inductive JVal :=
| JStr (s : string)
| JInt (n : Z).

Definition dquote : ascii := "034"%char.

Definition hex_digit (n : N) : ascii :=
  match n with
  | 0%N => "0" | 1%N => "1" | 2%N => "2" | 3%N => "3"
  | 4%N => "4" | 5%N => "5" | 6%N => "6" | 7%N => "7"
  | 8%N => "8" | 9%N => "9" | 10%N => "a" | 11%N => "b"
  | 12%N => "c" | 13%N => "d" | 14%N => "e" | _ => "f"
  end%char.

(** One character of a JSON string literal (json.encoder's ESCAPE_ASCII). *)
Definition json_escape_char (c : ascii) : string :=
  let n := N_of_ascii c in
  if (n =? 34)%N then String "\" (String dquote "")
  else if (n =? 92)%N then "\\"
  else if (n =? 10)%N then "\n"
  else if (n =? 13)%N then "\r"
  else if (n =? 9)%N then "\t"
  else if (n =? 12)%N then "\f"
  else if (n =? 8)%N then "\b"
  else if ((32 <=? n) && (n <=? 126))%N then String c ""
  else "\u00" +:+ String (hex_digit (n / 16)) (String (hex_digit (n mod 16)) "").

Fixpoint json_escape (s : string) : string :=
  match s with
  | "" => ""
  | String c s' => json_escape_char c +:+ json_escape s'
  end.

Definition json_str (s : string) : string :=
  String dquote (json_escape s) +:+ String dquote "".

Definition json_val (v : JVal) : string :=
  match v with
  | JStr s => json_str s
  | JInt n => str_int n
  end.

Definition json_item (kv : string * JVal) : string :=
  json_str (fst kv) +:+ ": " +:+ json_val (snd kv).

Fixpoint json_items (d : list (string * JVal)) : string :=
  match d with
  | [] => ""
  | [kv] => json_item kv
  | kv :: rest => json_item kv +:+ ", " +:+ json_items rest
  end.

(** [json.dumps(d)] for a dictionary [d], given in insertion order. *)
Definition json_dumps (d : list (string * JVal)) : string :=
  "{" +:+ json_items d +:+ "}".

End Py.

(** ** The parts of Python's [datetime] module the handler uses *)

Module Datetime.
Import Py.

(** A [datetime] object.  [tzinfo] is [None] for a naive value; for an
    aware one it is the UTC offset in seconds ([Some 0] for the [tzutc]
    stamps boto3 returns). *)
Record datetime := mkDatetime {
  year : Z; month : Z; day : Z;
  hour : Z; minute : Z; second : Z; microsecond : Z;
  tzinfo : option Z
}.

Definition is_leap (y : Z) : bool :=
  (y mod 4 =? 0) && (negb (y mod 100 =? 0) || (y mod 400 =? 0)).

Definition days_before_year (y : Z) : Z :=
  let y := y - 1 in y * 365 + y / 4 - y / 100 + y / 400.

Definition DAYS_IN_MONTH : list Z :=
  [-1; 31; 28; 31; 30; 31; 30; 31; 31; 30; 31; 30; 31].

Definition DAYS_BEFORE_MONTH : list Z :=
  [-1; 0; 31; 59; 90; 120; 151; 181; 212; 243; 273; 304; 334].

Definition days_in_month (y m : Z) : Z :=
  if (m =? 2) && is_leap y then 29 else nth (Z.to_nat m) DAYS_IN_MONTH 0.

Definition days_before_month (y m : Z) : Z :=
  nth (Z.to_nat m) DAYS_BEFORE_MONTH 0 + (if (2 <? m) && is_leap y then 1 else 0).

(** Proleptic Gregorian ordinal of a date, 0001-01-01 being day 1. *)
Definition ymd2ord (y m d : Z) : Z :=
  days_before_year y + days_before_month y m + d.

Definition DI400Y : Z := 146097.
Definition DI100Y : Z := 36524.
Definition DI4Y : Z := 1461.
Definition MAXORDINAL : Z := 3652059.

(** The date of an ordinal. *)
Definition ord2ymd (n : Z) : Z * Z * Z :=
  let n := n - 1 in
  let n400 := n / DI400Y in let n := n mod DI400Y in
  let y := n400 * 400 + 1 in
  let n100 := n / DI100Y in let n := n mod DI100Y in
  let n4 := n / DI4Y in let n := n mod DI4Y in
  let n1 := n / 365 in let n := n mod 365 in
  let y := y + n100 * 100 + n4 * 4 + n1 in
  if (n1 =? 4) || (n100 =? 4) then (y - 1, 12, 31)
  else
    let leapyear := (n1 =? 3) && (negb (n4 =? 24) || (n100 =? 3)) in
    let m := Z.shiftr (n + 50) 5 in
    let preceding :=
      nth (Z.to_nat m) DAYS_BEFORE_MONTH 0 + (if (2 <? m) && leapyear then 1 else 0) in
    if n <? preceding then
      let m' := m - 1 in
      let preceding' :=
        preceding - (nth (Z.to_nat m') DAYS_IN_MONTH 0
                     + (if (m' =? 2) && leapyear then 1 else 0)) in
      (y, m', n - preceding' + 1)
    else (y, m, n - preceding + 1).

(** The invariants of a [datetime] object. *)
Definition valid (d : datetime) : Prop :=
  1 <= year d <= 9999 /\ 1 <= month d <= 12 /\
  1 <= day d <= days_in_month (year d) (month d) /\
  0 <= hour d <= 23 /\ 0 <= minute d <= 59 /\ 0 <= second d <= 59 /\
  0 <= microsecond d <= 999999.

(** A date of the calendar. *)
Definition valid_date (y m d : Z) : Prop :=
  1 <= y <= 9999 /\ 1 <= m <= 12 /\ 1 <= d <= days_in_month y m.

(** [d.replace(tzinfo=None)]. *)
Definition replace_tzinfo_none (d : datetime) : datetime :=
  mkDatetime (year d) (month d) (day d) (hour d) (minute d) (second d)
             (microsecond d) None.

(** Microseconds since 0001-01-01T00:00:00 of the wall-clock fields. *)
Definition wall_micros (d : datetime) : Z :=
  ((((ymd2ord (year d) (month d) (day d) - 1) * 24 + hour d) * 60 + minute d) * 60
     + second d) * 1000000 + microsecond d.

(** Lexicographic order on the seven fields, as tuple comparison does. *)
Fixpoint lex_lt (a b : list Z) : bool :=
  match a, b with
  | x :: a', y :: b' => (x <? y) || ((x =? y) && lex_lt a' b')
  | [], _ :: _ => true
  | _, [] => false
  end.

Definition fields (d : datetime) : list Z :=
  [year d; month d; day d; hour d; minute d; second d; microsecond d].

(** [a < b].  Two naive values compare field by field; two aware values
    compare after subtracting their offsets; a naive and an aware value
    cannot be ordered. *)
Definition lt (a b : datetime) : Result bool :=
  match tzinfo a, tzinfo b with
  | None, None => Return (lex_lt (fields a) (fields b))
  | Some oa, Some ob =>
      Return (wall_micros a - oa * 1000000 <? wall_micros b - ob * 1000000)
  | _, _ => Raise (TypeError "can't compare offset-naive and offset-aware datetimes")
  end.

(** [d - timedelta(days=n)]: [timedelta] converts the number of days to a
    C [int] (32 bits) and accepts at most 999999999 days either way, and
    the resulting date has to stay within years 1..9999; the time of day
    and [tzinfo] are kept. *)
Definition sub_days (d : datetime) (n : Z) : Result datetime :=
  if (n <? -2147483648) || (2147483647 <? n) then
    Raise (OverflowError "Python int too large to convert to C int")
  else if (n <? -999999999) || (999999999 <? n) then
    Raise (OverflowError ("days=" +:+ str_int n +:+ "; must have magnitude <= 999999999"))
  else
    let o := ymd2ord (year d) (month d) (day d) - n in
    if (0 <? o) && (o <=? MAXORDINAL) then
      let '(y, m, dd) := ord2ymd o in
      Return (mkDatetime y m dd (hour d) (minute d) (second d) (microsecond d) (tzinfo d))
    else Raise (OverflowError "date value out of range").

(** [d.strftime('%Y%m%d_%H%M%S')], as the C library of the Lambda runtime
    (glibc) prints it: [%Y] is the year without padding, so it has four
    digits from year 1000 on and fewer before; the other fields are padded
    to two digits. *)
Definition strftime_Ymd_HMS (d : datetime) : string :=
  str_int (year d) +:+ pct_0d 2 (month d) +:+ pct_0d 2 (day d) +:+ "_" +:+
  pct_0d 2 (hour d) +:+ pct_0d 2 (minute d) +:+ pct_0d 2 (second d).

(** The UTC offset as [isoformat] prints it. *)
Definition format_offset (off : option Z) : string :=
  match off with
  | None => ""
  | Some o =>
      let sign := if o <? 0 then "-" else "+" in
      let o := Z.abs o in
      let hh := o / 3600 in
      let mm := (o mod 3600) / 60 in
      let ss := (o mod 3600) mod 60 in
      sign +:+ pct_0d 2 hh +:+ ":" +:+ pct_0d 2 mm +:+
      (if ss =? 0 then "" else ":" +:+ pct_0d 2 ss)
  end.

(** [d.isoformat()]. *)
Definition isoformat (d : datetime) : string :=
  pct_0d 4 (year d) +:+ "-" +:+ pct_0d 2 (month d) +:+ "-" +:+ pct_0d 2 (day d) +:+
  "T" +:+ pct_0d 2 (hour d) +:+ ":" +:+ pct_0d 2 (minute d) +:+ ":" +:+
  pct_0d 2 (second d) +:+
  (if microsecond d =? 0 then "" else "." +:+ pct_0d 6 (microsecond d)) +:+
  format_offset (tzinfo d).

End Datetime.

(** ** The services the handler calls, and the world they change *)

Module Service.
Import Py Datetime.

(** One entry of a listing page's ['Contents']. *)
Record S3Object := mkObject {
  obj_Key : string;
  obj_Size : Z;
  obj_LastModified : datetime;
  obj_StorageClass : option string
}.

(** A page of [list_objects_v2]: its ['Contents'], when it has the key. *)
Definition Page : Type := option (list S3Object).

(** What iterating a paginator yields: at least one page is requested, a
    request either fails (and the iteration raises) or yields a page, and
    the last page ends the iteration. *)
Inductive Pages :=
| PFail (e : Exn)
| PLast (p : Page)
| PMore (p : Page) (rest : Pages).

(** The keyword arguments of [copy_object]. *)
Record CopyRequest := mkCopy {
  copy_src_Bucket : option string;
  copy_src_Key : string;
  copy_Bucket : option string;
  copy_Key : string;
  copy_Metadata : option (gmap string (option string))
}.

(** The fields of a [head_object] response. *)
Record HeadResponse := mkHead {
  head_ContentLength : Z;
  head_LastModified : datetime;
  head_Metadata : option (gmap string string);
  head_StorageClass : option string
}.

(** One element of [MetricData]. *)
Record MetricDatum := mkDatum {
  MetricName : string;
  Value : Z;
  Unit : string;
  Timestamp : datetime
}.

(** A request to the object store or to the telemetry sink.  Bucket names
    come from [os.environ.get] and are [None] when the variable is unset. *)
Inductive Call :=
| list_objects_v2 (Bucket : option string) (Prefix : option string) (page : nat)
| copy_object (r : CopyRequest)
| delete_object (Bucket : option string) (Key : string)
| head_object (Bucket : option string) (Key : string)
| put_metric_data (Namespace : string) (MetricData : list MetricDatum).

(** A request together with the exception it raised, if any. *)
Record Event := mkEvent { ev_call : Call; ev_raised : option Exn }.

Inductive Level := INFO | ERROR.

(** Everything outside the source file: the process environment, what
    the interpreter's [int] makes of a string, the successive readings of
    the clock, and the answers of the two services.  The [nat] handed to a
    service oracle is the number of requests issued before the one being
    answered, so the same request may fail once and succeed later.
    [pages n bucket prefix] is what a paginator whose iteration starts
    after [n] requests goes through, page by page. *)
Record Env := mkEnv {
  environ : gmap string string;
  py_int : string -> Result Z;
  clock : nat -> datetime;
  pages : nat -> option string -> option string -> Pages;
  copy_outcome : nat -> CopyRequest -> option Exn;
  delete_outcome : nat -> option string -> string -> option Exn;
  head_outcome : nat -> option string -> string -> Result HeadResponse;
  put_metric_outcome : nat -> string -> list MetricDatum -> option Exn
}.

(** What a run has done so far: the requests issued (oldest first), the
    log records written, and how often the clock was read. *)
Record World := mkWorld {
  trace : list Event;
  log : list (Level * string);
  clock_reads : nat
}.

Definition initial : World := mkWorld [] [] 0.

Definition record (ev : Event) (w : World) : World :=
  mkWorld (trace w ++ [ev])%list (log w) (clock_reads w).

Definition write_log (l : Level) (msg : string) (w : World) : World :=
  mkWorld (trace w) (log w ++ [(l, msg)])%list (clock_reads w).

Definition tick (w : World) : World :=
  mkWorld (trace w) (log w) (S (clock_reads w)).

(** A Python statement: it changes the world and returns or raises. *)
Definition M (A : Type) : Type := World -> Result A * World.

#[global] Instance M_ret : MRet M := fun A a w => (Return a, w).

#[global] Instance M_bind : MBind M := fun A B f m w =>
  match m w with
  | (Return a, w') => f a w'
  | (Raise e, w') => (Raise e, w')
  end.

#[global] Instance M_throw : MThrow Exn M := fun A e w => (Raise e, w).

(** [try: body except Exception as e: handler e]. *)
Definition try_except {A} (body : M A) (handler : Exn -> M A) : M A :=
  fun w =>
    match body w with
    | (Return a, w') => (Return a, w')
    | (Raise e, w') => handler e w'
    end.

(** A pure expression that may raise. *)
Definition eval {A} (r : Result A) : M A := fun w => (r, w).

(** [for x in l: body x], threading the local variables [s] the body
    assigns. *)
Fixpoint for_each {A St} (l : list A) (s : St) (body : A -> St -> M St) : M St :=
  match l with
  | [] => mret s
  | x :: l' => s' ← body x s; for_each l' s' body
  end.

Definition logger_info (msg : string) : M unit :=
  fun w => (Return tt, write_log INFO msg w).

Definition logger_error (msg : string) : M unit :=
  fun w => (Return tt, write_log ERROR msg w).

(** Issue a request whose only result is success or an exception. *)
Definition request (c : Call) (outcome : option Exn) : M unit :=
  fun w =>
    match outcome with
    | None => (Return tt, record (mkEvent c None) w)
    | Some e => (Raise e, record (mkEvent c (Some e)) w)
    end.

Section WithEnv.
Variable env : Env.

(** [datetime.utcnow()]: the next reading of the clock, as a naive
    value (whatever [tzinfo] the oracle's reading has is dropped). *)
Definition utcnow : M datetime :=
  fun w => (Return (replace_tzinfo_none (clock env (clock_reads w))), tick w).

(** [os.environ.get(name)]. *)
Definition environ_get (name : string) : option string := environ env !! name.

(** [os.environ.get(name, default)]. *)
Definition environ_get_default (name default : string) : string :=
  match environ env !! name with
  | Some v => v
  | None => default
  end.

Definition s3_copy_object (r : CopyRequest) : M unit :=
  fun w => request (copy_object r) (copy_outcome env (length (trace w)) r) w.

Definition s3_delete_object (bucket : option string) (key : string) : M unit :=
  fun w =>
    request (delete_object bucket key)
            (delete_outcome env (length (trace w)) bucket key) w.

Definition s3_head_object (bucket : option string) (key : string) : M HeadResponse :=
  fun w =>
    match head_outcome env (length (trace w)) bucket key with
    | Return r => (Return r, record (mkEvent (head_object bucket key) None) w)
    | Raise e => (Raise e, record (mkEvent (head_object bucket key) (Some e)) w)
    end.

Definition cloudwatch_put_metric_data (ns : string) (data : list MetricDatum) : M unit :=
  fun w =>
    request (put_metric_data ns data)
            (put_metric_outcome env (length (trace w)) ns data) w.

(** [for page in <pages>: body page], page [k] being the next one to
    request. *)
Fixpoint for_pages {St} (bucket prefix : option string) (ps : Pages) (k : nat)
         (s : St) (body : Page -> St -> M St) : M St :=
  match ps with
  | PFail e => request (list_objects_v2 bucket prefix k) (Some e);; mret s
  | PLast p => request (list_objects_v2 bucket prefix k) None;; body p s
  | PMore p rest =>
      request (list_objects_v2 bucket prefix k) None;;
      s' ← body p s;
      for_pages bucket prefix rest (S k) s' body
  end.

(** [for page in paginator.paginate(Bucket=bucket, Prefix=prefix): ...] *)
Definition for_paginate {St} (bucket prefix : option string)
           (s : St) (body : Page -> St -> M St) : M St :=
  fun w => for_pages bucket prefix (pages env (length (trace w)) bucket prefix) 0 s body w.

End WithEnv.

End Service.

(** ** The handler and its helpers *)

Module Backup.
Import Py Datetime Service.

(** The dictionary a Lambda invocation returns. *)
Record Response := mkResponse { statusCode : Z; body : string }.

(** An entry of [list_backups]'s result. *)
Record BackupEntry := mkEntry {
  entry_key : string;
  entry_size : Z;
  entry_last_modified : datetime;
  entry_storage_class : string
}.

(** The result of [get_backup_info]. *)
Record BackupInfo := mkInfo {
  info_key : string;
  info_size : Z;
  info_last_modified : datetime;
  info_metadata : gmap string string;
  info_storage_class : string
}.

(** [d[k]] on the metadata mapping of a [head_object] response. *)
Definition getitem (d : gmap string string) (k : string) : Result string :=
  match d !! k with
  | Some v => Return v
  | None => Raise (KeyError k)
  end.

(** The [Metadata] argument the handler gives to [copy_object]. *)
Definition backup_metadata (source_bucket : option string) (timestamp : string)
           (obj : S3Object) : gmap string (option string) :=
  <["original-bucket" := source_bucket]>
  (<["original-key" := Some (obj_Key obj)]>
  (<["backup-timestamp" := Some timestamp]>
  (<["original-size" := Some (str_int (obj_Size obj))]>
  (<["original-last-modified" := Some (isoformat (obj_LastModified obj))]> ∅)))).

Section Handler.
Variable env : Env.

(** The body of [list_source_objects]'s loop over pages; the local
    variable is [objects]. *)
Definition extend_objects (page : Page) (objects : list S3Object)
  : M (list S3Object) :=
  match page with
  | Some contents => mret (objects ++ contents)%list
  | None => mret objects
  end.

Definition list_source_objects (bucket_name : option string) : M (list S3Object) :=
  try_except
    (for_paginate env bucket_name None [] extend_objects)
    (fun e =>
       logger_error ("Error listing objects in " +:+ str_opt bucket_name +:+ ": "
                     +:+ exn_str e);;
       mthrow e).

(** The body of [cleanup_old_backups]'s loop over a page's objects. *)
Definition delete_if_old (bucket_name : option string) (cutoff_date : datetime)
           (obj : S3Object) (_ : unit) : M unit :=
  older ← eval (lt (replace_tzinfo_none (obj_LastModified obj)) cutoff_date);
  if older : bool then
    try_except
      (s3_delete_object env bucket_name (obj_Key obj);;
       logger_info ("Deleted old backup: " +:+ obj_Key obj))
      (fun e =>
         logger_error ("Error deleting " +:+ obj_Key obj +:+ ": " +:+ exn_str e))
  else mret tt.

(** The body of [cleanup_old_backups]'s loop over pages. *)
Definition cleanup_page (bucket_name : option string) (cutoff_date : datetime)
           (page : Page) (_ : unit) : M unit :=
  match page with
  | Some contents => for_each contents tt (delete_if_old bucket_name cutoff_date)
  | None => mret tt
  end.

Definition cleanup_old_backups (bucket_name : option string) (retention_days : Z)
  : M unit :=
  try_except
    (now ← utcnow env;
     cutoff_date ← eval (sub_days now retention_days);
     for_paginate env bucket_name (Some "backup/") tt
                  (cleanup_page bucket_name cutoff_date))
    (fun e => logger_error ("Error cleaning up old backups: " +:+ exn_str e)).

Definition send_metrics (backup_count total_size : Z) : M unit :=
  try_except
    (t1 ← utcnow env;
     t2 ← utcnow env;
     t3 ← utcnow env;
     cloudwatch_put_metric_data env "MapReduce/Backup"
       [ mkDatum "BackupObjectsCount" backup_count "Count" t1;
         mkDatum "BackupSizeBytes" total_size "Bytes" t2;
         mkDatum "BackupSuccess" 1 "Count" t3 ])
    (fun e => logger_error ("Error sending metrics: " +:+ exn_str e)).

(** The request the handler issues for one source object. *)
Definition backup_request (source_bucket backup_bucket : option string)
           (timestamp : string) (obj : S3Object) : CopyRequest :=
  let backup_key := "backup/" +:+ timestamp +:+ "/" +:+ obj_Key obj in
  mkCopy source_bucket (obj_Key obj) backup_bucket backup_key
         (Some (backup_metadata source_bucket timestamp obj)).

(** The body of the handler's [for obj in source_objects] loop; the
    local variables are [(backup_count, total_size)]. *)
Definition backup_object (source_bucket backup_bucket : option string)
           (timestamp : string) (obj : S3Object) (acc : Z * Z) : M (Z * Z) :=
  let '(backup_count, total_size) := acc in
  try_except
    (let backup_key := "backup/" +:+ timestamp +:+ "/" +:+ obj_Key obj in
     s3_copy_object env (backup_request source_bucket backup_bucket timestamp obj);;
     let backup_count := backup_count + 1 in
     let total_size := total_size + obj_Size obj in
     logger_info ("Backed up " +:+ obj_Key obj +:+ " to " +:+ backup_key);;
     mret (backup_count, total_size))
    (fun e =>
       logger_error ("Error backing up " +:+ obj_Key obj +:+ ": " +:+ exn_str e);;
       mret (backup_count, total_size)).

(** [lambda_handler(event, context)]; neither argument is read. *)
Definition lambda_handler : M Response :=
  try_except
    (let source_bucket := environ_get env "SOURCE_BUCKET" in
     let backup_bucket := environ_get env "BACKUP_BUCKET" in
     retention_days ← eval (py_int env (environ_get_default env "RETENTION_DAYS" "30"));
     logger_info ("Starting backup from " +:+ str_opt source_bucket +:+ " to "
                  +:+ str_opt backup_bucket);;
     now ← utcnow env;
     let timestamp := strftime_Ymd_HMS now in
     source_objects ← list_source_objects source_bucket;
     match source_objects with
     | [] =>
         logger_info "No objects found in source bucket";;
         mret (mkResponse 200
                 (json_dumps [ ("message", JStr "No objects to backup");
                               ("timestamp", JStr timestamp) ]))
     | _ :: _ =>
         '(backup_count, total_size) ←
           for_each source_objects (0, 0)
                    (backup_object source_bucket backup_bucket timestamp);
         cleanup_old_backups backup_bucket retention_days;;
         send_metrics backup_count total_size;;
         logger_info ("Backup completed: " +:+ str_int backup_count +:+ " objects, "
                      +:+ str_int total_size +:+ " bytes");;
         mret (mkResponse 200
                 (json_dumps [ ("message", JStr "Backup completed successfully");
                               ("timestamp", JStr timestamp);
                               ("objects_backed_up", JInt backup_count);
                               ("total_size_bytes", JInt total_size) ]))
     end)
    (fun e =>
       logger_error ("Error in backup process: " +:+ exn_str e);;
       mret (mkResponse 500
               (json_dumps [ ("message", JStr "Backup failed");
                             ("error", JStr (exn_str e)) ]))).

Definition restore_from_backup (source_bucket backup_bucket : option string)
           (backup_key : string) : M bool :=
  try_except
    (response ← s3_head_object env backup_bucket backup_key;
     metadata ← eval (match head_Metadata response with
                      | Some m => Return m
                      | None => Raise (KeyError "Metadata")
                      end);
     original_key ← eval (getitem metadata "original-key");
     s3_copy_object env (mkCopy backup_bucket backup_key source_bucket original_key None);;
     logger_info ("Restored " +:+ backup_key +:+ " to " +:+ original_key);;
     mret true)
    (fun e =>
       logger_error ("Error restoring " +:+ backup_key +:+ ": " +:+ exn_str e);;
       mret false).

Definition list_backups (bucket_name : option string) (prefix : string)
  : M (list BackupEntry) :=
  try_except
    (for_paginate env bucket_name (Some prefix) []
       (fun page backups =>
          match page with
          | Some contents =>
              for_each contents backups
                (fun obj backups =>
                   mret (backups ++
                           [mkEntry (obj_Key obj) (obj_Size obj) (obj_LastModified obj)
                                    (default "STANDARD" (obj_StorageClass obj))])%list)
          | None => mret backups
          end))
    (fun e => logger_error ("Error listing backups: " +:+ exn_str e);; mthrow e).

Definition get_backup_info (bucket_name : option string) (backup_key : string)
  : M (option BackupInfo) :=
  try_except
    (response ← s3_head_object env bucket_name backup_key;
     mret (Some (mkInfo backup_key (head_ContentLength response)
                        (head_LastModified response)
                        (default ∅ (head_Metadata response))
                        (default "STANDARD" (head_StorageClass response)))))
    (fun e =>
       logger_error ("Error getting backup info for " +:+ backup_key +:+ ": "
                     +:+ exn_str e);;
       mret None).

End Handler.

End Backup.

(** ** What a run is expected to request

    Pure descriptions of the requests a run issues, against which the
    handler is compared.  [n] is always the number of requests issued
    before the first one described. *)

Module Spec.
Import Py Datetime Service Backup.

Definition contents (p : Page) : list S3Object := default [] p.

(** The listing a complete iteration over the pages gives, or the
    exception of the page request that failed. *)
Fixpoint listed (ps : Pages) : Result (list S3Object) :=
  match ps with
  | PFail e => Raise e
  | PLast p => Return (contents p)
  | PMore p rest =>
      match listed rest with
      | Return l => Return (contents p ++ l)%list
      | Raise e => Raise e
      end
  end.

(** The objects on the pages yielded before the iteration ends or fails. *)
Fixpoint yielded (ps : Pages) : list S3Object :=
  match ps with
  | PFail _ => []
  | PLast p => contents p
  | PMore p rest => (contents p ++ yielded rest)%list
  end.

(** The page requests of an iteration, page [k] being the first. *)
Fixpoint list_events (bucket prefix : option string) (ps : Pages) (k : nat)
  : list Event :=
  match ps with
  | PFail e => [mkEvent (list_objects_v2 bucket prefix k) (Some e)]
  | PLast _ => [mkEvent (list_objects_v2 bucket prefix k) None]
  | PMore _ rest =>
      mkEvent (list_objects_v2 bucket prefix k) None
        :: list_events bucket prefix rest (S k)
  end.

(** Two and four decimal digits. *)
Definition digits2 (n : Z) : string :=
  String (digit (n / 10)) (String (digit (n mod 10)) "").

Definition digits4 (n : Z) : string :=
  String (digit (n / 1000)) (String (digit (n / 100 mod 10)) (digits2 (n mod 100))).

(** The layout [YYYYMMDD_HHMMSS] of a point in time. *)
Definition YYYYMMDD_HHMMSS (d : datetime) : string :=
  digits4 (year d) +:+ digits2 (month d) +:+ digits2 (day d) +:+ "_" +:+
  digits2 (hour d) +:+ digits2 (minute d) +:+ digits2 (second d).

(** [P] holds of the [n] integers from [lo] on. *)
Fixpoint all_from (P : Z -> bool) (lo : Z) (n : nat) : bool :=
  match n with
  | O => true
  | S n' => P lo && all_from P (lo + 1) n'
  end.

(** The metadata keys of a backup object. *)
Definition metadata_keys : gset string :=
  {[ "original-bucket"; "original-key"; "backup-timestamp"; "original-size";
     "original-last-modified" ]}.

Definition sum_sizes (objs : list S3Object) : Z :=
  foldr (fun o acc => obj_Size o + acc) 0 objs.

(** The last-modified time, without its timezone, is strictly earlier
    than the cutoff on the time line. *)
Definition strictly_earlier (cutoff : datetime) (obj : S3Object) : Prop :=
  wall_micros (replace_tzinfo_none (obj_LastModified obj)) < wall_micros cutoff.

(** The test [cleanup_old_backups] makes on an object. *)
Definition expired (cutoff : datetime) (obj : S3Object) : bool :=
  lex_lt (fields (replace_tzinfo_none (obj_LastModified obj))) (fields cutoff).

Definition is_copy (ev : Event) : option CopyRequest :=
  match ev_call ev with
  | copy_object r => Some r
  | _ => None
  end.

Definition is_delete (ev : Event) : option (option string * string) :=
  match ev_call ev with
  | delete_object b k => Some (b, k)
  | _ => None
  end.

Definition is_list (ev : Event) : option (option string * option string * nat) :=
  match ev_call ev with
  | list_objects_v2 b p k => Some (b, p, k)
  | _ => None
  end.

Definition is_put_metric (ev : Event) : option (string * list MetricDatum) :=
  match ev_call ev with
  | put_metric_data ns d => Some (ns, d)
  | _ => None
  end.

(** The requests of each kind in a trace, in order. *)
Definition copy_requests (tr : list Event) := omap is_copy tr.
Definition delete_requests (tr : list Event) := omap is_delete tr.
Definition list_requests (tr : list Event) := omap is_list tr.
Definition metric_requests (tr : list Event) := omap is_put_metric tr.

(** The copy requests of a trace that returned, and those that raised. *)
Definition successful_copies (tr : list Event) : list CopyRequest :=
  omap (fun ev => match ev_raised ev with None => is_copy ev | Some _ => None end) tr.

Definition failed_copies (tr : list Event) : list CopyRequest :=
  omap (fun ev => match ev_raised ev with None => None | Some _ => is_copy ev end) tr.

(** The three data points of a run that copied [c] objects and [t] bytes. *)
Definition metric_data (c t : Z) (t1 t2 t3 : datetime) : list MetricDatum :=
  [ mkDatum "BackupObjectsCount" c "Count" t1;
    mkDatum "BackupSizeBytes" t "Bytes" t2;
    mkDatum "BackupSuccess" 1 "Count" t3 ].

Section WithEnv.
Variable env : Env.

Section Copies.
Variables (source_bucket backup_bucket : option string) (timestamp : string).

(** The objects whose copy succeeded. *)
Fixpoint copied (n : nat) (objs : list S3Object) : list S3Object :=
  match objs with
  | [] => []
  | o :: rest =>
      match copy_outcome env n (backup_request source_bucket backup_bucket timestamp o) with
      | None => o :: copied (S n) rest
      | Some _ => copied (S n) rest
      end
  end.

(** One copy request per listed object, with its outcome. *)
Fixpoint copy_events (n : nat) (objs : list S3Object) : list Event :=
  match objs with
  | [] => []
  | o :: rest =>
      let r := backup_request source_bucket backup_bucket timestamp o in
      mkEvent (copy_object r) (copy_outcome env n r) :: copy_events (S n) rest
  end.
End Copies.

(** One delete request per expired object, with its outcome. *)
Fixpoint delete_events (cutoff : datetime) (bucket : option string) (n : nat)
         (objs : list S3Object) : list Event :=
  match objs with
  | [] => []
  | o :: rest =>
      if expired cutoff o then
        mkEvent (delete_object bucket (obj_Key o))
                (delete_outcome env n bucket (obj_Key o))
          :: delete_events cutoff bucket (S n) rest
      else delete_events cutoff bucket n rest
  end.

(** The requests of a retention pass: each page is requested, then its
    expired objects are deleted, until the pages end or a page request
    fails. *)
Fixpoint cleanup_events (cutoff : datetime) (bucket : option string) (ps : Pages)
         (k n : nat) : list Event :=
  match ps with
  | PFail e => [mkEvent (list_objects_v2 bucket (Some "backup/") k) (Some e)]
  | PLast p =>
      mkEvent (list_objects_v2 bucket (Some "backup/") k) None
        :: delete_events cutoff bucket (S n) (contents p)
  | PMore p rest =>
      let d := delete_events cutoff bucket (S n) (contents p) in
      (mkEvent (list_objects_v2 bucket (Some "backup/") k) None :: d)
        ++ cleanup_events cutoff bucket rest (S k) (S n + length d)
  end%list.

(** What the handler reads from the process environment. *)
Definition source_bucket : option string := environ_get env "SOURCE_BUCKET".
Definition backup_bucket : option string := environ_get env "BACKUP_BUCKET".
Definition retention_setting : string := environ_get_default env "RETENTION_DAYS" "30".

(** The pages the source listing of a run started in [w] goes through. *)
Definition source_pages (w : World) : Pages :=
  pages env (length (trace w)) source_bucket None.

(** What [datetime.utcnow()] returns in world [w]. *)
Definition now (w : World) : datetime :=
  replace_tzinfo_none (clock env (clock_reads w)).

(** The timestamp of a run started in [w]. *)
Definition capture_timestamp (w : World) : string :=
  strftime_Ymd_HMS (now w).

(** The pages the retention pass started in [w] goes through. *)
Definition backup_pages (bucket : option string) (w : World) : Pages :=
  pages env (length (trace w)) bucket (Some "backup/").

(** The requests of the retention pass started in [w] with a window of
    [retention_days] days: none when the cutoff cannot be computed. *)
Definition cleanup_delta (bucket : option string) (retention_days : Z) (w : World)
  : list Event :=
  match sub_days (now w) retention_days with
  | Return cutoff =>
      cleanup_events cutoff bucket (backup_pages bucket w) 0 (length (trace w))
  | Raise _ => []
  end.

(** The request the metrics reporter issues in world [w] for [c] objects
    and [t] bytes, with its outcome. *)
Definition metrics_event (c t : Z) (w : World) : Event :=
  let data := metric_data c t (now w) (now (tick w)) (now (tick (tick w))) in
  mkEvent (put_metric_data "MapReduce/Backup" data)
          (put_metric_outcome env (length (trace w)) "MapReduce/Backup" data).

(** The original key recorded on a backup object, when [head_object]
    answers and the metadata has it. *)
Definition original_key (bucket : option string) (backup_key : string) (w : World)
  : Result string :=
  match head_outcome env (length (trace w)) bucket backup_key with
  | Return resp =>
      match head_Metadata resp with
      | Some md => getitem md "original-key"
      | None => Raise (KeyError "Metadata")
      end
  | Raise e => Raise e
  end.

(** The copy a restore of [backup_key] to the key [k] asks for. *)
Definition restore_request (src bak : option string) (backup_key k : string)
  : CopyRequest :=
  mkCopy bak backup_key src k None.

(** The requests of a restore started in [w]. *)
Definition restore_events (src bak : option string) (backup_key : string) (w : World)
  : list Event :=
  match head_outcome env (length (trace w)) bak backup_key with
  | Return resp =>
      mkEvent (head_object bak backup_key) None ::
      match original_key bak backup_key w with
      | Return k =>
          let r := restore_request src bak backup_key k in
          [mkEvent (copy_object r) (copy_outcome env (S (length (trace w))) r)]
      | Raise _ => []
      end
  | Raise e => [mkEvent (head_object bak backup_key) (Some e)]
  end.

(** Whether a restore started in [w] goes through, and what stops it
    otherwise. *)
Definition restore_succeeds (src bak : option string) (backup_key : string) (w : World)
  : Result unit :=
  match original_key bak backup_key w with
  | Return k =>
      match copy_outcome env (S (length (trace w)))
                         (restore_request src bak backup_key k) with
      | None => Return tt
      | Some e => Raise e
      end
  | Raise e => Raise e
  end.

End WithEnv.

(** The last record of the log of [w] is [msg], at level [l]. *)
Definition logged_last (l : Level) (msg : string) (w : World) : Prop :=
  exists before, log w = (before ++ [(l, msg)])%list.

(** [w'] is [w] after the requests [evs] and [ticks] readings of the clock. *)
Definition advances (w : World) (evs : list Event) (ticks : nat) (w' : World) : Prop :=
  trace w' = (trace w ++ evs)%list /\ clock_reads w' = (clock_reads w + ticks)%nat.

(** The responses of the handler. *)
Definition nothing_to_backup (timestamp : string) : Response :=
  mkResponse 200
    (json_dumps [ ("message", JStr "No objects to backup");
                  ("timestamp", JStr timestamp) ]).

Definition backup_completed (timestamp : string) (c t : Z) : Response :=
  mkResponse 200
    (json_dumps [ ("message", JStr "Backup completed successfully");
                  ("timestamp", JStr timestamp);
                  ("objects_backed_up", JInt c);
                  ("total_size_bytes", JInt t) ]).

Definition backup_failed (e : Exn) : Response :=
  mkResponse 500
    (json_dumps [ ("message", JStr "Backup failed");
                  ("error", JStr (exn_str e)) ]).

End Spec.

(** ** A few concrete environments *)

Module Scenario.
Import Py Datetime Service Backup Spec.

(** [int] on the settings the scenarios use. *)
Definition parse_days (s : string) : Result Z :=
  if String.eqb s "30" then Return 30
  else if String.eqb s "7" then Return 7
  else Raise (mkExn "ValueError"
                ("invalid literal for int() with base 10: '" +:+ s +:+ "'")).

Definition t0 : datetime := mkDatetime 2024 1 15 9 30 0 0 None.

Definition utc (y m d hh mm ss : Z) : datetime := mkDatetime y m d hh mm ss 0 (Some 0).

Definition file_csv : S3Object := mkObject "data/file.csv" 100 (utc 2024 1 1 0 0 0) None.
Definition b_csv : S3Object := mkObject "data/b.csv" 50 (utc 2024 1 2 0 0 0) None.

(** Two old backups: one last modified exactly thirty days before [t0],
    one a second earlier. *)
Definition at_cutoff : S3Object :=
  mkObject "backup/20231201_000000/x" 100 (utc 2023 12 16 9 30 0) None.
Definition before_cutoff : S3Object :=
  mkObject "backup/20231201_000000/y" 100 (utc 2023 12 16 9 29 59) None.

Definition variables : gmap string string :=
  <["SOURCE_BUCKET" := "src"]> (<["BACKUP_BUCKET" := "bak"]> ∅).

Definition q1_metadata : gmap string string :=
  <["original-key" := "reports/q1.pdf"]> (<["original-bucket" := "src"]> ∅).

Definition foreign_metadata : gmap string string := <["owner" := "someone"]> ∅.

(** [head_object]: [backup/q1] was made by the handler, [backup/foreign]
    was not, nothing else exists. *)
Definition heads (n : nat) (b : option string) (k : string) : Result HeadResponse :=
  if String.eqb k "backup/q1" then
    Return (mkHead 10 (utc 2024 1 1 0 0 0) (Some q1_metadata) None)
  else if String.eqb k "backup/foreign" then
    Return (mkHead 10 (utc 2024 1 1 0 0 0) (Some foreign_metadata) None)
  else Raise (mkExn "ClientError" "Not Found").

(** Two source objects on two pages; the copy of [data/b.csv] fails. *)
Definition env_two : Env :=
  mkEnv variables parse_days (fun _ => t0)
    (fun _ _ p =>
       match p with
       | None => PMore (Some [file_csv]) (PLast (Some [b_csv]))
       | Some _ => PLast (Some [at_cutoff; before_cutoff])
       end)
    (fun _ r =>
       if String.eqb (copy_src_Key r) "data/b.csv"
       then Some (mkExn "ClientError" "Access Denied") else None)
    (fun _ _ _ => None) heads (fun _ _ _ => None).

(** An empty source bucket: one page without ['Contents']. *)
Definition env_empty : Env :=
  mkEnv variables parse_days (fun _ => t0) (fun _ _ _ => PLast None)
    (fun _ _ => None) (fun _ _ _ => None) heads (fun _ _ _ => None).

(** The second page of the source listing fails, with an exception whose
    text is empty. *)
Definition env_listing_fails : Env :=
  mkEnv variables parse_days (fun _ => t0)
    (fun _ _ _ => PMore (Some [file_csv]) (PFail (mkExn "MemoryError" "")))
    (fun _ _ => None) (fun _ _ _ => None) heads (fun _ _ _ => None).

End Scenario.

(** ** Further descriptions of what the helpers give *)

Module Derived.
Import Py Datetime Service Backup Spec.

(** The entry [list_backups] makes of a listed object. *)
Definition entry_of (obj : S3Object) : BackupEntry :=
  mkEntry (obj_Key obj) (obj_Size obj) (obj_LastModified obj)
          (default "STANDARD" (obj_StorageClass obj)).

(** The test of the retention pass, made on an entry of [list_backups]. *)
Definition entry_expired (cutoff : datetime) (en : BackupEntry) : bool :=
  lex_lt (fields (replace_tzinfo_none (entry_last_modified en))) (fields cutoff).

(** What [get_backup_info] makes of a [head_object] response. *)
Definition info_of (backup_key : string) (resp : HeadResponse) : BackupInfo :=
  mkInfo backup_key (head_ContentLength resp) (head_LastModified resp)
         (default ∅ (head_Metadata resp))
         (default "STANDARD" (head_StorageClass resp)).

(** The pages an iteration yields before it ends or fails. *)
Fixpoint pages_of (ps : Pages) : list Page :=
  match ps with
  | PFail _ => []
  | PLast p => [p]
  | PMore p rest => p :: pages_of rest
  end.

(** The exception that ends an iteration, if one does. *)
Fixpoint failure_of (ps : Pages) : option Exn :=
  match ps with
  | PFail e => Some e
  | PLast _ => None
  | PMore _ rest => failure_of rest
  end.

(** The log records of the copy loop started after [n] requests: one per
    object. *)
Fixpoint copy_log (env : Env) (sb bb : option string) (ts : string) (n : nat)
         (objs : list S3Object) : list (Level * string) :=
  match objs with
  | [] => []
  | o :: rest =>
      match copy_outcome env n (backup_request sb bb ts o) with
      | None =>
          (INFO, "Backed up " +:+ obj_Key o +:+ " to " +:+ "backup/" +:+ ts +:+ "/"
                 +:+ obj_Key o)
      | Some e => (ERROR, "Error backing up " +:+ obj_Key o +:+ ": " +:+ exn_str e)
      end :: copy_log env sb bb ts (S n) rest
  end.

(** The records of a log at level [ERROR]. *)
Definition errors (l : list (Level * string)) : list string :=
  omap (fun r => match r.1 with ERROR => Some r.2 | INFO => None end) l.

(** The event is no [head_object] request. *)
Definition not_head (ev : Event) : Prop :=
  match ev_call ev with
  | head_object _ _ => False
  | _ => True
  end.

(** The value of a decimal digit character. *)
Definition undigit (c : ascii) : Z := Z.of_N (N_of_ascii c) - 48.

(** The wall-clock time cut to the second. *)
Definition to_second (d : datetime) : datetime :=
  mkDatetime (year d) (month d) (day d) (hour d) (minute d) (second d) 0 None.

(** The first comparison that is no equality. *)
Definition lex (c1 c2 : comparison) : comparison :=
  match c1 with
  | Eq => c2
  | _ => c1
  end.

(** The same wall-clock time, stamped as UTC. *)
Definition as_utc (d : datetime) : datetime :=
  mkDatetime (year d) (month d) (day d) (hour d) (minute d) (second d)
             (microsecond d) (Some 0).


End Derived.

(** ** What the object store keeps

    The requests of the handler reach S3.  As far as the user metadata of
    an object go, S3's CopyObject works as follows: the request may name a
    [MetadataDirective]; under [REPLACE] the new object gets the metadata
    of the request, under [COPY] it gets those of the source object and
    the metadata of the request are ignored; [COPY] applies when the
    request names no directive.  Neither [copy_object] call of the source
    (lines 58-69 and 195-199) names one. *)

Module Store.
Import Py Datetime Service.

Inductive Directive := COPY | REPLACE.

(** The user metadata of the stored objects, by bucket and key. *)
Definition Objects := gmap (string * string) (gmap string string).

(** The metadata of the object which a copy creates from an object with
    the metadata [source]. *)
Definition copied_metadata (directive : option Directive) (r : CopyRequest)
           (source : gmap string string) : gmap string string :=
  match default COPY directive with
  | COPY => source
  | REPLACE => omap id (default ∅ (copy_Metadata r))
  end.

(** What a [copy_object] request that returns has done. *)
Definition copy_effect (directive : option Directive) (r : CopyRequest) (s : Objects)
  : Objects :=
  match copy_src_Bucket r, copy_Bucket r with
  | Some sb, Some bb =>
      match s !! (sb, copy_src_Key r) with
      | Some source => <[(bb, copy_Key r) := copied_metadata directive r source]> s
      | None => s
      end
  | _, _ => s
  end.

(** What a request of the source has done to the store: nothing when it
    raised; its copies name no directive. *)
Definition effect (ev : Event) (s : Objects) : Objects :=
  match ev_raised ev with
  | Some _ => s
  | None =>
      match ev_call ev with
      | copy_object r => copy_effect None r s
      | delete_object (Some b) k => delete (b, k) s
      | _ => s
      end
  end.

(** The store after the requests of a trace, oldest first. *)
Definition after (evs : list Event) (s : Objects) : Objects :=
  fold_left (fun s ev => effect ev s) evs s.

(** [head_object] answered from the store.  The size and the time of last
    modification, which this store does not keep, are given. *)
Definition head_of (s : Objects) (size : Z) (last_modified : datetime)
           (b : option string) (k : string) : Result HeadResponse :=
  match b with
  | Some b =>
      match s !! (b, k) with
      | Some md => Return (mkHead size last_modified (Some md) None)
      | None =>
          Raise (mkExn "ClientError"
                   "An error occurred (404) when calling the HeadObject operation: Not Found")
      end
  | None =>
      Raise (mkExn "ParamValidationError"
               ("Parameter validation failed:" +:+ String "010"
                  "Invalid type for parameter Bucket, value: None, type: <class 'NoneType'>, valid types: <class 'str'>"))
  end.

End Store.

(** ** Further scenarios *)

Module Cases.
Import Py Datetime Service Backup Spec Scenario.

(** [RETENTION_DAYS] is set to a text that [int] rejects. *)
Definition env_bad_days : Env :=
  mkEnv (<["RETENTION_DAYS" := "thirty"]> variables) parse_days (fun _ => t0)
    (fun _ _ _ => PLast (Some [file_csv]))
    (fun _ _ => None) (fun _ _ _ => None) heads (fun _ _ _ => None).

(** Two source objects on one page; every copy is refused. *)
Definition env_denied : Env :=
  mkEnv variables parse_days (fun _ => t0)
    (fun _ _ p =>
       match p with
       | None => PLast (Some [file_csv; b_csv])
       | Some _ => PLast None
       end)
    (fun _ _ => Some (mkExn "ClientError" "Access Denied"))
    (fun _ _ _ => None) heads (fun _ _ _ => None).



(** Thirty and seven days before [t0]. *)
Definition cutoff_30 : datetime := mkDatetime 2023 12 16 9 30 0 0 None.
Definition cutoff_7 : datetime := mkDatetime 2024 1 8 9 30 0 0 None.

(** [t0] half a second and a full second later. *)
Definition t0_half : datetime := mkDatetime 2024 1 15 9 30 0 500000 None.
Definition t0_next : datetime := mkDatetime 2024 1 15 9 30 1 0 None.

(** The source bucket before the run of [env_two]: its two objects, which
    have no user metadata. *)
Definition source_store : Store.Objects :=
  <[("src", "data/file.csv") := ∅]> (<[("src", "data/b.csv") := ∅]> ∅).

(** The store after that run. *)
Definition store_after_run : Store.Objects :=
  Store.after (trace (lambda_handler env_two initial).2) source_store.

(** After the run: [head_object] answers from the store. *)
Definition env_after_run : Env :=
  mkEnv variables parse_days (fun _ => t0) (fun _ _ _ => PLast None)
    (fun _ _ => None) (fun _ _ _ => None)
    (fun _ => Store.head_of store_after_run 100 (utc 2024 1 15 9 30 1))
    (fun _ _ _ => None).

End Cases.

(** ** Runs of the helpers *)

Import Py Datetime Service Backup Spec.

Section Runs.
Variable env : Env.

Lemma advances_refl w : advances w [] 0 w.
Proof. split; [by rewrite app_nil_r | lia]. Qed.

Lemma advances_trans w evs1 k1 w1 evs2 k2 w2 :
  advances w evs1 k1 w1 -> advances w1 evs2 k2 w2 ->
  advances w (evs1 ++ evs2) (k1 + k2) w2.
Proof.
  intros [Ht1 Hc1] [Ht2 Hc2]. split.
  - by rewrite Ht2, Ht1, app_assoc.
  - lia.
Qed.

Lemma advances_length w evs k w' :
  advances w evs k w' -> length (trace w') = (length (trace w) + length evs)%nat.
Proof. intros [Ht _]. by rewrite Ht, length_app. Qed.

Lemma advances_log l msg w evs k w' :
  advances w evs k w' -> advances w evs k (write_log l msg w').
Proof. intros [Ht Hc]. by split. Qed.

Lemma advances_record w ev : advances w [ev] 0 (record ev w).
Proof. split; simpl; [done | lia]. Qed.

Lemma bind_run {A B} (m : M A) (f : A -> M B) w :
  (m ≫= f) w =
    match m w with
    | (Return a, w') => f a w'
    | (Raise e, w') => (Raise e, w')
    end.
Proof. reflexivity. Qed.

Lemma for_each_cons {A St} (x : A) l (s : St) body :
  for_each (x :: l) s body = (body x s ≫= fun s' => for_each l s' body).
Proof. reflexivity. Qed.

(** *** The copy loop *)

Lemma backup_object_run sb bb ts o c t w :
  exists w',
    advances w [mkEvent (copy_object (backup_request sb bb ts o))
                        (copy_outcome env (length (trace w)) (backup_request sb bb ts o))]
             0 w' /\
    backup_object env sb bb ts o (c, t) w =
      (Return (match copy_outcome env (length (trace w)) (backup_request sb bb ts o) with
               | None => (c + 1, t + obj_Size o)
               | Some _ => (c, t)
               end), w').
Proof.
  unfold backup_object, try_except, s3_copy_object, request, mbind, M_bind.
  destruct (copy_outcome env (length (trace w)) (backup_request sb bb ts o)) as [e|];
    simpl; eexists; (split; [| reflexivity]);
    apply advances_log, advances_record.
Qed.

Lemma backup_loop_run sb bb ts objs : forall c t w,
  exists w',
    advances w (copy_events env sb bb ts (length (trace w)) objs) 0 w' /\
    for_each objs (c, t) (backup_object env sb bb ts) w =
      (Return (c + Z.of_nat (length (copied env sb bb ts (length (trace w)) objs)),
               t + sum_sizes (copied env sb bb ts (length (trace w)) objs)), w').
Proof.
  induction objs as [|o objs IH]; intros c t w.
  - exists w. split; [apply advances_refl|]. simpl.
    unfold mret, M_ret. do 2 f_equal. f_equal; lia.
  - destruct (backup_object_run sb bb ts o c t w) as (w1 & Hadv & Hrun).
    rewrite for_each_cons, bind_run, Hrun.
    pose proof (advances_length _ _ _ _ Hadv) as Hlen. simpl in Hlen.
    destruct (copy_outcome env (length (trace w)) (backup_request sb bb ts o)) as [e|] eqn:Hout.
    + destruct (IH c t w1) as (w' & Hadv' & Hrun').
      exists w'. split.
      * replace (length (trace w1)) with (S (length (trace w))) in Hadv' by lia.
        simpl. rewrite Hout.
        apply (advances_trans _ _ _ _ _ _ _ Hadv Hadv').
      * rewrite Hrun'. simpl. rewrite Hout.
        by replace (length (trace w1)) with (S (length (trace w))) by lia.
    + destruct (IH (c + 1) (t + obj_Size o) w1) as (w' & Hadv' & Hrun').
      exists w'. split.
      * replace (length (trace w1)) with (S (length (trace w))) in Hadv' by lia.
        simpl. rewrite Hout.
        apply (advances_trans _ _ _ _ _ _ _ Hadv Hadv').
      * rewrite Hrun'. simpl. rewrite Hout.
        replace (length (trace w1)) with (S (length (trace w))) by lia.
        simpl. do 2 f_equal. f_equal; lia.
Qed.

(** *** Listing the source bucket *)

Lemma request_ok c w :
  request c None w = (Return tt, record (mkEvent c None) w).
Proof. reflexivity. Qed.

Lemma request_raises c e w :
  request c (Some e) w = (Raise e, record (mkEvent c (Some e)) w).
Proof. reflexivity. Qed.

Lemma extend_objects_run p acc w :
  extend_objects p acc w = (Return (acc ++ contents p)%list, w).
Proof. destruct p; simpl; [done | by rewrite app_nil_r]. Qed.

Lemma collect_pages_run b prefix ps : forall k acc w,
  exists w',
    advances w (list_events b prefix ps k) 0 w' /\
    for_pages b prefix ps k acc extend_objects w =
      (match listed ps with
       | Return l => Return (acc ++ l)%list
       | Raise e => Raise e
       end, w').
Proof.
  induction ps as [e | p | p rest IH]; intros k acc w; simpl for_pages.
  - rewrite bind_run, request_raises. eexists. split; [apply advances_record | done].
  - rewrite bind_run, request_ok, extend_objects_run. eexists.
    split; [apply advances_record | done].
  - rewrite bind_run, request_ok, bind_run, extend_objects_run.
    destruct (IH (S k) (acc ++ contents p)%list
                 (record (mkEvent (list_objects_v2 b prefix k) None) w))
      as (w' & Hadv & Hrun).
    exists w'. split.
    + apply (advances_trans _ [_] 0 _ _ 0 _ (advances_record _ _) Hadv).
    + rewrite Hrun. simpl. destruct (listed rest); [by rewrite app_assoc | done].
Qed.

Lemma list_source_objects_run b w :
  exists w',
    advances w (list_events b None (pages env (length (trace w)) b None) 0) 0 w' /\
    list_source_objects env b w = (listed (pages env (length (trace w)) b None), w').
Proof.
  unfold list_source_objects, try_except, for_paginate.
  destruct (collect_pages_run b None (pages env (length (trace w)) b None) 0 [] w)
    as (w' & Hadv & Hrun).
  rewrite Hrun.
  destruct (listed (pages env (length (trace w)) b None)) as [l | e].
  - exists w'. by split.
  - eexists. split; [| reflexivity]. by apply advances_log.
Qed.

(** *** The retention pass *)

Lemma lt_stripped a c :
  tzinfo c = None ->
  lt (replace_tzinfo_none a) c
  = Return (lex_lt (fields (replace_tzinfo_none a)) (fields c)).
Proof. intros Hc. unfold lt. by rewrite Hc. Qed.

Lemma sub_days_tzinfo d n c : sub_days d n = Return c -> tzinfo c = tzinfo d.
Proof.
  unfold sub_days. intros H.
  destruct ((n <? -2147483648) || (2147483647 <? n)); [done|].
  destruct ((n <? -999999999) || (999999999 <? n)); [done|].
  destruct ((0 <? _) && _); [|done].
  destruct (ord2ymd _) as [[y m] dd]. by inversion H.
Qed.

Lemma delete_if_old_run b cutoff o w :
  tzinfo cutoff = None ->
  exists w',
    advances w (delete_events env cutoff b (length (trace w)) [o]) 0 w' /\
    delete_if_old env b cutoff o tt w = (Return tt, w').
Proof.
  intros Hc. unfold delete_if_old. rewrite bind_run. unfold eval.
  rewrite (lt_stripped _ _ Hc). simpl delete_events. fold (expired cutoff o).
  destruct (expired cutoff o).
  - unfold try_except, s3_delete_object. rewrite bind_run.
    destruct (delete_outcome env (length (trace w)) b (obj_Key o)) as [e|].
    + rewrite request_raises. eexists. split; [| reflexivity].
      apply advances_log, advances_record.
    + rewrite request_ok. eexists. split; [| reflexivity].
      apply advances_log, advances_record.
  - exists w. split; [apply advances_refl | done].
Qed.

Lemma delete_events_cons cutoff b n o objs :
  delete_events env cutoff b n (o :: objs)
  = (delete_events env cutoff b n [o]
     ++ delete_events env cutoff b (n + length (delete_events env cutoff b n [o])) objs)%list.
Proof.
  simpl. destruct (expired cutoff o); simpl.
  - by replace (n + 1)%nat with (S n) by lia.
  - by replace (n + 0)%nat with n by lia.
Qed.

Lemma delete_loop_run b cutoff objs :
  tzinfo cutoff = None ->
  forall w, exists w',
    advances w (delete_events env cutoff b (length (trace w)) objs) 0 w' /\
    for_each objs tt (delete_if_old env b cutoff) w = (Return tt, w').
Proof.
  intros Hc. induction objs as [|o objs IH]; intros w.
  - exists w. split; [apply advances_refl | done].
  - destruct (delete_if_old_run b cutoff o w Hc) as (w1 & Hadv & Hrun).
    destruct (IH w1) as (w' & Hadv' & Hrun').
    rewrite for_each_cons, bind_run, Hrun, Hrun'. exists w'. split; [| done].
    rewrite delete_events_cons.
    rewrite (advances_length _ _ _ _ Hadv) in Hadv'.
    apply (advances_trans _ _ _ _ _ _ _ Hadv Hadv').
Qed.

Lemma cleanup_page_run b cutoff p w :
  tzinfo cutoff = None ->
  exists w',
    advances w (delete_events env cutoff b (length (trace w)) (contents p)) 0 w' /\
    cleanup_page env b cutoff p tt w = (Return tt, w').
Proof.
  intros Hc. destruct p as [objs|]; simpl.
  - by apply delete_loop_run.
  - exists w. split; [apply advances_refl | done].
Qed.

Lemma cleanup_pages_run b cutoff ps :
  tzinfo cutoff = None ->
  forall k w, exists w',
    advances w (cleanup_events env cutoff b ps k (length (trace w))) 0 w' /\
    for_pages b (Some "backup/") ps k tt (cleanup_page env b cutoff) w
    = (match listed ps with
       | Return _ => Return tt
       | Raise e => Raise e
       end, w').
Proof.
  intros Hc. induction ps as [e | p | p rest IH]; intros k w; simpl for_pages.
  - rewrite bind_run, request_raises. eexists.
    split; [apply advances_record | done].
  - rewrite bind_run, request_ok.
    set (w1 := record _ w).
    assert (Hw1 : length (trace w1) = S (length (trace w)))
      by (subst w1; simpl; rewrite length_app; simpl; lia).
    destruct (cleanup_page_run b cutoff p w1 Hc) as (w' & Hadv & Hrun).
    rewrite Hrun. eexists. split; [| done].
    rewrite Hw1 in Hadv.
    apply (advances_trans _ [_] 0 _ _ 0 _ (advances_record _ _) Hadv).
  - rewrite bind_run, request_ok, bind_run.
    set (w1 := record _ w).
    assert (Hw1 : length (trace w1) = S (length (trace w)))
      by (subst w1; simpl; rewrite length_app; simpl; lia).
    destruct (cleanup_page_run b cutoff p w1 Hc) as (w2 & Hadv & Hrun).
    rewrite Hrun.
    destruct (IH (S k) w2) as (w' & Hadv' & Hrun').
    rewrite Hrun'. exists w'. split; [| simpl; by destruct (listed rest)].
    rewrite (advances_length _ _ _ _ Hadv) in Hadv'.
    rewrite Hw1 in Hadv, Hadv'.
    pose proof (advances_trans _ [_] 0 _ _ 0 _ (advances_record _ _) Hadv) as H1.
    apply (advances_trans _ _ _ _ _ _ _ H1 Hadv').
Qed.

(** The retention pass always returns; its requests are those of
    [cleanup_events] when the cutoff can be computed, and none otherwise;
    whatever made it stop early is the last thing it logged. *)
Lemma cleanup_old_backups_run b r w :
  exists w',
    cleanup_old_backups env b r w = (Return tt, w') /\
    match sub_days (now env w) r with
    | Return cutoff =>
        advances w (cleanup_events env cutoff b (backup_pages env b w) 0
                                   (length (trace w))) 1 w' /\
        match listed (backup_pages env b w) with
        | Return _ => True
        | Raise e => logged_last ERROR ("Error cleaning up old backups: " +:+ exn_str e) w'
        end
    | Raise e =>
        advances w [] 1 w' /\
        logged_last ERROR ("Error cleaning up old backups: " +:+ exn_str e) w'
    end.
Proof.
  unfold cleanup_old_backups, try_except. rewrite bind_run.
  unfold utcnow at 1. fold (now env w). rewrite bind_run. unfold eval at 1.
  destruct (sub_days (now env w) r) as [cutoff | e] eqn:Hsub.
  - assert (Hc : tzinfo cutoff = None) by (by rewrite (sub_days_tzinfo _ _ _ Hsub)).
    unfold for_paginate.
    destruct (cleanup_pages_run b cutoff (pages env (length (trace (tick w))) b (Some "backup/"))
                                Hc 0 (tick w)) as (w' & Hadv & Hrun).
    rewrite Hrun. simpl in Hadv. fold (backup_pages env b w) in Hadv.
    change (pages env (length (trace (tick w))) b (Some "backup/"))
      with (backup_pages env b w).
    assert (Hadv1 : advances w (cleanup_events env cutoff b (backup_pages env b w) 0
                                              (length (trace w))) 1 w').
    { destruct Hadv as [Ht Hcl]. split; [done | simpl in Hcl; lia]. }
    destruct (listed (backup_pages env b w)) as [l | e].
    + exists w'. by split.
    + eexists. split; [reflexivity|]. split; [by apply advances_log|].
      by eexists.
  - eexists. split; [reflexivity|]. split.
    + apply advances_log. split; simpl; [by rewrite app_nil_r | lia].
    + by eexists.
Qed.

(** *** The metrics reporter *)

Lemma send_metrics_run c t w :
  exists w',
    send_metrics env c t w = (Return tt, w') /\
    advances w [metrics_event env c t w] 3 w' /\
    match ev_raised (metrics_event env c t w) with
    | None => log w' = log w
    | Some e => log w' = (log w ++ [(ERROR, "Error sending metrics: " +:+ exn_str e)])%list
    end.
Proof.
  unfold send_metrics, try_except, metrics_event, cloudwatch_put_metric_data,
    metric_data, now, utcnow, mbind, M_bind.
  cbn [tick trace clock_reads ev_raised].
  destruct (put_metric_outcome env (length (trace w)) "MapReduce/Backup" _) as [e|];
    cbn [request]; eexists; (split; [reflexivity|]); (split; [| done]);
    split; simpl; (done || lia).
Qed.

(** *** The handler *)

Lemma try_except_run {A} (body : M A) handler w :
  try_except body handler w =
    match body w with
    | (Return a, w') => (Return a, w')
    | (Raise e, w') => handler e w'
    end.
Proof. reflexivity. Qed.

(** Every run of the handler, by cases on what the interpreter makes of
    [RETENTION_DAYS] and on what the source listing gives. *)
Lemma lambda_handler_run w :
  let sb := source_bucket env in
  let bb := backup_bucket env in
  let ts := capture_timestamp env w in
  let ps := source_pages env w in
  let les := list_events sb None ps 0 in
  match py_int env (retention_setting env) with
  | Raise e =>
      exists w', lambda_handler env w = (Return (backup_failed e), w') /\
                 advances w [] 0 w'
  | Return r =>
      match listed ps with
      | Raise e =>
          exists w', lambda_handler env w = (Return (backup_failed e), w') /\
                     advances w les 1 w'
      | Return [] =>
          exists w', lambda_handler env w = (Return (nothing_to_backup ts), w') /\
                     advances w les 1 w'
      | Return objs =>
          let n := (length (trace w) + length les)%nat in
          let ok := copied env sb bb ts n objs in
          let c := Z.of_nat (length ok) in
          let t := sum_sizes ok in
          exists w3 w4 w5,
            advances w (les ++ copy_events env sb bb ts n objs) 1 w3 /\
            cleanup_old_backups env bb r w3 = (Return tt, w4) /\
            send_metrics env c t w4 = (Return tt, w5) /\
            lambda_handler env w
            = (Return (backup_completed ts c t),
               write_log INFO ("Backup completed: " +:+ str_int c +:+ " objects, "
                               +:+ str_int t +:+ " bytes") w5)
      end
  end.
Proof.
  intros sb bb ts ps les.
  cbv [lambda_handler try_except mbind M_bind eval logger_info utcnow mret M_ret].
  fold (retention_setting env) (source_bucket env) (backup_bucket env).
  destruct (py_int env (retention_setting env)) as [r | e].
  2:{ eexists. split; [reflexivity|]. apply advances_log, advances_refl. }
  fold sb bb.
  set (w0 := write_log INFO _ w).
  change (strftime_Ymd_HMS (replace_tzinfo_none (clock env (clock_reads w0)))) with ts.
  destruct (list_source_objects_run sb (tick w0)) as (w2 & Hadv & Hrun).
  change (pages env (length (trace (tick w0))) sb None) with ps in *.
  fold les in Hadv. rewrite Hrun.
  assert (Hadv2 : advances w les 1 w2).
  { destruct Hadv as [Ht Hc]. split; [done | simpl in Hc; lia]. }
  destruct (listed ps) as [[|o objs] | e].
  - eexists. split; [reflexivity|]. by apply advances_log.
  - set (n := (length (trace w) + length les)%nat).
    set (ok := copied env sb bb ts n (o :: objs)).
    destruct (backup_loop_run sb bb ts (o :: objs) 0 0 w2) as (w3 & Hadv3 & Hloop).
    assert (Hn : length (trace w2) = n)
      by (subst n; apply (advances_length _ _ _ _ Hadv2)).
    rewrite Hn in Hadv3, Hloop. fold ok in Hloop. rewrite !Z.add_0_l in Hloop.
    destruct (cleanup_old_backups_run bb r w3) as (w4 & Hclean & _).
    destruct (send_metrics_run (Z.of_nat (length ok)) (sum_sizes ok) w4)
      as (w5 & Hmet & _).
    exists w3, w4, w5. split; [apply (advances_trans _ _ _ _ _ _ _ Hadv2 Hadv3)|].
    split; [done|]. split; [done|].
    rewrite Hloop, Hclean, Hmet. reflexivity.
  - eexists. split; [reflexivity|]. by apply advances_log.
Qed.

Lemma cleanup_old_backups_delta b r w :
  exists w',
    cleanup_old_backups env b r w = (Return tt, w') /\
    advances w (cleanup_delta env b r w) 1 w'.
Proof.
  destruct (cleanup_old_backups_run b r w) as (w' & Hrun & H).
  exists w'. split; [done|]. unfold cleanup_delta.
  destruct (sub_days (now env w) r); tauto.
Qed.

(** A run over a non-empty listing: the listing, one copy attempt per
    object, the retention pass, the metrics, and the summary. *)
Lemma completed_run w r objs :
  py_int env (retention_setting env) = Return r ->
  listed (source_pages env w) = Return objs ->
  objs <> [] ->
  let sb := source_bucket env in
  let bb := backup_bucket env in
  let ts := capture_timestamp env w in
  let les := list_events sb None (source_pages env w) 0 in
  let n := (length (trace w) + length les)%nat in
  let c := Z.of_nat (length (copied env sb bb ts n objs)) in
  let t := sum_sizes (copied env sb bb ts n objs) in
  exists w3 w4 w5 w',
    advances w (les ++ copy_events env sb bb ts n objs) 1 w3 /\
    cleanup_old_backups env bb r w3 = (Return tt, w4) /\
    advances w3 (cleanup_delta env bb r w3) 1 w4 /\
    send_metrics env c t w4 = (Return tt, w5) /\
    advances w4 [metrics_event env c t w4] 3 w' /\
    log w' = (log w5 ++ [(INFO, "Backup completed: " +:+ str_int c +:+ " objects, "
                                +:+ str_int t +:+ " bytes")])%list /\
    lambda_handler env w = (Return (backup_completed ts c t), w').
Proof.
  intros Hint Hlist Hne sb bb ts les n c t.
  pose proof (lambda_handler_run w) as H. cbv zeta in H.
  rewrite Hint, Hlist in H. destruct objs as [|o objs]; [done|].
  destruct H as (w3 & w4 & w5 & Hadv3 & Hclean & Hmet & Hrun).
  destruct (cleanup_old_backups_delta bb r w3) as (w4' & Hclean' & Hadv4).
  pose proof (eq_trans (eq_sym Hclean) Hclean') as E4. inversion E4; subst w4'.
  destruct (send_metrics_run c t w4) as (w5' & Hmet' & Hadv5 & _).
  pose proof (eq_trans (eq_sym Hmet) Hmet') as E5. inversion E5; subst w5'.
  eexists w3, w4, w5, _.
  split; [exact Hadv3|]. split; [exact Hclean|]. split; [exact Hadv4|].
  split; [exact Hmet|]. split; [| split; [| exact Hrun]].
  - by apply advances_log.
  - reflexivity.
Qed.

End Runs.

(** ** Restoring one backup object *)

Section Restore.
Variable env : Env.

Lemma restore_from_backup_run sb bb key w :
  exists w',
    advances w (restore_events env sb bb key w) 0 w' /\
    match restore_succeeds env sb bb key w with
    | Return _ => restore_from_backup env sb bb key w = (Return true, w')
    | Raise e =>
        restore_from_backup env sb bb key w = (Return false, w') /\
        logged_last ERROR ("Error restoring " +:+ key +:+ ": " +:+ exn_str e) w'
    end.
Proof.
  cbv [restore_from_backup try_except mbind M_bind eval logger_info logger_error
       s3_head_object s3_copy_object mret M_ret restore_succeeds restore_events
       original_key restore_request].
  destruct (head_outcome env (length (trace w)) bb key) as [resp | e].
  2:{ eexists. split; [| split; [reflexivity | by eexists]].
      apply advances_log, advances_record. }
  destruct (head_Metadata resp) as [md|].
  2:{ eexists. split; [| split; [reflexivity | by eexists]].
      apply advances_log, advances_record. }
  destruct (getitem md "original-key") as [k | e].
  2:{ eexists. split; [| split; [reflexivity | by eexists]].
      apply advances_log, advances_record. }
  assert (Hlen : length (trace (record (mkEvent (head_object bb key) None) w))
                 = S (length (trace w)))
    by (simpl; rewrite length_app; simpl; lia).
  rewrite Hlen.
  destruct (copy_outcome env (S (length (trace w))) (mkCopy bb key sb k None)) as [e|];
    cbn [request].
  - eexists. split; [| split; [reflexivity | by eexists]].
    apply advances_log.
    apply (advances_trans _ [_] 0 _ [_] 0 _ (advances_record _ _) (advances_record _ _)).
  - eexists. split; [| reflexivity].
    apply advances_log.
    apply (advances_trans _ [_] 0 _ [_] 0 _ (advances_record _ _) (advances_record _ _)).
Qed.

End Restore.

(** ** The order of [datetime] values *)

Section DatetimeOrder.

Lemma days_before_year_succ y :
  1 <= y ->
  days_before_year (y + 1) = days_before_year y + 365 + (if is_leap y then 1 else 0).
Proof.
  intros Hy. unfold days_before_year, is_leap.
  replace (y + 1 - 1) with y by lia.
  destruct (Z.eqb_spec (y mod 4) 0), (Z.eqb_spec (y mod 100) 0),
    (Z.eqb_spec (y mod 400) 0); simpl; Z.to_euclidean_division_equations; lia.
Qed.

Lemma days_before_year_mono y1 y2 :
  1 <= y1 -> y1 <= y2 -> days_before_year y1 <= days_before_year y2.
Proof.
  intros H1 H2. unfold days_before_year. Z.to_euclidean_division_equations. lia.
Qed.

Lemma month_cases m :
  1 <= m <= 12 ->
  m = 1 \/ m = 2 \/ m = 3 \/ m = 4 \/ m = 5 \/ m = 6 \/
  m = 7 \/ m = 8 \/ m = 9 \/ m = 10 \/ m = 11 \/ m = 12.
Proof. lia. Qed.

Ltac each_month m Hm :=
  destruct (month_cases m Hm)
    as [->|[->|[->|[->|[->|[->|[->|[->|[->|[->|[->| ->]]]]]]]]]]].

Lemma days_in_year_bound y m d :
  valid_date y m d ->
  1 <= days_before_month y m + d <= 365 + (if is_leap y then 1 else 0).
Proof.
  intros (Hy & Hm & Hd). unfold days_before_month, days_in_month in *.
  destruct (is_leap y); each_month m Hm; simpl in *; lia.
Qed.

Lemma days_before_month_next y m d m' :
  valid_date y m d -> m < m' <= 12 ->
  days_before_month y m + d <= days_before_month y m'.
Proof.
  intros (Hy & Hm & Hd) Hm'. unfold days_before_month, days_in_month in *.
  assert (Hm2 : 1 <= m' <= 12) by lia.
  destruct (is_leap y); each_month m Hm; each_month m' Hm2; simpl in *; lia.
Qed.

(** The ordinal grows with the date. *)
Lemma ymd2ord_mono y1 m1 d1 y2 m2 d2 :
  valid_date y1 m1 d1 -> valid_date y2 m2 d2 ->
  y1 < y2 \/ (y1 = y2 /\ (m1 < m2 \/ (m1 = m2 /\ d1 < d2))) ->
  ymd2ord y1 m1 d1 < ymd2ord y2 m2 d2.
Proof.
  intros V1 V2 H. unfold ymd2ord.
  pose proof (days_in_year_bound _ _ _ V1) as B1.
  pose proof (days_in_year_bound _ _ _ V2) as B2.
  destruct H as [Hy | [-> [Hm | [-> Hd]]]].
  - pose proof (days_before_year_succ y1 ltac:(destruct V1; lia)) as S1.
    pose proof (days_before_year_mono (y1 + 1) y2
                  ltac:(destruct V1; lia) ltac:(lia)) as M.
    lia.
  - pose proof (days_before_month_next _ _ _ m2 V1
                  ltac:(destruct V2 as (_ & ? & _); lia)).
    destruct V2 as (_ & _ & ?). lia.
  - lia.
Qed.

Lemma shiftr_5 n : Z.shiftr n 5 = n / 32.
Proof. rewrite Z.shiftr_div_pow2 by lia. reflexivity. Qed.

(** [ord2ymd] gives the date of the calendar that has the ordinal. *)
Lemma ord2ymd_spec o :
  1 <= o <= MAXORDINAL ->
  let '(y, m, d) := ord2ymd o in
  valid_date y m d /\ ymd2ord y m d = o.
Proof.
  intros Ho. unfold ord2ymd, MAXORDINAL, DI400Y, DI100Y, DI4Y in *.
  set (n := o - 1).
  set (n400 := n / 146097). set (r400 := n mod 146097).
  set (n100 := r400 / 36524). set (r100 := r400 mod 36524).
  set (n4 := r100 / 1461). set (r4 := r100 mod 1461).
  set (n1 := r4 / 365). set (r1 := r4 mod 365).
  assert (Hn : 0 <= n <= 3652058) by lia.
  assert (E400 : n = 146097 * n400 + r400 /\ 0 <= r400 < 146097)
    by (subst n400 r400; pose proof (Z.div_mod n 146097);
        pose proof (Z.mod_pos_bound n 146097); lia).
  assert (E100 : r400 = 36524 * n100 + r100 /\ 0 <= r100 < 36524)
    by (subst n100 r100; pose proof (Z.div_mod r400 36524);
        pose proof (Z.mod_pos_bound r400 36524); lia).
  assert (E4 : r100 = 1461 * n4 + r4 /\ 0 <= r4 < 1461)
    by (subst n4 r4; pose proof (Z.div_mod r100 1461);
        pose proof (Z.mod_pos_bound r100 1461); lia).
  assert (E1 : r4 = 365 * n1 + r1 /\ 0 <= r1 < 365)
    by (subst n1 r1; pose proof (Z.div_mod r4 365);
        pose proof (Z.mod_pos_bound r4 365); lia).
  clearbody n400 r400 n100 r100 n4 r4 n1 r1.
  assert (B400 : 0 <= n400 <= 24) by lia.
  assert (B100 : 0 <= n100 <= 4) by lia.
  assert (B4 : 0 <= n4 <= 24) by lia.
  assert (B1 : 0 <= n1 <= 4) by lia.
  destruct (Z.eqb_spec n1 4) as [H14 | H14]; simpl.
  { (* the last day of a leap year that ends no century *)
    unfold valid_date, ymd2ord, days_in_month, days_before_month, days_before_year,
      is_leap.
    replace (n400 * 400 + 1 + n100 * 100 + n4 * 4 + n1 - 1)
      with (400 * n400 + 100 * n100 + 4 * n4 + 4) by lia.
    simpl.
    assert (n4 <= 23) by lia.
    assert (n100 <= 3) by lia.
    replace ((400 * n400 + 100 * n100 + 4 * n4 + 4) mod 4) with 0
      by (Z.to_euclidean_division_equations; lia).
    simpl.
    destruct (Z.eqb_spec ((400 * n400 + 100 * n100 + 4 * n4 + 4) mod 100) 0);
      destruct (Z.eqb_spec ((400 * n400 + 100 * n100 + 4 * n4 + 4) mod 400) 0); simpl;
      (split; [lia|]); Z.to_euclidean_division_equations; lia. }
  destruct (Z.eqb_spec n100 4) as [H1004 | H1004]; simpl.
  { (* the last day of a year that ends four centuries *)
    unfold valid_date, ymd2ord, days_in_month, days_before_month, days_before_year,
      is_leap.
    assert (n4 = 0 /\ n1 = 0 /\ r1 = 0) as (-> & -> & ->) by lia. subst n100.
    replace (n400 * 400 + 1 + 4 * 100 + 0 * 4 + 0 - 1) with (400 * (n400 + 1)) by lia.
    simpl.
    replace ((400 * (n400 + 1)) mod 4) with 0
      by (Z.to_euclidean_division_equations; lia).
    replace ((400 * (n400 + 1)) mod 100) with 0
      by (Z.to_euclidean_division_equations; lia).
    replace ((400 * (n400 + 1)) mod 400) with 0
      by (Z.to_euclidean_division_equations; lia).
    simpl. split; [lia|]. Z.to_euclidean_division_equations; lia. }
  assert (Hleap : is_leap (n400 * 400 + 1 + n100 * 100 + n4 * 4 + n1)
                  = (n1 =? 3) && (negb (n4 =? 24) || (n100 =? 3))).
  { unfold is_leap.
    destruct (Z.eqb_spec n1 3), (Z.eqb_spec n4 24), (Z.eqb_spec n100 3); simpl;
      destruct (Z.eqb_spec ((n400 * 400 + 1 + n100 * 100 + n4 * 4 + n1) mod 4) 0);
      destruct (Z.eqb_spec ((n400 * 400 + 1 + n100 * 100 + n4 * 4 + n1) mod 100) 0);
      destruct (Z.eqb_spec ((n400 * 400 + 1 + n100 * 100 + n4 * 4 + n1) mod 400) 0);
      simpl; try reflexivity; exfalso; Z.to_euclidean_division_equations; lia. }
  assert (Hdby : days_before_year (n400 * 400 + 1 + n100 * 100 + n4 * 4 + n1) = n - r1).
  { unfold days_before_year. Z.to_euclidean_division_equations; lia. }
  set (y := n400 * 400 + 1 + n100 * 100 + n4 * 4 + n1) in *.
  assert (Hy : 1 <= y <= 9999) by (subst y; lia).
  rewrite <- Hleap. rewrite shiftr_5.
  set (m := (r1 + 50) / 32).
  assert (Em : 32 * m <= r1 + 50 < 32 * m + 32)
    by (subst m; Z.to_euclidean_division_equations; lia).
  assert (Hm : 1 <= m <= 12) by lia.
  clearbody m. clear Hleap.
  destruct (is_leap y) eqn:Hl; each_month m Hm; simpl;
    match goal with |- context [?a <? ?b] => destruct (Z.ltb_spec a b) end;
    unfold valid_date, ymd2ord, days_in_month, days_before_month;
    rewrite Hdby, Hl; simpl; lia.
Qed.

(** Subtracting days moves a valid time back by that many days on the time
    line, and gives a valid time. *)
Lemma sub_days_spec d n c :
  valid d -> sub_days d n = Return c ->
  valid c /\ wall_micros c = wall_micros d - n * 86400000000.
Proof.
  intros (Hy & Hm & Hd & Hrest). unfold sub_days.
  destruct ((n <? -2147483648) || (2147483647 <? n)); [done|].
  destruct ((n <? -999999999) || (999999999 <? n)); [done|].
  set (o := ymd2ord (year d) (month d) (day d) - n).
  destruct (Z.ltb_spec 0 o); [|done].
  destruct (Z.leb_spec o MAXORDINAL); [|done]. simpl.
  pose proof (ord2ymd_spec o ltac:(lia)) as Hspec.
  destruct (ord2ymd o) as [[y m] dd]. destruct Hspec as [(Vy & Vm & Vd) Hord].
  intros [= <-]. split.
  - unfold valid. simpl. tauto.
  - unfold wall_micros. simpl. rewrite Hord. subst o. lia.
Qed.

Lemma valid_date_of d : valid d -> valid_date (year d) (month d) (day d).
Proof. unfold valid, valid_date. tauto. Qed.

Ltac decide_lt x y :=
  destruct (Z.ltb_spec x y); simpl;
  [ symmetry; apply Z.ltb_lt; lia |];
  destruct (Z.eqb_spec x y); simpl;
  [| symmetry; apply Z.ltb_ge; lia ].

(** Comparing two valid naive values field by field is comparing their
    places on the time line. *)
Lemma lex_lt_wall_micros a b :
  valid a -> valid b ->
  lex_lt (fields a) (fields b) = (wall_micros a <? wall_micros b).
Proof.
  intros Va Vb.
  pose proof (ymd2ord_mono _ _ _ _ _ _ (valid_date_of _ Va) (valid_date_of _ Vb)) as Hab.
  pose proof (ymd2ord_mono _ _ _ _ _ _ (valid_date_of _ Vb) (valid_date_of _ Va)) as Hba.
  assert (Heq : year a = year b -> month a = month b -> day a = day b ->
                ymd2ord (year a) (month a) (day a) = ymd2ord (year b) (month b) (day b))
    by (by intros -> -> ->).
  unfold wall_micros, fields, lex_lt.
  destruct Va as (_ & _ & _ & Hh & Hm & Hs & Hu).
  destruct Vb as (_ & _ & _ & Hh' & Hm' & Hs' & Hu').
  generalize dependent (ymd2ord (year a) (month a) (day a)).
  generalize dependent (ymd2ord (year b) (month b) (day b)).
  intros ob oa Hab Hba Heq.
  decide_lt (year a) (year b).
  decide_lt (month a) (month b).
  decide_lt (day a) (day b).
  assert (oa = ob) by auto. subst ob. clear Hab Hba Heq.
  decide_lt (hour a) (hour b).
  decide_lt (minute a) (minute b).
  decide_lt (second a) (second b).
  decide_lt (microsecond a) (microsecond b).
  symmetry. apply Z.ltb_ge. lia.
Qed.

Lemma valid_replace_tzinfo_none d : valid d -> valid (replace_tzinfo_none d).
Proof. done. Qed.

(** The test of the retention pass is the order of the time line. *)
Lemma expired_strictly_earlier cutoff o :
  valid (obj_LastModified o) -> valid cutoff ->
  expired cutoff o = true <-> strictly_earlier cutoff o.
Proof.
  intros Vo Vc. unfold expired, strictly_earlier.
  rewrite (lex_lt_wall_micros _ _ (valid_replace_tzinfo_none _ Vo) Vc).
  apply Z.ltb_lt.
Qed.

Lemma lex_lt_irrefl l : lex_lt l l = false.
Proof.
  induction l as [|x l IH]; [done|]. simpl.
  rewrite Z.ltb_irrefl, Z.eqb_refl, IH. done.
Qed.

(** An object last modified exactly at the cutoff is not expired. *)
Lemma expired_at_cutoff cutoff o :
  fields (replace_tzinfo_none (obj_LastModified o)) = fields cutoff ->
  expired cutoff o = false.
Proof. unfold expired. intros ->. apply lex_lt_irrefl. Qed.

End DatetimeOrder.

(** ** The requests in a trace, by kind *)

Section Traces.
Variable env : Env.

Lemma copy_requests_list_events b p ps k : copy_requests (list_events b p ps k) = [].
Proof. revert k. induction ps; intros k; simpl; auto. Qed.

Lemma delete_requests_list_events b p ps k : delete_requests (list_events b p ps k) = [].
Proof. revert k. induction ps; intros k; simpl; auto. Qed.

Lemma metric_requests_list_events b p ps k : metric_requests (list_events b p ps k) = [].
Proof. revert k. induction ps; intros k; simpl; auto. Qed.

Lemma list_requests_list_events b p ps k :
  Forall (fun q => q.1 = (b, p)) (list_requests (list_events b p ps k)).
Proof.
  revert k. induction ps; intros k; simpl; repeat constructor; auto.
Qed.

Lemma successful_copies_list_events b p ps k :
  successful_copies (list_events b p ps k) = [].
Proof. revert k. induction ps; intros k; simpl; auto. Qed.

Lemma failed_copies_list_events b p ps k :
  failed_copies (list_events b p ps k) = [].
Proof. revert k. induction ps; intros k; simpl; auto. Qed.

Lemma copy_requests_copy_events sb bb ts objs : forall n,
  copy_requests (copy_events env sb bb ts n objs) = map (backup_request sb bb ts) objs.
Proof. induction objs as [|o objs IH]; intros n; simpl; [done | by rewrite IH]. Qed.

Lemma successful_copies_copy_events sb bb ts objs : forall n,
  successful_copies (copy_events env sb bb ts n objs)
  = map (backup_request sb bb ts) (copied env sb bb ts n objs).
Proof.
  induction objs as [|o objs IH]; intros n; [done|].
  simpl. unfold successful_copies in *. simpl.
  destruct (copy_outcome env n (backup_request sb bb ts o)); simpl; by rewrite IH.
Qed.

Lemma failed_copies_copy_events sb bb ts objs : forall n,
  failed_copies (copy_events env sb bb ts n objs) = [] ->
  copied env sb bb ts n objs = objs.
Proof.
  induction objs as [|o objs IH]; intros n; [done|].
  simpl. unfold failed_copies in *. simpl.
  destruct (copy_outcome env n (backup_request sb bb ts o)); simpl; [done|].
  intros H. by rewrite IH.
Qed.

Lemma copied_sublist sb bb ts objs : forall n,
  copied env sb bb ts n objs `sublist_of` objs.
Proof.
  induction objs as [|o objs IH]; intros n; simpl; [constructor|].
  destruct (copy_outcome env n (backup_request sb bb ts o)).
  - by apply sublist_cons.
  - by apply sublist_skip.
Qed.

Lemma delete_requests_copy_events sb bb ts objs : forall n,
  delete_requests (copy_events env sb bb ts n objs) = [].
Proof. induction objs; intros n; simpl; auto. Qed.

Lemma metric_requests_copy_events sb bb ts objs : forall n,
  metric_requests (copy_events env sb bb ts n objs) = [].
Proof. induction objs; intros n; simpl; auto. Qed.

Lemma list_requests_copy_events sb bb ts objs : forall n,
  list_requests (copy_events env sb bb ts n objs) = [].
Proof. induction objs; intros n; simpl; auto. Qed.

Lemma delete_requests_delete_events cutoff b objs : forall n,
  delete_requests (delete_events env cutoff b n objs)
  = map (fun o => (b, obj_Key o)) (List.filter (expired cutoff) objs).
Proof.
  induction objs as [|o objs IH]; intros n; [done|].
  simpl. destruct (expired cutoff o); simpl; by rewrite IH.
Qed.

Lemma copy_requests_delete_events cutoff b objs : forall n,
  copy_requests (delete_events env cutoff b n objs) = [].
Proof.
  induction objs as [|o objs IH]; intros n; [done|].
  simpl. destruct (expired cutoff o); simpl; by rewrite IH.
Qed.

Lemma metric_requests_delete_events cutoff b objs : forall n,
  metric_requests (delete_events env cutoff b n objs) = [].
Proof.
  induction objs as [|o objs IH]; intros n; [done|].
  simpl. destruct (expired cutoff o); simpl; by rewrite IH.
Qed.

Lemma list_requests_delete_events cutoff b objs : forall n,
  list_requests (delete_events env cutoff b n objs) = [].
Proof.
  induction objs as [|o objs IH]; intros n; [done|].
  simpl. destruct (expired cutoff o); simpl; by rewrite IH.
Qed.

Lemma filter_app_bool {A} (f : A -> bool) l1 l2 :
  List.filter f (l1 ++ l2) = (List.filter f l1 ++ List.filter f l2)%list.
Proof. induction l1 as [|x l1 IH]; simpl; [done|]. destruct (f x); simpl; by rewrite IH. Qed.

Lemma delete_requests_cleanup_events cutoff b ps : forall k n,
  delete_requests (cleanup_events env cutoff b ps k n)
  = map (fun o => (b, obj_Key o)) (List.filter (expired cutoff) (yielded ps)).
Proof.
  unfold delete_requests.
  induction ps as [e | p | p rest IH]; intros k n; simpl.
  - done.
  - apply delete_requests_delete_events.
  - rewrite omap_app, IH, filter_app_bool, map_app. f_equal.
    apply delete_requests_delete_events.
Qed.

Lemma copy_requests_cleanup_events cutoff b ps : forall k n,
  copy_requests (cleanup_events env cutoff b ps k n) = [].
Proof.
  unfold copy_requests.
  induction ps as [e | p | p rest IH]; intros k n; simpl.
  - done.
  - apply copy_requests_delete_events.
  - rewrite omap_app, IH, app_nil_r. apply copy_requests_delete_events.
Qed.

Lemma metric_requests_cleanup_events cutoff b ps : forall k n,
  metric_requests (cleanup_events env cutoff b ps k n) = [].
Proof.
  unfold metric_requests.
  induction ps as [e | p | p rest IH]; intros k n; simpl.
  - done.
  - apply metric_requests_delete_events.
  - rewrite omap_app, IH, app_nil_r. apply metric_requests_delete_events.
Qed.

Lemma list_requests_cleanup_events cutoff b ps : forall k n,
  list_requests (cleanup_events env cutoff b ps k n)
  = list_requests (list_events b (Some "backup/") ps k).
Proof.
  unfold list_requests.
  induction ps as [e | p | p rest IH]; intros k n; simpl.
  - done.
  - f_equal. apply list_requests_delete_events.
  - rewrite omap_app, IH. f_equal.
    change (omap is_list ?l) with (list_requests l).
    by rewrite list_requests_delete_events.
Qed.

Lemma copy_requests_cleanup_delta b r w : copy_requests (cleanup_delta env b r w) = [].
Proof.
  unfold cleanup_delta. destruct (sub_days _ _); [|done].
  apply copy_requests_cleanup_events.
Qed.

Lemma metric_requests_cleanup_delta b r w : metric_requests (cleanup_delta env b r w) = [].
Proof.
  unfold cleanup_delta. destruct (sub_days _ _); [|done].
  apply metric_requests_cleanup_events.
Qed.

End Traces.

(** ** The layout of timestamps *)

Section Timestamps.

Lemma all_from_spec P n : forall lo,
  all_from P lo n = true -> forall z, lo <= z < lo + Z.of_nat n -> P z = true.
Proof.
  induction n as [|n IH]; intros lo H z Hz; [lia|].
  simpl in H. apply andb_true_iff in H as [H0 H1].
  destruct (Z.eq_dec z lo) as [->|Hne]; [done|].
  apply (IH (lo + 1) H1). lia.
Qed.

Lemma pct_0d_2_digits n : 0 <= n <= 99 -> pct_0d 2 n = digits2 n.
Proof.
  intros Hn. apply String.eqb_eq.
  apply (all_from_spec (fun n => String.eqb (pct_0d 2 n) (digits2 n)) (Z.to_nat 100) 0);
    [by vm_compute | lia].
Qed.

Lemma pct_0d_4_digits n : 1000 <= n <= 9999 -> pct_0d 4 n = digits4 n.
Proof.
  intros Hn. apply String.eqb_eq.
  apply (all_from_spec (fun n => String.eqb (pct_0d 4 n) (digits4 n)) (Z.to_nat 9000) 1000);
    [by vm_compute | lia].
Qed.

Lemma str_int_4_digits n : 1000 <= n <= 9999 -> str_int n = digits4 n.
Proof.
  intros Hn. apply String.eqb_eq.
  apply (all_from_spec (fun n => String.eqb (str_int n) (digits4 n)) (Z.to_nat 9000) 1000);
    [by vm_compute | lia].
Qed.

Lemma days_in_month_le_31 y m : days_in_month y m <= 31.
Proof.
  unfold days_in_month. destruct ((m =? 2) && is_leap y); [lia|].
  destruct (Z.to_nat m) as [|[|[|[|[|[|[|[|[|[|[|[|[|k]]]]]]]]]]]]]; simpl; try lia.
  destruct k; simpl; lia.
Qed.

(** From year 1000 on, [strftime('%Y%m%d_%H%M%S')] is the fifteen
    characters [YYYYMMDD_HHMMSS]. *)
Lemma strftime_layout d :
  valid d -> 1000 <= year d -> strftime_Ymd_HMS d = YYYYMMDD_HHMMSS d.
Proof.
  intros (Hy & Hm & Hd & Hh & Hmi & Hs & _) Hy'.
  pose proof (days_in_month_le_31 (year d) (month d)).
  unfold strftime_Ymd_HMS, YYYYMMDD_HHMMSS.
  rewrite (str_int_4_digits (year d)) by lia.
  rewrite !pct_0d_2_digits by lia. done.
Qed.

Lemma layout_length d : String.length (YYYYMMDD_HHMMSS d) = 15%nat.
Proof. reflexivity. Qed.

(** [str] of an integer is its decimal numeral: reading it gives the
    integer back. *)
Lemma str_int_reads_back n :
  option_map Z.of_int (NilZero.int_of_string (str_int n)) = Some n.
Proof.
  unfold str_int. rewrite NilZero.isi.
  - simpl. f_equal. apply DecimalZ.of_to.
  - destruct n; simpl; try discriminate.
    intros [= H]. by apply Unsigned.to_uint_nonnil in H.
  - destruct n; simpl; try discriminate.
    intros [= H]. by apply Unsigned.to_uint_nonnil in H.
Qed.

Example str_int_100 : str_int 100 = "100".
Proof. reflexivity. Qed.

Example isoformat_utc :
  isoformat (mkDatetime 2024 1 2 3 4 5 0 (Some 0)) = "2024-01-02T03:04:05+00:00".
Proof. reflexivity. Qed.

Example isoformat_micros :
  isoformat (mkDatetime 2024 1 2 3 4 5 678 (Some 0)) = "2024-01-02T03:04:05.000678+00:00".
Proof. reflexivity. Qed.

Example sub_days_30 :
  sub_days (mkDatetime 2024 1 15 9 30 0 0 None) 30
  = Return (mkDatetime 2023 12 16 9 30 0 0 None).
Proof. reflexivity. Qed.

Example sub_days_no_C_int :
  sub_days (mkDatetime 2024 1 15 9 30 0 0 None) 2147483648
  = Raise (OverflowError "Python int too large to convert to C int") /\
  sub_days (mkDatetime 2024 1 15 9 30 0 0 None) (-2147483649)
  = Raise (OverflowError "Python int too large to convert to C int").
Proof. split; reflexivity. Qed.

Example sub_days_magnitude :
  sub_days (mkDatetime 2024 1 15 9 30 0 0 None) 2147483647
  = Raise (OverflowError "days=2147483647; must have magnitude <= 999999999") /\
  sub_days (mkDatetime 2024 1 15 9 30 0 0 None) (-2147483648)
  = Raise (OverflowError "days=-2147483648; must have magnitude <= 999999999").
Proof. split; reflexivity. Qed.

Example sub_days_date_range :
  sub_days (mkDatetime 2024 1 15 9 30 0 0 None) 999999999
  = Raise (OverflowError "date value out of range") /\
  sub_days (mkDatetime 2024 1 15 9 30 0 0 None) (-3000000)
  = Raise (OverflowError "date value out of range").
Proof. split; reflexivity. Qed.

Example strftime_unpadded_year :
  strftime_Ymd_HMS (mkDatetime 999 1 15 9 30 0 0 None) = "9990115_093000".
Proof. reflexivity. Qed.

Example sub_days_leap :
  sub_days (mkDatetime 2024 3 1 0 0 0 0 None) 1
  = Return (mkDatetime 2024 2 29 0 0 0 0 None).
Proof. reflexivity. Qed.

End Timestamps.

(** ** The trace of a whole run *)

Section WholeRun.
Variable env : Env.

Lemma copy_requests_app l1 l2 :
  copy_requests (l1 ++ l2) = (copy_requests l1 ++ copy_requests l2)%list.
Proof. apply omap_app. Qed.

Lemma successful_copies_app l1 l2 :
  successful_copies (l1 ++ l2) = (successful_copies l1 ++ successful_copies l2)%list.
Proof. apply omap_app. Qed.

Lemma failed_copies_app l1 l2 :
  failed_copies (l1 ++ l2) = (failed_copies l1 ++ failed_copies l2)%list.
Proof. apply omap_app. Qed.

Lemma metric_requests_app l1 l2 :
  metric_requests (l1 ++ l2) = (metric_requests l1 ++ metric_requests l2)%list.
Proof. apply omap_app. Qed.

Lemma delete_requests_app l1 l2 :
  delete_requests (l1 ++ l2) = (delete_requests l1 ++ delete_requests l2)%list.
Proof. apply omap_app. Qed.

Lemma successful_copies_none tr : copy_requests tr = [] -> successful_copies tr = [].
Proof.
  unfold copy_requests, successful_copies.
  induction tr as [|ev tr IH]; [done|]. simpl.
  destruct (is_copy ev); [done|]. intros H.
  destruct (ev_raised ev); by apply IH.
Qed.

Lemma failed_copies_none tr : copy_requests tr = [] -> failed_copies tr = [].
Proof.
  unfold copy_requests, failed_copies.
  induction tr as [|ev tr IH]; [done|]. simpl.
  destruct (is_copy ev); [done|]. intros H.
  destruct (ev_raised ev); by apply IH.
Qed.

Lemma copies_partition tr :
  (length (successful_copies tr) + length (failed_copies tr))%nat
  = length (copy_requests tr).
Proof.
  unfold copy_requests, successful_copies, failed_copies.
  induction tr as [|ev tr IH]; [done|]. cbn [omap list_omap].
  destruct (ev_raised ev), (is_copy ev); cbn [length]; lia.
Qed.

Lemma copy_requests_metrics_event c t w : copy_requests [metrics_event env c t w] = [].
Proof. reflexivity. Qed.

(** The requests of a run over a non-empty listing, in order: the pages of
    the source listing, one copy per object, the retention pass, the
    metrics. *)
Lemma completed_trace w r objs :
  py_int env (retention_setting env) = Return r ->
  listed (source_pages env w) = Return objs ->
  objs <> [] ->
  let sb := source_bucket env in
  let bb := backup_bucket env in
  let ts := capture_timestamp env w in
  let les := list_events sb None (source_pages env w) 0 in
  let n := (length (trace w) + length les)%nat in
  let c := Z.of_nat (length (copied env sb bb ts n objs)) in
  let t := sum_sizes (copied env sb bb ts n objs) in
  exists w3 w4 w',
    lambda_handler env w = (Return (backup_completed ts c t), w') /\
    advances w (les ++ copy_events env sb bb ts n objs) 1 w3 /\
    advances w3 (cleanup_delta env bb r w3) 1 w4 /\
    advances w (les ++ copy_events env sb bb ts n objs
                ++ cleanup_delta env bb r w3 ++ [metrics_event env c t w4]) 5 w'.
Proof.
  intros Hint Hlist Hne sb bb ts les n c t.
  destruct (completed_run env w r objs Hint Hlist Hne)
    as (w3 & w4 & w5 & w' & H3 & _ & H4 & _ & H5 & _ & Hrun).
  exists w3, w4, w'. split; [exact Hrun|]. split; [exact H3|]. split; [exact H4|].
  pose proof (advances_trans _ _ _ _ _ _ _ (advances_trans _ _ _ _ _ _ _ H3 H4) H5) as H.
  rewrite <- !app_assoc in H. exact H.
Qed.

(** Of the requests of such a run, only those of the copy loop are copies. *)
Lemma run_copy_requests sb bb ts r objs ps n w3 w4 c t :
  let delta := (list_events sb None ps 0 ++ copy_events env sb bb ts n objs
                ++ cleanup_delta env bb r w3 ++ [metrics_event env c t w4])%list in
  copy_requests delta = map (backup_request sb bb ts) objs /\
  successful_copies delta = map (backup_request sb bb ts) (copied env sb bb ts n objs) /\
  failed_copies delta = failed_copies (copy_events env sb bb ts n objs).
Proof.
  cbv zeta. split; [| split].
  - rewrite !copy_requests_app.
    rewrite copy_requests_list_events, copy_requests_copy_events,
      copy_requests_cleanup_delta, copy_requests_metrics_event.
    simpl. by rewrite app_nil_r.
  - rewrite !successful_copies_app.
    rewrite successful_copies_list_events, successful_copies_copy_events,
      (successful_copies_none _ (copy_requests_cleanup_delta env bb r w3)),
      (successful_copies_none _ (copy_requests_metrics_event _ _ _)).
    simpl. by rewrite app_nil_r.
  - rewrite !failed_copies_app.
    rewrite failed_copies_list_events,
      (failed_copies_none _ (copy_requests_cleanup_delta env bb r w3)),
      (failed_copies_none _ (copy_requests_metrics_event _ _ _)).
    simpl. by rewrite app_nil_r.
Qed.

End WholeRun.

(** ** Properties of the backup flow *)

(** C1.  On a non-empty source listing the run answers with the tally of
    the objects whose copy succeeded: [objects_backed_up] is their number,
    at most the number of listed objects and equal to it when no copy
    fails, and [total_size_bytes] is the sum of their sizes.  Every listed
    object gets its copy request, whatever happened to the ones before it,
    and an object whose copy raised is in neither figure. *)
Theorem backup_tally env w r objs :
  py_int env (retention_setting env) = Return r ->
  listed (source_pages env w) = Return objs ->
  objs <> [] ->
  let sb := source_bucket env in
  let bb := backup_bucket env in
  let ts := capture_timestamp env w in
  let n := (length (trace w) + length (list_events sb None (source_pages env w) 0))%nat in
  let ok := copied env sb bb ts n objs in
  exists delta w',
    lambda_handler env w
    = (Return (backup_completed ts (Z.of_nat (length ok)) (sum_sizes ok)), w') /\
    trace w' = (trace w ++ delta)%list /\
    copy_requests delta = map (backup_request sb bb ts) objs /\
    successful_copies delta = map (backup_request sb bb ts) ok /\
    ok `sublist_of` objs /\
    (length (successful_copies delta) + length (failed_copies delta))%nat = length objs /\
    (length ok <= length objs)%nat /\
    (failed_copies delta = [] -> ok = objs).
Proof.
  intros Hint Hlist Hne sb bb ts n ok.
  destruct (completed_trace env w r objs Hint Hlist Hne)
    as (w3 & w4 & w' & Hrun & _ & _ & [Htrace _]).
  eexists _, w'. split; [exact Hrun|]. split; [exact Htrace|].
  fold sb bb ts n ok.
  pose proof (run_copy_requests env sb bb ts r objs (source_pages env w) n w3 w4
                (Z.of_nat (length ok)) (sum_sizes ok)) as (Hcopies & Hok & Hfailed).
  fold ok in Hok.
  split; [exact Hcopies|]. split; [exact Hok|].
  split; [apply copied_sublist|].
  split; [by rewrite copies_partition, Hcopies, length_map|].
  split; [apply sublist_length, copied_sublist|].
  rewrite Hfailed. apply failed_copies_copy_events.
Qed.

(** C2.  The retention pass asks [list_objects_v2] for the prefix
    [backup/] only, and it asks for the deletion of exactly the objects on
    the pages it was given whose last-modified time, its timezone dropped,
    compares below the cutoff.  The cutoff is the current UTC time moved
    back by [retention_days] days, and the comparison is the order of the
    time line: an object last modified strictly before the cutoff goes, one
    last modified at the cutoff or later stays. *)
Theorem retention_deletes_expired env b r w cutoff :
  valid (now env w) ->
  sub_days (now env w) r = Return cutoff ->
  exists delta w',
    cleanup_old_backups env b r w = (Return tt, w') /\
    trace w' = (trace w ++ delta)%list /\
    Forall (fun q => q.1 = (b, Some "backup/")) (list_requests delta) /\
    delete_requests delta
    = map (fun o => (b, obj_Key o))
          (List.filter (expired cutoff) (yielded (backup_pages env b w))) /\
    wall_micros cutoff = wall_micros (now env w) - r * 86400000000 /\
    (forall o, valid (obj_LastModified o) ->
               (expired cutoff o = true <-> strictly_earlier cutoff o)) /\
    (forall o, fields (replace_tzinfo_none (obj_LastModified o)) = fields cutoff ->
               expired cutoff o = false).
Proof.
  intros Hnow Hsub.
  destruct (sub_days_spec _ _ _ Hnow Hsub) as [Hvalid Hmicros].
  destruct (cleanup_old_backups_run env b r w) as (w' & Hrun & H).
  rewrite Hsub in H. destruct H as [[Htrace _] _].
  eexists _, w'. split; [exact Hrun|]. split; [exact Htrace|].
  split; [| split; [| split; [exact Hmicros | split]]].
  - rewrite list_requests_cleanup_events. apply list_requests_list_events.
  - apply delete_requests_cleanup_events.
  - intros o Ho. by apply expired_strictly_earlier.
  - apply expired_at_cutoff.
Qed.

Section EveryRun.
Variable env : Env.

Lemma listed_yielded ps l : listed ps = Return l -> yielded ps = l.
Proof.
  revert l. induction ps as [e | p | p rest IH]; intros l; simpl.
  - done.
  - by intros [= <-].
  - destruct (listed rest) as [l' | e]; [|done].
    intros [= <-]. by rewrite (IH l' eq_refl).
Qed.

(** Whatever happens, the handler returns a response; it reads the clock
    at most five times, and its copy requests are those for the listed
    objects, or none. *)
Lemma every_run w :
  exists delta resp w',
    lambda_handler env w = (Return resp, w') /\
    trace w' = (trace w ++ delta)%list /\
    (copy_requests delta = [] \/
     copy_requests delta
     = map (backup_request (source_bucket env) (backup_bucket env)
                           (capture_timestamp env w))
           (yielded (source_pages env w))).
Proof.
  pose proof (lambda_handler_run env w) as H. cbv zeta in H.
  destruct (py_int env (retention_setting env)) as [r | e] eqn:Hint.
  - destruct (listed (source_pages env w)) as [[|o objs] | e] eqn:Hlist.
    + destruct H as (w' & Hrun & [Ht _]).
      eexists _, _, w'. split; [exact Hrun|]. split; [exact Ht|].
      left. apply copy_requests_list_events.
    + clear H.
      destruct (completed_trace env w r (o :: objs) Hint Hlist ltac:(done))
        as (w3 & w4 & w' & Hrun & _ & _ & [Ht _]).
      eexists _, _, w'. split; [exact Hrun|]. split; [exact Ht|].
      right. rewrite (listed_yielded _ _ Hlist). apply run_copy_requests.
    + destruct H as (w' & Hrun & [Ht _]).
      eexists _, _, w'. split; [exact Hrun|]. split; [exact Ht|].
      left. apply copy_requests_list_events.
  - destruct H as (w' & Hrun & [Ht _]).
    eexists _, _, w'. split; [exact Hrun|]. split; [exact Ht|]. by left.
Qed.

End EveryRun.

Section BackupObjects.

Lemma backup_metadata_dom sb ts obj : dom (backup_metadata sb ts obj) = metadata_keys.
Proof.
  unfold backup_metadata, metadata_keys.
  rewrite !dom_insert_L, dom_empty_L. set_solver.
Qed.

Lemma backup_metadata_lookup sb ts obj :
  let md := backup_metadata sb ts obj in
  md !! "original-bucket" = Some sb /\
  md !! "original-key" = Some (Some (obj_Key obj)) /\
  md !! "backup-timestamp" = Some (Some ts) /\
  md !! "original-size" = Some (Some (str_int (obj_Size obj))) /\
  md !! "original-last-modified" = Some (Some (isoformat (obj_LastModified obj))).
Proof. cbv zeta. unfold backup_metadata. repeat split; by simplify_map_eq. Qed.

End BackupObjects.

(** X21.  Every copy the handler asks for, in any run, is the copy of a
    listed object [obj] from the source bucket to the backup bucket at the
    key [backup/<timestamp>/<key of obj>], with a metadata mapping of
    exactly five keys: the source bucket, the key, the timestamp, the size
    as the decimal numeral that reads back to it, and the last-modified
    time in ISO 8601 ([isoformat]).  The timestamp is
    that of the clock reading the run starts with (a valid time of year
    1000 or later), laid out as [YYYYMMDD_HHMMSS]; at 20240115_093000 the
    object [data/file.csv] goes to [backup/20240115_093000/data/file.csv]. *)
Theorem backup_key_and_metadata env w :
  valid (now env w) -> 1000 <= year (now env w) ->
  let sb := source_bucket env in
  let bb := backup_bucket env in
  let ts := capture_timestamp env w in
  (exists delta resp w',
     lambda_handler env w = (Return resp, w') /\
     trace w' = (trace w ++ delta)%list /\
     forall req, req ∈ copy_requests delta ->
       exists obj md,
         obj ∈ yielded (source_pages env w) /\
         req = mkCopy sb (obj_Key obj) bb ("backup/" +:+ ts +:+ "/" +:+ obj_Key obj) (Some md) /\
         dom md = metadata_keys /\
         md !! "original-bucket" = Some sb /\
         md !! "original-key" = Some (Some (obj_Key obj)) /\
         md !! "backup-timestamp" = Some (Some ts) /\
         md !! "original-size" = Some (Some (str_int (obj_Size obj))) /\
         option_map Z.of_int (NilZero.int_of_string (str_int (obj_Size obj)))
         = Some (obj_Size obj) /\
         md !! "original-last-modified" = Some (Some (isoformat (obj_LastModified obj)))) /\
  ts = YYYYMMDD_HHMMSS (now env w) /\
  String.length ts = 15%nat /\
  (forall size lm sc,
     strftime_Ymd_HMS (mkDatetime 2024 1 15 9 30 0 0 None) = "20240115_093000" /\
     copy_Key (backup_request sb bb "20240115_093000" (mkObject "data/file.csv" size lm sc))
     = "backup/20240115_093000/data/file.csv").
Proof.
  intros Hv Hy sb bb ts.
  assert (Hts : ts = YYYYMMDD_HHMMSS (now env w))
    by (unfold ts, capture_timestamp; by rewrite (strftime_layout _ Hv Hy)).
  split; [| split; [exact Hts | split]].
  - destruct (every_run env w) as (delta & resp & w' & Hrun & Ht & Hc).
    exists delta, resp, w'. split; [exact Hrun|]. split; [exact Ht|].
    intros req Hreq. destruct Hc as [Hc | Hc]; rewrite Hc in Hreq.
    + by apply elem_of_nil in Hreq.
    + apply list_elem_of_fmap in Hreq as (obj & -> & Hobj).
      exists obj, (backup_metadata sb ts obj).
      split; [exact Hobj|]. split; [reflexivity|].
      split; [apply backup_metadata_dom|].
      destruct (backup_metadata_lookup sb ts obj) as (H1 & H2 & H3 & H4 & H5).
      repeat split; try done. apply str_int_reads_back.
  - rewrite Hts. apply layout_length.
  - intros size lm sc. split; reflexivity.
Qed.

Section StoredBackups.

Lemma kept_metadata_dom sb ts obj :
  dom (omap id (backup_metadata (Some sb) ts obj) : gmap string string) = metadata_keys.
Proof.
  unfold backup_metadata, metadata_keys.
  rewrite !(omap_insert_Some id _ _ _ _ eq_refl), omap_empty.
  rewrite !dom_insert_L, dom_empty_L. set_solver.
Qed.

(** What a backup copy leaves in the store, without a directive and with
    [REPLACE]. *)
Lemma backup_copy_effect directive sb bb ts obj s source :
  s !! (sb, obj_Key obj) = Some source ->
  Store.copy_effect directive (backup_request (Some sb) (Some bb) ts obj) s
    !! (bb, "backup/" +:+ ts +:+ "/" +:+ obj_Key obj)
  = Some (Store.copied_metadata directive (backup_request (Some sb) (Some bb) ts obj) source).
Proof.
  intros Hs. unfold Store.copy_effect. cbn [copy_src_Bucket copy_Bucket copy_src_Key
    copy_Key backup_request]. rewrite Hs. apply lookup_insert_eq.
Qed.

End StoredBackups.

(** C3.  A backup object is stored at [backup/<timestamp>/<key>], but it
    does not carry the five metadata keys.  The handler passes them as the
    [Metadata] of its [copy_object] request and names no
    [MetadataDirective]; a copy without directive keeps the metadata of
    the source object, so the backup carries whatever the source object
    carries.  The same request with [MetadataDirective='REPLACE'] would
    store exactly the five keys.  In the run of the scenario,
    [data/file.csv], which has no user metadata, is copied to
    [backup/20240115_093000/data/file.csv] with a [Metadata] of the five
    keys; the backup object then has no metadata at all, and
    [restore_from_backup], which reads ['original-key'] from them, fails on
    it with [KeyError] and returns [False]. *)
Theorem backup_metadata_not_stored :
  (forall sb bb ts obj s source,
     s !! (sb, obj_Key obj) = Some source ->
     let r := backup_request (Some sb) (Some bb) ts obj in
     let key := "backup/" +:+ ts +:+ "/" +:+ obj_Key obj in
     (exists md, copy_Metadata r = Some md /\ dom md = metadata_keys) /\
     Store.copy_effect None r s !! (bb, key) = Some source /\
     (exists kept,
        Store.copy_effect (Some Store.REPLACE) r s !! (bb, key) = Some kept /\
        dom kept = metadata_keys)) /\
  (exists w',
     lambda_handler Scenario.env_two initial
     = (Return (backup_completed "20240115_093000" 1 100), w') /\
     successful_copies (trace w')
     = [backup_request (Some "src") (Some "bak") "20240115_093000" Scenario.file_csv] /\
     (exists md,
        copy_Metadata (backup_request (Some "src") (Some "bak") "20240115_093000"
                                      Scenario.file_csv) = Some md /\
        dom md = metadata_keys) /\
     Store.after (trace w') Cases.source_store
       !! ("bak", "backup/20240115_093000/data/file.csv") = Some ∅ /\
     dom (∅ : gmap string string) <> metadata_keys) /\
  (exists w',
     restore_from_backup Cases.env_after_run (Some "src") (Some "bak")
                         "backup/20240115_093000/data/file.csv" initial
     = (Return false, w') /\
     trace w' = [mkEvent (head_object (Some "bak") "backup/20240115_093000/data/file.csv")
                         None] /\
     log w' = [(ERROR, "Error restoring backup/20240115_093000/data/file.csv: 'original-key'")]).
Proof.
  split; [| split].
  - intros sb bb ts obj s source Hs r key. split; [| split].
    + eexists. split; [reflexivity | apply backup_metadata_dom].
    + apply (backup_copy_effect None _ _ _ _ _ _ Hs).
    + eexists. split; [apply (backup_copy_effect (Some Store.REPLACE) _ _ _ _ _ _ Hs)|].
      apply kept_metadata_dom.
  - eexists. split; [vm_compute; reflexivity|].
    split; [vm_compute; reflexivity|].
    split; [eexists; split; [reflexivity | apply backup_metadata_dom]|].
    split; [vm_compute; reflexivity|].
    rewrite dom_empty_L. unfold metadata_keys. intros H.
    assert (Hin : "original-key" ∈ (∅ : gset string)) by (rewrite H; set_solver).
    set_solver.
  - eexists. split; [vm_compute; reflexivity|]. split; vm_compute; reflexivity.
Qed.

(** C4.  When the source listing is empty the handler answers 200 with a
    body of two entries, the message ['No objects to backup'] and the
    timestamp.  By then it has issued the page requests of the source
    listing and nothing else (no copy, no request for the prefix
    [backup/], no deletion, no metrics) and has read the clock once. *)
Theorem empty_listing_returns_early env w r :
  py_int env (retention_setting env) = Return r ->
  listed (source_pages env w) = Return [] ->
  exists delta w',
    lambda_handler env w
    = (Return (mkResponse 200
                 (json_dumps [ ("message", JStr "No objects to backup");
                               ("timestamp", JStr (capture_timestamp env w)) ])), w') /\
    trace w' = (trace w ++ delta)%list /\
    delta = list_events (source_bucket env) None (source_pages env w) 0 /\
    copy_requests delta = [] /\
    delete_requests delta = [] /\
    metric_requests delta = [] /\
    Forall (fun q => q.1 = (source_bucket env, None)) (list_requests delta) /\
    clock_reads w' = (clock_reads w + 1)%nat.
Proof.
  intros Hint Hlist.
  pose proof (lambda_handler_run env w) as H. cbv zeta in H.
  rewrite Hint, Hlist in H. destruct H as (w' & Hrun & [Ht Hc]).
  eexists _, w'. split; [exact Hrun|]. split; [exact Ht|]. split; [reflexivity|].
  split; [apply copy_requests_list_events|].
  split; [apply delete_requests_list_events|].
  split; [apply metric_requests_list_events|].
  split; [apply list_requests_list_events | exact Hc].
Qed.

(** C5.  If a page request of the source listing fails, the listing
    raises and gives no objects, not even those of the pages before.  The
    handler then answers 500 with a body of two entries, the message
    ['Backup failed'] and, as [error], the text of the exception; it has
    issued the page requests of the source listing and nothing else (no
    copy, no retention pass, no metrics). *)
Theorem listing_failure_aborts env w r e :
  py_int env (retention_setting env) = Return r ->
  listed (source_pages env w) = Raise e ->
  (forall b w0 e0,
     listed (pages env (length (trace w0)) b None) = Raise e0 ->
     exists w0',
       list_source_objects env b w0 = (Raise e0, w0') /\
       logged_last ERROR ("Error listing objects in " +:+ str_opt b +:+ ": "
                          +:+ exn_str e0) w0') /\
  exists delta w',
    lambda_handler env w
    = (Return (mkResponse 500
                 (json_dumps [ ("message", JStr "Backup failed");
                               ("error", JStr (exn_str e)) ])), w') /\
    trace w' = (trace w ++ delta)%list /\
    delta = list_events (source_bucket env) None (source_pages env w) 0 /\
    copy_requests delta = [] /\
    delete_requests delta = [] /\
    metric_requests delta = [] /\
    Forall (fun q => q.1 = (source_bucket env, None)) (list_requests delta) /\
    clock_reads w' = (clock_reads w + 1)%nat.
Proof.
  intros Hint Hlist. split.
  - intros b w0 e0 Hfail.
    unfold list_source_objects, try_except, for_paginate.
    destruct (collect_pages_run b None (pages env (length (trace w0)) b None) 0 [] w0)
      as (w1 & _ & Hrun).
    rewrite Hrun, Hfail. eexists. split; [reflexivity|]. by eexists.
  - pose proof (lambda_handler_run env w) as H. cbv zeta in H.
    rewrite Hint, Hlist in H. destruct H as (w' & Hrun & [Ht Hc]).
    eexists _, w'. split; [exact Hrun|]. split; [exact Ht|]. split; [reflexivity|].
    split; [apply copy_requests_list_events|].
    split; [apply delete_requests_list_events|].
    split; [apply metric_requests_list_events|].
    split; [apply list_requests_list_events | exact Hc].
Qed.

Lemma json_escape_char_head c rest :
  exists x tail, x <> dquote /\ json_escape_char c +:+ rest = String x tail.
Proof.
  destruct c as [[] [] [] [] [] [] [] []]; cbn;
    refine (ex_intro _ _ (ex_intro _ _ (conj _ eq_refl))); discriminate.
Qed.

(** When the exception of the failed page request has an empty text, as a
    [MemoryError] has, the [error] entry of the 500 body is empty: the
    error message of a failed listing is not always non-empty. *)
Lemma listing_failure_empty_error :
  listed (source_pages Scenario.env_listing_fails initial)
  = Raise (mkExn "MemoryError" "") /\
  fst (lambda_handler Scenario.env_listing_fails initial)
  = Return (mkResponse 500
              (json_dumps [ ("message", JStr "Backup failed"); ("error", JStr "") ])) /\
  ~ (forall env w r e,
       py_int env (retention_setting env) = Return r ->
       listed (source_pages env w) = Raise e ->
       exists msg w',
         lambda_handler env w
         = (Return (mkResponse 500
                      (json_dumps [ ("message", JStr "Backup failed");
                                    ("error", JStr msg) ])), w') /\
         msg <> "").
Proof.
  split; [reflexivity|]. split; [reflexivity|].
  intros H.
  destruct (H Scenario.env_listing_fails initial 30 (mkExn "MemoryError" "")
              eq_refl eq_refl) as (msg & w' & Hrun & Hne).
  apply (f_equal fst) in Hrun. cbn [fst] in Hrun.
  assert (Hbody : json_dumps [ ("message", JStr "Backup failed"); ("error", JStr "") ]
                  = json_dumps [ ("message", JStr "Backup failed"); ("error", JStr msg) ]).
  { change (fst (lambda_handler Scenario.env_listing_fails initial))
      with (Return (mkResponse 500
                      (json_dumps [ ("message", JStr "Backup failed");
                                    ("error", JStr "") ]))) in Hrun.
    exact (f_equal (fun res => match res with
                               | Return resp => body resp
                               | Raise _ => EmptyString
                               end) Hrun). }
  destruct msg as [|c msg]; [done|].
  cbn in Hbody. repeat (injection Hbody as Hbody).
  destruct (json_escape_char_head c (json_escape msg)) as (x & tail & Hx & Heq).
  rewrite Heq in Hbody. cbn in Hbody. by injection Hbody as Hq _.
Qed.

Section RetentionPass.
Variable env : Env.

Lemma cleanup_delta_requests b days w cutoff :
  sub_days (now env w) days = Return cutoff ->
  delete_requests (cleanup_delta env b days w)
  = map (fun o => (b, obj_Key o))
        (List.filter (expired cutoff) (yielded (backup_pages env b w))) /\
  list_requests (cleanup_delta env b days w)
  = list_requests (list_events b (Some "backup/") (backup_pages env b w) 0).
Proof.
  intros Hsub. unfold cleanup_delta. rewrite Hsub. split.
  - apply delete_requests_cleanup_events.
  - apply list_requests_cleanup_events.
Qed.

Lemma delete_requests_cleanup_delta_nil b days w e :
  sub_days (now env w) days = Raise e ->
  delete_requests (cleanup_delta env b days w) = [].
Proof. intros Hsub. unfold cleanup_delta. by rewrite Hsub. Qed.

End RetentionPass.

(** C6.  The retention pass never raises.  Its delete requests are those
    for all the expired objects of the pages it was given, whatever the
    outcome of each deletion: two environments with the same clock and the
    same listings lead to the same delete requests, however their
    deletions end.  Its page requests stop at the first one that fails,
    which is logged, and a run over a non-empty source listing answers 200
    whatever happened in the pass. *)
Theorem cleanup_failures_contained env w r objs :
  py_int env (retention_setting env) = Return r ->
  listed (source_pages env w) = Return objs ->
  objs <> [] ->
  (exists resp w', lambda_handler env w = (Return resp, w') /\ statusCode resp = 200) /\
  (forall b days w0, exists w0',
     cleanup_old_backups env b days w0 = (Return tt, w0') /\
     trace w0' = (trace w0 ++ cleanup_delta env b days w0)%list /\
     (forall cutoff e,
        sub_days (now env w0) days = Return cutoff ->
        listed (backup_pages env b w0) = Raise e ->
        logged_last ERROR ("Error cleaning up old backups: " +:+ exn_str e) w0')) /\
  (forall b days w0 cutoff,
     sub_days (now env w0) days = Return cutoff ->
     delete_requests (cleanup_delta env b days w0)
     = map (fun o => (b, obj_Key o))
           (List.filter (expired cutoff) (yielded (backup_pages env b w0))) /\
     list_requests (cleanup_delta env b days w0)
     = list_requests (list_events b (Some "backup/") (backup_pages env b w0) 0)) /\
  (forall env' b days w0,
     clock env' = clock env -> pages env' = pages env ->
     delete_requests (cleanup_delta env' b days w0)
     = delete_requests (cleanup_delta env b days w0)).
Proof.
  intros Hint Hlist Hne. split; [| split; [| split]].
  - destruct (completed_trace env w r objs Hint Hlist Hne)
      as (w3 & w4 & w' & Hrun & _).
    eexists _, w'. split; [exact Hrun | reflexivity].
  - intros b days w0.
    destruct (cleanup_old_backups_run env b days w0) as (w0' & Hrun & H).
    exists w0'. split; [exact Hrun|]. split.
    + unfold cleanup_delta. destruct (sub_days (now env w0) days); by destruct H as [[? _] _].
    + intros cutoff e Hsub Hfail. rewrite Hsub, Hfail in H. tauto.
  - intros b days w0 cutoff. apply cleanup_delta_requests.
  - intros env' b days w0 Hclock Hpages.
    assert (Hnow : now env' w0 = now env w0) by (unfold now; by rewrite Hclock).
    assert (Hps : backup_pages env' b w0 = backup_pages env b w0)
      by (unfold backup_pages; by rewrite Hpages).
    destruct (sub_days (now env w0) days) as [cutoff | e] eqn:Hsub.
    + destruct (cleanup_delta_requests env b days w0 cutoff Hsub) as [-> _].
      rewrite <- Hnow in Hsub.
      destruct (cleanup_delta_requests env' b days w0 cutoff Hsub) as [-> _].
      by rewrite Hps.
    + rewrite (delete_requests_cleanup_delta_nil env b days w0 e Hsub).
      rewrite <- Hnow in Hsub.
      by rewrite (delete_requests_cleanup_delta_nil env' b days w0 e Hsub).
Qed.

(** C7.  When [head_object] answers for the backup object and its metadata
    maps [original-key] to [k], the restore asks for one copy, of that
    backup object to the key [k] of the source bucket, without looking at
    what is there, and returns [True] when the copy goes through.
    Whatever happens, the restore returns a boolean and never raises, and
    the boolean is [True] only when every step went through. *)
Theorem restore_copies_to_original_key env sb bb key w resp md k :
  head_outcome env (length (trace w)) bb key = Return resp ->
  head_Metadata resp = Some md ->
  md !! "original-key" = Some k ->
  let req := mkCopy bb key sb k None in
  let outcome := copy_outcome env (S (length (trace w))) req in
  (exists w',
     restore_from_backup env sb bb key w
     = (Return (match outcome with None => true | Some _ => false end), w') /\
     trace w' = (trace w ++ [ mkEvent (head_object bb key) None;
                              mkEvent (copy_object req) outcome ])%list) /\
  (forall sb' bb' key' w0, exists b w0',
     restore_from_backup env sb' bb' key' w0 = (Return b, w0') /\
     (b = true <-> restore_succeeds env sb' bb' key' w0 = Return tt)).
Proof.
  intros Hhead Hmd Hk req outcome. split.
  - destruct (restore_from_backup_run env sb bb key w) as (w' & [Ht _] & H).
    unfold restore_events, restore_succeeds, original_key, restore_request, getitem in *.
    rewrite Hhead, Hmd, Hk in *. fold req outcome in H, Ht.
    exists w'. split; [| exact Ht].
    destruct outcome; [by destruct H | exact H].
  - intros sb' bb' key' w0.
    destruct (restore_from_backup_run env sb' bb' key' w0) as (w0' & _ & H).
    destruct (restore_succeeds env sb' bb' key' w0) as [[] | e].
    + exists true, w0'. split; [exact H | done].
    + exists false, w0'. split; [by destruct H|]. split; discriminate.
Qed.

(** C10.  When [head_object] answers for the backup object and its
    metadata has no [original-key], the restore issues no copy, logs the
    missing key and returns [False]. *)
Theorem restore_without_original_key env sb bb key w resp md :
  head_outcome env (length (trace w)) bb key = Return resp ->
  head_Metadata resp = Some md ->
  md !! "original-key" = None ->
  exists w',
    restore_from_backup env sb bb key w = (Return false, w') /\
    trace w' = (trace w ++ [mkEvent (head_object bb key) None])%list /\
    copy_requests [mkEvent (head_object bb key) None] = [] /\
    log w' = (log w ++ [(ERROR, "Error restoring " +:+ key +:+ ": 'original-key'")])%list.
Proof.
  intros Hhead Hmd Hk.
  cbv [restore_from_backup try_except mbind M_bind eval logger_error s3_head_object
       mret M_ret].
  rewrite Hhead, Hmd. unfold getitem. rewrite Hk.
  eexists. split; [reflexivity|]. split; [reflexivity|]. split; reflexivity.
Qed.

Section Metrics.
Variable env : Env.

Lemma metric_requests_run sb bb ts r objs ps n w3 w4 c t :
  metric_requests (list_events sb None ps 0 ++ copy_events env sb bb ts n objs
                   ++ cleanup_delta env bb r w3 ++ [metrics_event env c t w4])
  = [("MapReduce/Backup",
      metric_data c t (now env w4) (now env (tick w4)) (now env (tick (tick w4))))].
Proof.
  rewrite !metric_requests_app.
  rewrite metric_requests_list_events, metric_requests_copy_events,
    metric_requests_cleanup_delta.
  reflexivity.
Qed.

End Metrics.

(** C8.  On a non-empty source listing the run goes through the copy
    loop, then runs the retention pass on the backup bucket with the
    configured window, whatever the copies did, then reports the tally of
    the loop to the metrics reporter, and answers 200 with the message, the
    timestamp, [objects_backed_up] and [total_size_bytes].  Every run
    returns a response, never raises, and answers either 200 or, when
    [RETENTION_DAYS] is no integer or the source listing fails, 500 with
    the message ['Backup failed'] and the text of the exception. *)
Theorem run_invokes_retention_then_metrics env w :
  let sb := source_bucket env in
  let bb := backup_bucket env in
  let ts := capture_timestamp env w in
  let les := list_events sb None (source_pages env w) 0 in
  let n := (length (trace w) + length les)%nat in
  (forall r objs,
     py_int env (retention_setting env) = Return r ->
     listed (source_pages env w) = Return objs ->
     objs <> [] ->
     let c := Z.of_nat (length (copied env sb bb ts n objs)) in
     let t := sum_sizes (copied env sb bb ts n objs) in
     exists w3 w4 w5 w',
       advances w (les ++ copy_events env sb bb ts n objs) 1 w3 /\
       cleanup_old_backups env bb r w3 = (Return tt, w4) /\
       send_metrics env c t w4 = (Return tt, w5) /\
       trace w' = trace w5 /\
       trace w' = (trace w ++ les ++ copy_events env sb bb ts n objs
                   ++ cleanup_delta env bb r w3 ++ [metrics_event env c t w4])%list /\
       lambda_handler env w
       = (Return (mkResponse 200
                    (json_dumps [ ("message", JStr "Backup completed successfully");
                                  ("timestamp", JStr ts);
                                  ("objects_backed_up", JInt c);
                                  ("total_size_bytes", JInt t) ])), w')) /\
  (exists resp w',
     lambda_handler env w = (Return resp, w') /\
     (statusCode resp = 200 \/
      exists e, resp = mkResponse 500
                         (json_dumps [ ("message", JStr "Backup failed");
                                       ("error", JStr (exn_str e)) ]))) /\
  (forall e, py_int env (retention_setting env) = Raise e ->
             fst (lambda_handler env w) = Return (backup_failed e)) /\
  (forall r e, py_int env (retention_setting env) = Return r ->
               listed (source_pages env w) = Raise e ->
               fst (lambda_handler env w) = Return (backup_failed e)).
Proof.
  intros sb bb ts les n.
  pose proof (lambda_handler_run env w) as H. cbv zeta in H.
  fold sb bb ts les n in H.
  split; [| split; [| split]].
  - intros r objs Hint Hlist Hne c t.
    destruct (completed_run env w r objs Hint Hlist Hne)
      as (w3 & w4 & w5 & w' & H3 & Hclean & H4 & Hmet & H5 & _ & Hrun).
    fold sb bb ts les n c t in H3, Hclean, H4, Hmet, H5, Hrun.
    destruct (send_metrics_run env c t w4) as (w5' & Hmet' & [Ht5 _] & _).
    pose proof (eq_trans (eq_sym Hmet) Hmet') as E. inversion E; subst w5'.
    exists w3, w4, w5, w'.
    split; [exact H3|]. split; [exact Hclean|]. split; [exact Hmet|].
    destruct H3 as [Ht3 _], H4 as [Ht4 _], H5 as [Ht5' _].
    split; [by rewrite Ht5', Ht5|]. split; [| exact Hrun].
    rewrite Ht5', Ht4, Ht3. by rewrite <- !app_assoc.
  - destruct (py_int env (retention_setting env)) as [r | e].
    + destruct (listed (source_pages env w)) as [[|o objs] | e].
      * destruct H as (w' & Hrun & _). eexists _, w'. split; [exact Hrun | by left].
      * destruct H as (w3 & w4 & w5 & _ & _ & _ & Hrun).
        eexists _, _. split; [exact Hrun | by left].
      * destruct H as (w' & Hrun & _). eexists _, w'. split; [exact Hrun|].
        right. by exists e.
    + destruct H as (w' & Hrun & _). eexists _, w'. split; [exact Hrun|].
      right. by exists e.
  - intros e Hint. rewrite Hint in H. destruct H as (w' & Hrun & _). by rewrite Hrun.
  - intros r e Hint Hlist. rewrite Hint, Hlist in H.
    destruct H as (w' & Hrun & _). by rewrite Hrun.
Qed.

(** C9.  For every object count and byte count the metrics reporter
    issues one [put_metric_data] request, under the namespace
    [MapReduce/Backup], with three data points: the object count, the byte
    count, and [BackupSuccess], which is always 1.  It returns whether the
    request goes through or raises, and logs the exception when it raises.
    In a run over a non-empty listing this is the only metrics request, and
    it carries the tally of the copy loop, with the success flag 1 however
    many copies failed. *)
Theorem metrics_three_data_points env c t w :
  let data :=
    [ mkDatum "BackupObjectsCount" c "Count" (now env w);
      mkDatum "BackupSizeBytes" t "Bytes" (now env (tick w));
      mkDatum "BackupSuccess" 1 "Count" (now env (tick (tick w))) ] in
  let outcome := put_metric_outcome env (length (trace w)) "MapReduce/Backup" data in
  (exists w',
     send_metrics env c t w = (Return tt, w') /\
     trace w' = (trace w ++ [mkEvent (put_metric_data "MapReduce/Backup" data) outcome])%list /\
     log w' = match outcome with
              | None => log w
              | Some e => (log w ++ [(ERROR, "Error sending metrics: " +:+ exn_str e)])%list
              end) /\
  (forall w0 r objs,
     py_int env (retention_setting env) = Return r ->
     listed (source_pages env w0) = Return objs ->
     objs <> [] ->
     let sb := source_bucket env in
     let bb := backup_bucket env in
     let ts := capture_timestamp env w0 in
     let n := (length (trace w0)
               + length (list_events sb None (source_pages env w0) 0))%nat in
     let ok := copied env sb bb ts n objs in
     exists delta resp w0' t1 t2 t3,
       lambda_handler env w0 = (Return resp, w0') /\
       trace w0' = (trace w0 ++ delta)%list /\
       metric_requests delta
       = [("MapReduce/Backup",
           [ mkDatum "BackupObjectsCount" (Z.of_nat (length ok)) "Count" t1;
             mkDatum "BackupSizeBytes" (sum_sizes ok) "Bytes" t2;
             mkDatum "BackupSuccess" 1 "Count" t3 ])]).
Proof.
  intros data outcome. split.
  - destruct (send_metrics_run env c t w) as (w' & Hrun & [Ht _] & Hlog).
    exists w'. split; [exact Hrun|]. split; [exact Ht|].
    unfold metrics_event, metric_data in Hlog. cbn [ev_raised] in Hlog.
    fold data in Hlog. fold outcome in Hlog.
    destruct outcome; exact Hlog.
  - intros w0 r objs Hint Hlist Hne sb bb ts n ok.
    destruct (completed_trace env w0 r objs Hint Hlist Hne)
      as (w3 & w4 & w0' & Hrun & _ & _ & [Ht _]).
    eexists _, _, w0', _, _, _. split; [exact Hrun|]. split; [exact Ht|].
    apply metric_requests_run.
Qed.

(** ** The properties on the concrete environments *)

Lemma t0_valid : valid (now Scenario.env_two initial).
Proof. repeat split; vm_compute; discriminate. Qed.

(** Two objects listed, the copy of the second fails: one object and its
    100 bytes are reported. *)
Lemma backup_tally_witness :
  exists w',
    lambda_handler Scenario.env_two initial
    = (Return (backup_completed "20240115_093000" 1 100), w').
Proof.
  destruct (backup_tally Scenario.env_two initial 30
              [Scenario.file_csv; Scenario.b_csv] eq_refl eq_refl ltac:(discriminate))
    as (delta & w' & Hrun & _).
  exists w'. exact Hrun.
Defined.

(** Thirty days before 2024-01-15 09:30:00 is 2023-12-16 09:30:00: of the
    two old backups, the one last modified a second before that is
    deleted, the one last modified at that time is kept. *)
Lemma retention_deletes_expired_witness :
  exists delta w',
    cleanup_old_backups Scenario.env_two (Some "bak") 30 initial = (Return tt, w') /\
    trace w' = delta /\
    delete_requests delta = [(Some "bak", "backup/20231201_000000/y")].
Proof.
  destruct (retention_deletes_expired Scenario.env_two (Some "bak") 30 initial
              (mkDatetime 2023 12 16 9 30 0 0 None) t0_valid eq_refl)
    as (delta & w' & Hrun & Ht & _ & Hdel & _).
  exists delta, w'. split; [exact Hrun|]. split; [exact Ht | exact Hdel].
Defined.

(** The run of the scenario at 2024-01-15 09:30:00: each of its copy
    requests is for one of the two listed objects, to
    [backup/20240115_093000/<key>], with the five metadata. *)
Lemma backup_key_and_metadata_witness :
  capture_timestamp Scenario.env_two initial = "20240115_093000" /\
  String.length (capture_timestamp Scenario.env_two initial) = 15%nat /\
  exists delta resp w',
    lambda_handler Scenario.env_two initial = (Return resp, w') /\
    trace w' = delta /\
    forall req, req ∈ copy_requests delta ->
      exists obj md,
        obj ∈ [Scenario.file_csv; Scenario.b_csv] /\
        req = mkCopy (Some "src") (obj_Key obj) (Some "bak")
                     ("backup/" +:+ "20240115_093000" +:+ "/" +:+ obj_Key obj) (Some md) /\
        dom md = metadata_keys /\
        md !! "original-bucket" = Some (Some "src") /\
        md !! "original-key" = Some (Some (obj_Key obj)) /\
        md !! "backup-timestamp" = Some (Some "20240115_093000") /\
        md !! "original-size" = Some (Some (str_int (obj_Size obj))) /\
        option_map Z.of_int (NilZero.int_of_string (str_int (obj_Size obj)))
        = Some (obj_Size obj) /\
        md !! "original-last-modified" = Some (Some (isoformat (obj_LastModified obj))).
Proof.
  destruct (backup_key_and_metadata Scenario.env_two initial t0_valid
              ltac:(vm_compute; discriminate))
    as ((delta & resp & w' & Hrun & Ht & Hreq) & Hts & Hlen & _).
  split; [exact Hts|]. split; [exact Hlen|].
  exists delta, resp, w'. split; [exact Hrun|]. split; [exact Ht | exact Hreq].
Defined.

Lemma empty_listing_returns_early_witness :
  exists w',
    lambda_handler Scenario.env_empty initial
    = (Return (nothing_to_backup "20240115_093000"), w') /\
    trace w' = [mkEvent (list_objects_v2 (Some "src") None 0) None].
Proof.
  destruct (empty_listing_returns_early Scenario.env_empty initial 30 eq_refl eq_refl)
    as (delta & w' & Hrun & Ht & Hdelta & _).
  exists w'. split; [exact Hrun|]. rewrite Ht, Hdelta. reflexivity.
Defined.

Lemma listing_failure_aborts_witness :
  exists w',
    lambda_handler Scenario.env_listing_fails initial
    = (Return (backup_failed (mkExn "MemoryError" "")), w') /\
    copy_requests (trace w') = [].
Proof.
  destruct (listing_failure_aborts Scenario.env_listing_fails initial 30
              (mkExn "MemoryError" "") eq_refl eq_refl)
    as (_ & delta & w' & Hrun & Ht & _ & Hcopy & _).
  exists w'. split; [exact Hrun|]. rewrite Ht. exact Hcopy.
Defined.

Lemma cleanup_failures_contained_witness :
  exists resp w',
    lambda_handler Scenario.env_two initial = (Return resp, w') /\ statusCode resp = 200.
Proof.
  exact (proj1 (cleanup_failures_contained Scenario.env_two initial 30
                  [Scenario.file_csv; Scenario.b_csv] eq_refl eq_refl ltac:(discriminate))).
Defined.

(** The backup object [backup/q1] records [reports/q1.pdf] as its original
    key: it is copied to that key of the source bucket. *)
Lemma restore_copies_to_original_key_witness :
  exists w',
    restore_from_backup Scenario.env_two (Some "src") (Some "bak") "backup/q1" initial
    = (Return true, w') /\
    trace w'
    = [ mkEvent (head_object (Some "bak") "backup/q1") None;
        mkEvent (copy_object (mkCopy (Some "bak") "backup/q1" (Some "src")
                                     "reports/q1.pdf" None)) None ].
Proof.
  exact (proj1 (restore_copies_to_original_key Scenario.env_two (Some "src") (Some "bak")
                  "backup/q1" initial
                  (mkHead 10 (Scenario.utc 2024 1 1 0 0 0) (Some Scenario.q1_metadata) None)
                  Scenario.q1_metadata "reports/q1.pdf" eq_refl eq_refl eq_refl)).
Defined.

Lemma restore_without_original_key_witness :
  exists w',
    restore_from_backup Scenario.env_two (Some "src") (Some "bak") "backup/foreign" initial
    = (Return false, w') /\
    trace w' = [mkEvent (head_object (Some "bak") "backup/foreign") None].
Proof.
  destruct (restore_without_original_key Scenario.env_two (Some "src") (Some "bak")
              "backup/foreign" initial
              (mkHead 10 (Scenario.utc 2024 1 1 0 0 0) (Some Scenario.foreign_metadata) None)
              Scenario.foreign_metadata eq_refl eq_refl eq_refl)
    as (w' & Hrun & Ht & _).
  exists w'. split; [exact Hrun | exact Ht].
Defined.

Lemma run_invokes_retention_then_metrics_witness :
  exists resp w',
    lambda_handler Scenario.env_listing_fails initial = (Return resp, w') /\
    (statusCode resp = 200 \/
     exists e, resp = mkResponse 500
                        (json_dumps [ ("message", JStr "Backup failed");
                                      ("error", JStr (exn_str e)) ])).
Proof.
  exact (proj1 (proj2 (run_invokes_retention_then_metrics
                         Scenario.env_listing_fails initial))).
Defined.

Lemma metrics_three_data_points_witness :
  exists w',
    send_metrics Scenario.env_two 1 100 initial = (Return tt, w') /\
    trace w'
    = [ mkEvent (put_metric_data "MapReduce/Backup"
                   [ mkDatum "BackupObjectsCount" 1 "Count" Scenario.t0;
                     mkDatum "BackupSizeBytes" 100 "Bytes" Scenario.t0;
                     mkDatum "BackupSuccess" 1 "Count" Scenario.t0 ]) None ].
Proof.
  destruct (proj1 (metrics_three_data_points Scenario.env_two 1 100 initial))
    as (w' & Hrun & Ht & _).
  exists w'. split; [exact Hrun | exact Ht].
Defined.

(** * Further properties of the code *)

Import Derived.

(** ** Listing and inspecting backups *)

Section Inspection.
Variable env : Env.

Lemma append_entries_run contents : forall backups w,
  for_each contents backups
    (fun obj backups =>
       mret (backups ++
             [mkEntry (obj_Key obj) (obj_Size obj) (obj_LastModified obj)
                      (default "STANDARD" (obj_StorageClass obj))])%list) w
  = (Return (backups ++ map entry_of contents)%list, w).
Proof.
  induction contents as [|o contents IH]; intros backups w.
  - simpl. by rewrite app_nil_r.
  - rewrite for_each_cons, bind_run. cbn [mret M_ret].
    rewrite IH. by rewrite <- app_assoc.
Qed.

Lemma listed_pages_of ps l :
  listed ps = Return l -> l = concat (map contents (pages_of ps)) /\ failure_of ps = None.
Proof.
  revert l. induction ps as [e | p | p rest IH]; intros l; simpl.
  - done.
  - intros [= <-]. by rewrite app_nil_r.
  - destruct (listed rest) as [l' | e]; [|done].
    intros [= <-]. destruct (IH l' eq_refl) as [-> ->]. done.
Qed.

Lemma length_list_events b p ps k :
  length (list_events b p ps k)
  = (length (pages_of ps) + match failure_of ps with Some _ => 1 | None => 0 end)%nat.
Proof. revert k. induction ps as [e | q | q rest IH]; intros k; simpl; [done..|]. by rewrite IH. Qed.

Lemma list_backups_pages_run b prefix ps : forall k acc w,
  exists w',
    advances w (list_events b (Some prefix) ps k) 0 w' /\
    log w' = log w /\
    for_pages b (Some prefix) ps k acc
      (fun page backups =>
         match page with
         | Some contents =>
             for_each contents backups
               (fun obj backups =>
                  mret (backups ++
                        [mkEntry (obj_Key obj) (obj_Size obj) (obj_LastModified obj)
                                 (default "STANDARD" (obj_StorageClass obj))])%list)
         | None => mret backups
         end) w
    = (match listed ps with
       | Return l => Return (acc ++ map entry_of l)%list
       | Raise e => Raise e
       end, w').
Proof.
  induction ps as [e | p | p rest IH]; intros k acc w; simpl for_pages.
  - rewrite bind_run, request_raises. eexists. split; [apply advances_record|]. done.
  - rewrite bind_run, request_ok. eexists. split; [apply advances_record|].
    split; [done|]. destruct p as [c|]; simpl.
    + by rewrite append_entries_run.
    + by rewrite app_nil_r.
  - rewrite bind_run, request_ok, bind_run.
    set (w1 := record _ w).
    assert (Hbody : forall acc0,
              match p with
              | Some contents =>
                  for_each contents acc0
                    (fun obj backups =>
                       mret (backups ++
                             [mkEntry (obj_Key obj) (obj_Size obj) (obj_LastModified obj)
                                      (default "STANDARD" (obj_StorageClass obj))])%list)
              | None => mret acc0
              end w1 = (Return (acc0 ++ map entry_of (contents p))%list, w1)).
    { intros acc0. destruct p as [c|]; simpl.
      - by rewrite append_entries_run.
      - by rewrite app_nil_r. }
    rewrite Hbody.
    destruct (IH (S k) (acc ++ map entry_of (contents p))%list w1) as (w' & Hadv & Hlog & Hrun).
    exists w'. split; [| split].
    + apply (advances_trans _ [_] 0 _ _ 0 _ (advances_record _ _) Hadv).
    + by rewrite Hlog.
    + rewrite Hrun. simpl. destruct (listed rest); [|done].
      by rewrite map_app, app_assoc.
Qed.

(** X1. When every page of the listing arrives, [list_backups] returns one
    descriptor per listed object, in the order of the listing over all its
    pages: the object's key, size and last-modified time, and its storage
    class, ['STANDARD'] where the listing names none. It has then made one
    [list_objects_v2] request per page, for the given bucket and prefix, and
    logged nothing. *)
Theorem list_backups_lists_every_object b prefix w objs :
  listed (pages env (length (trace w)) b (Some prefix)) = Return objs ->
  exists w',
    list_backups env b prefix w = (Return (map entry_of objs), w') /\
    objs = concat (map contents (pages_of (pages env (length (trace w)) b (Some prefix)))) /\
    trace w' = (trace w ++ list_events b (Some prefix)
                                       (pages env (length (trace w)) b (Some prefix)) 0)%list /\
    length (list_events b (Some prefix) (pages env (length (trace w)) b (Some prefix)) 0)
    = length (pages_of (pages env (length (trace w)) b (Some prefix))) /\
    log w' = log w.
Proof.
  intros Hlist.
  unfold list_backups, try_except, for_paginate.
  destruct (list_backups_pages_run b prefix (pages env (length (trace w)) b (Some prefix)) 0 [] w)
    as (w' & [Ht _] & Hlog & Hrun).
  rewrite Hrun, Hlist. exists w'. split; [done|].
  destruct (listed_pages_of _ _ Hlist) as [Hconcat Hnofail].
  split; [exact Hconcat|]. split; [exact Ht|]. split; [| exact Hlog].
  rewrite length_list_events, Hnofail. lia.
Qed.

(** X2. When a page of the listing fails, [list_backups] raises that very
    exception to its caller, whatever the pages before held: no partial list
    is returned. The error is logged first. *)
Theorem list_backups_propagates_failure b prefix w e :
  listed (pages env (length (trace w)) b (Some prefix)) = Raise e ->
  exists w',
    list_backups env b prefix w = (Raise e, w') /\
    trace w' = (trace w ++ list_events b (Some prefix)
                                       (pages env (length (trace w)) b (Some prefix)) 0)%list /\
    log w' = (log w ++ [(ERROR, "Error listing backups: " +:+ exn_str e)])%list.
Proof.
  intros Hlist.
  unfold list_backups, try_except, for_paginate.
  destruct (list_backups_pages_run b prefix (pages env (length (trace w)) b (Some prefix)) 0 [] w)
    as (w' & [Ht _] & Hlog & Hrun).
  rewrite Hrun, Hlist. eexists. split; [reflexivity|]. split; [exact Ht|].
  simpl. by rewrite Hlog.
Qed.

(** X3. [get_backup_info] never raises. It makes one [head_object] request
    and returns the descriptor of the response, with an empty metadata
    mapping and ['STANDARD'] where the response lacks these fields; when the
    request fails it logs the error and returns [None]. *)
Theorem get_backup_info_never_raises b key w :
  exists w',
    get_backup_info env b key w
    = (Return match head_outcome env (length (trace w)) b key with
              | Return resp => Some (info_of key resp)
              | Raise _ => None
              end, w') /\
    trace w'
    = (trace w ++ [mkEvent (head_object b key)
                           match head_outcome env (length (trace w)) b key with
                           | Return _ => None
                           | Raise e => Some e
                           end])%list /\
    log w'
    = match head_outcome env (length (trace w)) b key with
      | Return _ => log w
      | Raise e => (log w ++ [(ERROR, "Error getting backup info for " +:+ key +:+ ": "
                                      +:+ exn_str e)])%list
      end.
Proof.
  cbv [get_backup_info try_except mbind M_bind s3_head_object mret M_ret logger_error].
  destruct (head_outcome env (length (trace w)) b key) as [resp | e];
    eexists; (split; [reflexivity|]); split; reflexivity.
Qed.

End Inspection.

Section SourceListing.
Variable env : Env.

Lemma extend_pages_log b prefix ps : forall k acc w,
  log (for_pages b prefix ps k acc extend_objects w).2 = log w.
Proof.
  induction ps as [e | p | p rest IH]; intros k acc w; simpl for_pages.
  - by rewrite bind_run, request_raises.
  - by rewrite bind_run, request_ok, extend_objects_run.
  - rewrite bind_run, request_ok, bind_run, extend_objects_run. by rewrite IH.
Qed.

(** X4. When no page fails, [list_source_objects] returns the contents of
    all pages, concatenated in order (a page without ['Contents'] adds
    nothing), after one request per page and without logging. *)
Theorem list_source_objects_concatenates_pages b w objs :
  listed (pages env (length (trace w)) b None) = Return objs ->
  exists w',
    list_source_objects env b w = (Return objs, w') /\
    objs = concat (map contents (pages_of (pages env (length (trace w)) b None))) /\
    trace w' = (trace w ++ list_events b None (pages env (length (trace w)) b None) 0)%list /\
    length (list_events b None (pages env (length (trace w)) b None) 0)
    = length (pages_of (pages env (length (trace w)) b None)) /\
    log w' = log w.
Proof.
  intros Hlist.
  destruct (list_source_objects_run env b w) as (w' & [Ht _] & Hrun).
  rewrite Hlist in Hrun. exists w'. split; [exact Hrun|].
  destruct (listed_pages_of _ _ Hlist) as [Hconcat Hnofail].
  split; [exact Hconcat|]. split; [exact Ht|]. split.
  - rewrite length_list_events, Hnofail. lia.
  - pose proof (extend_pages_log b None (pages env (length (trace w)) b None) 0 [] w) as Hlog.
    unfold list_source_objects, try_except, for_paginate in Hrun.
    destruct (for_pages b None (pages env (length (trace w)) b None) 0 [] extend_objects w)
      as [[l | e] w1]; simpl in *.
    + by inversion Hrun; subst.
    + by inversion Hrun.
Qed.

End SourceListing.

Section Configuration.
Variable env : Env.

(** X5. When [int] rejects the [RETENTION_DAYS] setting, the handler
    answers 500 with the exception's text and has done nothing else: no
    request to S3 or CloudWatch, no reading of the clock, and the error
    record is the only one logged (the run has not even been announced). *)
Theorem invalid_retention_days_fails_before_any_request w e :
  py_int env (environ_get_default env "RETENTION_DAYS" "30") = Raise e ->
  lambda_handler env w
  = (Return (mkResponse 500
               (json_dumps [ ("message", JStr "Backup failed");
                             ("error", JStr (exn_str e)) ])),
     mkWorld (trace w)
             (log w ++ [(ERROR, "Error in backup process: " +:+ exn_str e)])
             (clock_reads w)).
Proof.
  intros Hint.
  cbv [lambda_handler try_except mbind M_bind eval logger_error mret M_ret].
  rewrite Hint. reflexivity.
Qed.

(** X6. The handler always returns a response, and its status is 200 or
    500. It is 200 exactly when the retention setting reads as an integer
    and the listing of the source bucket succeeds: neither failing copies,
    nor a failing retention pass, nor failing metrics change it. *)
Theorem status_200_iff_configured_and_listed w :
  exists resp w',
    lambda_handler env w = (Return resp, w') /\
    (statusCode resp = 200 \/ statusCode resp = 500) /\
    (statusCode resp = 200 <->
     exists r objs,
       py_int env (retention_setting env) = Return r /\
       listed (source_pages env w) = Return objs).
Proof.
  pose proof (lambda_handler_run env w) as H. cbv zeta in H.
  destruct (py_int env (retention_setting env)) as [r | e].
  - destruct (listed (source_pages env w)) as [[|o objs] | e].
    + destruct H as (w' & Hrun & _). eexists _, w'. split; [exact Hrun|].
      split; [by left|]. split; [|done]. intros _. by eexists _, _.
    + destruct H as (w3 & w4 & w5 & _ & _ & _ & Hrun).
      eexists _, _. split; [exact Hrun|].
      split; [by left|]. split; [|done]. intros _. by eexists _, _.
    + destruct H as (w' & Hrun & _). eexists _, w'. split; [exact Hrun|].
      split; [by right|]. split; [done|]. by intros (? & ? & _ & ?).
  - destruct H as (w' & Hrun & _). eexists _, w'. split; [exact Hrun|].
    split; [by right|]. split; [done|]. by intros (? & ? & ? & _).
Qed.

End Configuration.

Section RestoreMore.
Variable env : Env.

(** X7. When the original key cannot be read - [head_object] fails, the
    response has no ['Metadata'], or the metadata have no ['original-key'] -
    [restore_from_backup] returns [False] having made the [head_object]
    request only: nothing is copied. The error is logged. *)
Theorem restore_needs_original_key sb bb key w e :
  original_key env bb key w = Raise e ->
  exists w' outcome,
    restore_from_backup env sb bb key w = (Return false, w') /\
    trace w' = (trace w ++ [mkEvent (head_object bb key) outcome])%list /\
    log w' = (log w ++ [(ERROR, "Error restoring " +:+ key +:+ ": " +:+ exn_str e)])%list.
Proof.
  unfold original_key.
  cbv [restore_from_backup try_except mbind M_bind eval logger_error s3_head_object
       mret M_ret].
  destruct (head_outcome env (length (trace w)) bb key) as [resp | e0].
  - destruct (head_Metadata resp) as [md|].
    + destruct (getitem md "original-key") as [k | e1]; [done|].
      intros [= ->]. by eexists _, _.
    + intros [= <-]. by eexists _, _.
  - intros [= ->]. by eexists _, _.
Qed.


(** X9. Whenever [restore_from_backup] returns [True], [get_backup_info] on
    the same backup in the same state reports metadata with an
    ['original-key'], and the restore has made exactly one copy: of the
    backup key to that key of the source bucket. *)
Theorem restore_true_only_if_info_has_key sb bb key w w' :
  restore_from_backup env sb bb key w = (Return true, w') ->
  exists info w'' k,
    get_backup_info env bb key w = (Return (Some info), w'') /\
    info_metadata info !! "original-key" = Some k /\
    copy_requests (drop (length (trace w)) (trace w'))
    = [mkCopy bb key sb k None].
Proof.
  intros Hrun.
  destruct (restore_from_backup_run env sb bb key w) as (w1 & [Ht _] & H).
  unfold restore_succeeds, restore_events, original_key, restore_request, getitem in *.
  cbv [get_backup_info try_except mbind M_bind s3_head_object mret M_ret logger_error].
  destruct (head_outcome env (length (trace w)) bb key) as [resp | e].
  2:{ destruct H as [H _]. rewrite H in Hrun. discriminate. }
  destruct (head_Metadata resp) as [md|] eqn:Hmd.
  2:{ destruct H as [H _]. rewrite H in Hrun. discriminate. }
  destruct (md !! "original-key") as [k|] eqn:Hk.
  2:{ destruct H as [H _]. rewrite H in Hrun. discriminate. }
  destruct (copy_outcome env (S (length (trace w))) (mkCopy bb key sb k None)) as [e|].
  { destruct H as [H _]. rewrite H in Hrun. discriminate. }
  rewrite H in Hrun. inversion Hrun; subst w1.
  eexists _, _, k. split; [reflexivity|]. simpl.
  split; [exact Hk|]. rewrite Ht, drop_app_length. reflexivity.
Qed.

End RestoreMore.

Section CopyLoop.
Variable env : Env.

Lemma backup_object_log sb bb ts o c t w :
  log (backup_object env sb bb ts o (c, t) w).2
  = (log w ++ copy_log env sb bb ts (length (trace w)) [o])%list /\
  length (trace (backup_object env sb bb ts o (c, t) w).2) = S (length (trace w)).
Proof.
  unfold backup_object, try_except, s3_copy_object, request, mbind, M_bind. simpl.
  destruct (copy_outcome env (length (trace w)) (backup_request sb bb ts o));
    simpl; rewrite length_app; simpl; split; (done || lia).
Qed.

Lemma copied_all_fail sb bb ts objs : forall n,
  (forall k q, copy_outcome env k q <> None) -> copied env sb bb ts n objs = [].
Proof.
  intros n Hfail. revert n. induction objs as [|o objs IH]; intros n; [done|]. simpl.
  destruct (copy_outcome env n (backup_request sb bb ts o)) eqn:E; [apply IH|].
  by destruct (Hfail n (backup_request sb bb ts o)).
Qed.

Lemma sum_sizes_copied sb bb ts objs : forall n,
  Forall (fun o => 0 <= obj_Size o) objs ->
  0 <= sum_sizes (copied env sb bb ts n objs) <= sum_sizes objs.
Proof.
  intros n Hpos. revert n. induction Hpos as [|o objs Ho Hpos IH]; intros n; simpl; [lia|].
  specialize (IH (S n)).
  destruct (copy_outcome env n (backup_request sb bb ts o)); simpl; lia.
Qed.

Lemma errors_copy_log sb bb ts objs : forall n,
  length (errors (copy_log env sb bb ts n objs))
  = length (failed_copies (copy_events env sb bb ts n objs)).
Proof.
  unfold errors, failed_copies.
  induction objs as [|o objs IH]; intros n; [done|]. simpl.
  destruct (copy_outcome env n (backup_request sb bb ts o)); simpl; by rewrite IH.
Qed.

(** X10. The copy loop writes exactly one log record per listed object, in
    the order of the listing: "Backed up .. to .." at level INFO for a copy
    that succeeds, "Error backing up ..: .." at level ERROR for one that
    fails. There are as many ERROR records as failed copy requests. *)
Theorem copy_loop_logs_each_object sb bb ts objs : forall acc w,
  let w' := (for_each objs acc (backup_object env sb bb ts) w).2 in
  log w' = (log w ++ copy_log env sb bb ts (length (trace w)) objs)%list /\
  length (copy_log env sb bb ts (length (trace w)) objs) = length objs /\
  length (errors (copy_log env sb bb ts (length (trace w)) objs))
  = length (failed_copies (copy_events env sb bb ts (length (trace w)) objs)).
Proof.
  intros acc w w'. split; [| split; [| apply errors_copy_log]].
  - subst w'. revert acc w. induction objs as [|o objs IH]; intros [c t] w.
    + simpl. by rewrite app_nil_r.
    + rewrite for_each_cons, bind_run.
      destruct (backup_object_log sb bb ts o c t w) as [Hlog Hlen].
      destruct (backup_object_run env sb bb ts o c t w) as (w1 & _ & Hrun).
      rewrite Hrun in *. simpl in Hlog, Hlen.
      rewrite IH, Hlog, Hlen. simpl. by rewrite <- app_assoc.
  - generalize (length (trace w)). induction objs as [|o objs IH]; intros n; [done|].
    simpl. by rewrite IH.
Qed.

End CopyLoop.

Section RunsMore.
Variable env : Env.

(** X11. When every copy is refused, the run still answers 200 with
    "Backup completed successfully", reporting zero objects and zero bytes.
    Each listed object has been tried once, none was copied, and the metrics
    sent are 0 objects, 0 bytes and a [BackupSuccess] of 1. *)
Theorem all_copies_fail_still_succeeds w r objs :
  py_int env (retention_setting env) = Return r ->
  listed (source_pages env w) = Return objs ->
  objs <> [] ->
  (forall k q, copy_outcome env k q <> None) ->
  exists delta w' t1 t2 t3,
    lambda_handler env w
    = (Return (mkResponse 200
                 (json_dumps [ ("message", JStr "Backup completed successfully");
                               ("timestamp", JStr (capture_timestamp env w));
                               ("objects_backed_up", JInt 0);
                               ("total_size_bytes", JInt 0) ])), w') /\
    trace w' = (trace w ++ delta)%list /\
    length (copy_requests delta) = length objs /\
    successful_copies delta = [] /\
    metric_requests delta
    = [("MapReduce/Backup",
        [ mkDatum "BackupObjectsCount" 0 "Count" t1;
          mkDatum "BackupSizeBytes" 0 "Bytes" t2;
          mkDatum "BackupSuccess" 1 "Count" t3 ])].
Proof.
  intros Hint Hlist Hne Hfail.
  destruct (completed_trace env w r objs Hint Hlist Hne)
    as (w3 & w4 & w' & Hrun & _ & _ & [Ht _]).
  rewrite (copied_all_fail env _ _ _ _ _ Hfail) in Hrun, Ht.
  set (sb := source_bucket env) in *. set (bb := backup_bucket env) in *.
  set (ts := capture_timestamp env w) in *.
  set (n := (length (trace w) + length (list_events sb None (source_pages env w) 0))%nat)
    in *.
  exists (list_events sb None (source_pages env w) 0 ++ copy_events env sb bb ts n objs
          ++ cleanup_delta env bb r w3 ++ [metrics_event env 0 0 w4])%list,
    w', (now env w4), (now env (tick w4)), (now env (tick (tick w4))).
  split; [exact Hrun|]. split; [exact Ht|].
  destruct (run_copy_requests env sb bb ts r objs (source_pages env w) n w3 w4 0 0)
    as (Hc & Hs & _).
  split; [by rewrite Hc, length_map|].
  split; [by rewrite Hs, (copied_all_fail env _ _ _ _ _ Hfail)|].
  apply metric_requests_run.
Qed.

(** X12. When the listed sizes are not negative, the reported count lies
    between 0 and the number of listed objects, and the reported total size
    between 0 and the sum of the listed sizes. *)
Theorem total_size_within_listing w r objs :
  py_int env (retention_setting env) = Return r ->
  listed (source_pages env w) = Return objs ->
  objs <> [] ->
  Forall (fun o => 0 <= obj_Size o) objs ->
  exists c t w',
    lambda_handler env w
    = (Return (mkResponse 200
                 (json_dumps [ ("message", JStr "Backup completed successfully");
                               ("timestamp", JStr (capture_timestamp env w));
                               ("objects_backed_up", JInt c);
                               ("total_size_bytes", JInt t) ])), w') /\
    0 <= c <= Z.of_nat (length objs) /\
    0 <= t <= sum_sizes objs.
Proof.
  intros Hint Hlist Hne Hpos.
  destruct (completed_trace env w r objs Hint Hlist Hne)
    as (w3 & w4 & w' & Hrun & _).
  eexists _, _, w'. split; [exact Hrun|]. split.
  - pose proof (sublist_length _ _ (copied_sublist env (source_bucket env) (backup_bucket env)
        (capture_timestamp env w) objs
        (length (trace w) + length (list_events (source_bucket env) None
                                               (source_pages env w) 0))%nat)).
    lia.
  - by apply sum_sizes_copied.
Qed.

End RunsMore.

Section RetentionMore.
Variable env : Env.




Lemma sub_days_out_of_range d r :
  r < -999999999 \/ 999999999 < r \/
  ymd2ord (year d) (month d) (day d) - r <= 0 \/
  MAXORDINAL < ymd2ord (year d) (month d) (day d) - r ->
  exists e, sub_days d r = Raise e /\ exn_class e = "OverflowError".
Proof.
  intros Hr. unfold sub_days.
  destruct ((r <? -2147483648) || (2147483647 <? r)); [eexists; split; reflexivity|].
  destruct (Z.ltb_spec r (-999999999)); cbn [orb]; [eexists; split; reflexivity|].
  destruct (Z.ltb_spec 999999999 r); cbn [orb]; [eexists; split; reflexivity|].
  destruct (Z.ltb_spec 0 (ymd2ord (year d) (month d) (day d) - r)); cbn [andb];
    [|eexists; split; reflexivity].
  destruct (Z.leb_spec (ymd2ord (year d) (month d) (day d) - r) MAXORDINAL);
    [lia | eexists; split; reflexivity].
Qed.

(** X13. When the retention window is more than [timedelta] accepts
    (999999999 days either way), or the cutoff would fall outside the years
    1 to 9999, computing the cutoff raises [OverflowError]. The retention
    pass then returns normally without having listed or deleted anything:
    it has read the clock once and logged the error, with the text of the
    exception ([sub_days] gives it: that of the conversion to a C [int]
    for windows outside 32 bits, that of [timedelta]'s bound, or that of
    the date range). *)
Theorem retention_window_out_of_range b r w :
  r < -999999999 \/ 999999999 < r \/
  ymd2ord (year (now env w)) (month (now env w)) (day (now env w)) - r <= 0 \/
  MAXORDINAL < ymd2ord (year (now env w)) (month (now env w)) (day (now env w)) - r ->
  exists e w',
    sub_days (now env w) r = Raise e /\
    exn_class e = "OverflowError" /\
    cleanup_old_backups env b r w = (Return tt, w') /\
    trace w' = trace w /\
    clock_reads w' = S (clock_reads w) /\
    log w' = (log w ++ [(ERROR, "Error cleaning up old backups: " +:+ exn_str e)])%list.
Proof.
  intros Hr.
  destruct (sub_days_out_of_range _ _ Hr) as (e & Hsub & Hclass). exists e.
  cbv [cleanup_old_backups try_except mbind M_bind utcnow eval logger_error].
  fold (now env w). rewrite Hsub. eexists. split; [done|]. split; [done|].
  split; [reflexivity|]. done.
Qed.


(** X15. Line 139 strips the timezone of ['LastModified'] and compares the
    wall-clock times. For a stamp in UTC (offset 0) this is the comparison
    of the timezone-aware values, the cutoff read as UTC. For a stamp with
    offset [off] it is not in general: the aware comparison is of the
    instants (wall clock minus offset), the stripped one of the wall
    clocks. *)
Theorem stripping_agrees_for_utc cutoff o :
  valid (obj_LastModified o) -> valid cutoff ->
  tzinfo cutoff = None ->
  (tzinfo (obj_LastModified o) = Some 0 ->
   lt (obj_LastModified o) (as_utc cutoff)
   = lt (replace_tzinfo_none (obj_LastModified o)) cutoff) /\
  (forall off, tzinfo (obj_LastModified o) = Some off ->
     exists b b',
       lt (obj_LastModified o) (as_utc cutoff) = Return b /\
       lt (replace_tzinfo_none (obj_LastModified o)) cutoff = Return b' /\
       (b = true <-> wall_micros (obj_LastModified o) - off * 1000000 < wall_micros cutoff) /\
       (b' = true <-> wall_micros (obj_LastModified o) < wall_micros cutoff)).
Proof.
  intros Vo Vc Hc.
  assert (Hgen : forall off, tzinfo (obj_LastModified o) = Some off ->
     exists b b',
       lt (obj_LastModified o) (as_utc cutoff) = Return b /\
       lt (replace_tzinfo_none (obj_LastModified o)) cutoff = Return b' /\
       (b = true <-> wall_micros (obj_LastModified o) - off * 1000000 < wall_micros cutoff) /\
       (b' = true <-> wall_micros (obj_LastModified o) < wall_micros cutoff)).
  { intros off Hoff. rewrite (lt_stripped _ _ Hc).
    unfold lt at 1. rewrite Hoff. cbn [tzinfo as_utc].
    eexists _, _. split; [reflexivity|]. split; [reflexivity|]. split.
    - rewrite Z.ltb_lt. change (wall_micros (as_utc cutoff)) with (wall_micros cutoff). lia.
    - rewrite (lex_lt_wall_micros _ _ (valid_replace_tzinfo_none _ Vo) Vc).
      rewrite Z.ltb_lt. done. }
  split; [| exact Hgen].
  intros Hutc. destruct (Hgen 0 Hutc) as (b & b' & -> & -> & Hb & Hb').
  f_equal. apply eq_true_iff_eq. rewrite Hb, Hb'. lia.
Qed.

End RetentionMore.

Section Targets.
Variable env : Env.

Lemma list_requests_app l1 l2 :
  list_requests (l1 ++ l2) = (list_requests l1 ++ list_requests l2)%list.
Proof. apply omap_app. Qed.

Lemma delete_requests_cleanup_delta_bucket b r w :
  Forall (fun q => q.1 = b) (delete_requests (cleanup_delta env b r w)).
Proof.
  unfold cleanup_delta. destruct (sub_days (now env w) r) as [cutoff | e]; [|constructor].
  rewrite delete_requests_cleanup_events. apply Forall_forall.
  intros q Hq. apply list_elem_of_fmap in Hq as (o & -> & _). done.
Qed.

Lemma list_requests_cleanup_delta_prefix b r w :
  Forall (fun q => q.1 = (b, Some "backup/")) (list_requests (cleanup_delta env b r w)).
Proof.
  unfold cleanup_delta. destruct (sub_days (now env w) r) as [cutoff | e]; [|constructor].
  rewrite list_requests_cleanup_events. apply list_requests_list_events.
Qed.

Lemma not_head_list_events b p ps : forall k, Forall not_head (list_events b p ps k).
Proof.
  induction ps as [e | q | q rest IH]; intros k; simpl;
    [repeat constructor | repeat constructor | constructor; [done | apply IH]].
Qed.

Lemma not_head_copy_events sb bb ts objs : forall n,
  Forall not_head (copy_events env sb bb ts n objs).
Proof.
  induction objs as [|o l IH]; intros k; simpl;
    [constructor | constructor; [done | apply IH]].
Qed.

Lemma not_head_delete_events cutoff b objs : forall n,
  Forall not_head (delete_events env cutoff b n objs).
Proof.
  induction objs as [|o l IH]; intros k; simpl; [constructor|].
  destruct (expired cutoff o); [constructor; [done | apply IH] | apply IH].
Qed.

Lemma not_head_cleanup_delta b r w : Forall not_head (cleanup_delta env b r w).
Proof.
  unfold cleanup_delta. destruct (sub_days _ _) as [cutoff|]; [|constructor].
  generalize 0%nat (length (trace w)).
  induction (backup_pages env b w) as [e | p | p rest IH]; intros k m; simpl.
  - repeat constructor.
  - constructor; [done | apply not_head_delete_events].
  - constructor; [done|]. apply Forall_app.
    split; [apply not_head_delete_events | apply IH].
Qed.

(** The requests of a run, by the three ways a run can go. *)
Lemma run_shapes w :
  exists delta resp w',
    lambda_handler env w = (Return resp, w') /\
    trace w' = (trace w ++ delta)%list /\
    (delta = [] \/
     delta = list_events (source_bucket env) None (source_pages env w) 0 \/
     exists r objs n w3 w4 c t,
       py_int env (retention_setting env) = Return r /\
       advances w (list_events (source_bucket env) None (source_pages env w) 0
                   ++ copy_events env (source_bucket env) (backup_bucket env)
                                  (capture_timestamp env w) n objs) 1 w3 /\
       delta = (list_events (source_bucket env) None (source_pages env w) 0
                ++ copy_events env (source_bucket env) (backup_bucket env)
                               (capture_timestamp env w) n objs
                ++ cleanup_delta env (backup_bucket env) r w3
                ++ [metrics_event env c t w4])%list).
Proof.
  pose proof (lambda_handler_run env w) as H. cbv zeta in H.
  destruct (py_int env (retention_setting env)) as [r | e] eqn:Hint.
  - destruct (listed (source_pages env w)) as [[|o objs] | e] eqn:Hlist.
    + destruct H as (w' & Hrun & [Ht _]). eexists _, _, w'.
      split; [exact Hrun|]. split; [exact Ht|]. right. by left.
    + clear H.
      destruct (completed_trace env w r (o :: objs) Hint Hlist ltac:(done))
        as (w3 & w4 & w' & Hrun & H3 & _ & [Ht _]).
      eexists _, _, w'. split; [exact Hrun|]. split; [exact Ht|].
      right. right. eexists r, (o :: objs), _, w3, w4, _, _.
      split; [done|]. split; [exact H3 | reflexivity].
    + destruct H as (w' & Hrun & [Ht _]). eexists _, _, w'.
      split; [exact Hrun|]. split; [exact Ht|]. right. by left.
  - destruct H as (w' & Hrun & [Ht _]). eexists _, _, w'.
    split; [exact Hrun|]. split; [exact Ht|]. by left.
Qed.

(** X16. Whatever the environment and the outcomes of the requests, a run
    of the handler deletes only in the backup bucket, lists only the source
    bucket (without prefix) and the backup bucket under [backup/], copies
    only from the source bucket to the backup bucket, never asks for
    [head_object], and sends metrics at most once. *)
Theorem run_touches_only_its_buckets w :
  exists delta resp w',
    lambda_handler env w = (Return resp, w') /\
    trace w' = (trace w ++ delta)%list /\
    Forall (fun q => q.1 = backup_bucket env) (delete_requests delta) /\
    Forall (fun q => q.1 = (source_bucket env, None) \/
                     q.1 = (backup_bucket env, Some "backup/")) (list_requests delta) /\
    Forall (fun q => copy_src_Bucket q = source_bucket env /\
                     copy_Bucket q = backup_bucket env) (copy_requests delta) /\
    Forall not_head delta /\
    (length (metric_requests delta) <= 1)%nat.
Proof.
  destruct (run_shapes w) as (delta & resp & w' & Hrun & Ht & Hshape).
  exists delta, resp, w'. split; [exact Hrun|]. split; [exact Ht|].
  assert (Hlist : Forall (fun q : option string * option string * nat =>
                            q.1 = (source_bucket env, None) \/
                            q.1 = (backup_bucket env, Some "backup/"))
                         (list_requests (list_events (source_bucket env) None
                                                     (source_pages env w) 0))).
  { eapply Forall_impl; [apply list_requests_list_events|]. intros q Hq. by left. }
  destruct Hshape as [-> | [-> | (r & objs & n & w3 & w4 & c & t & _ & _ & ->)]].
  - repeat split; simpl; first [lia | constructor].
  - rewrite delete_requests_list_events, copy_requests_list_events,
      metric_requests_list_events.
    split; [constructor|]. split; [exact Hlist|]. split; [constructor|].
    split; [apply not_head_list_events | simpl; lia].
  - split; [| split; [| split; [| split]]].
    + rewrite !delete_requests_app, delete_requests_list_events,
        delete_requests_copy_events. simpl. rewrite app_nil_r.
      apply delete_requests_cleanup_delta_bucket.
    + rewrite !list_requests_app, list_requests_copy_events. simpl.
      rewrite app_nil_r. apply Forall_app. split; [exact Hlist|].
      eapply Forall_impl; [apply list_requests_cleanup_delta_prefix|].
      intros q Hq. by right.
    + destruct (run_copy_requests env (source_bucket env) (backup_bucket env)
                  (capture_timestamp env w) r objs (source_pages env w) n w3 w4 c t)
        as (-> & _).
      apply Forall_forall. intros q Hq. apply list_elem_of_fmap in Hq as (o & -> & _). done.
    + apply Forall_app. split; [apply not_head_list_events|].
      apply Forall_app. split; [apply not_head_copy_events|].
      apply Forall_app. split; [apply not_head_cleanup_delta|].
      constructor; [exact I | constructor].
    + rewrite metric_requests_run. simpl. lia.
Qed.

(** X17. With [RETENTION_DAYS] unset the handler uses [int('30')]. In a run
    that lists a non-empty source bucket, the retention pass starts after
    the listing and one copy request per listed object, reads the clock as
    the second reading of the run, and the [delete_object] requests of the
    whole run are exactly those for the backups which that pass lists and
    whose last-modified time is before its cutoff. *)
Theorem run_deletes_expired_backups w r objs :
  environ env !! "RETENTION_DAYS" = None ->
  py_int env "30" = Return r ->
  listed (source_pages env w) = Return objs ->
  objs <> [] ->
  exists delta resp w' w3,
    lambda_handler env w = (Return resp, w') /\
    trace w' = (trace w ++ delta)%list /\
    length (trace w3) = (length (trace w)
                         + length (list_events (source_bucket env) None (source_pages env w) 0)
                         + length objs)%nat /\
    clock_reads w3 = S (clock_reads w) /\
    forall cutoff,
      sub_days (now env w3) r = Return cutoff ->
      delete_requests delta
      = map (fun o => (backup_bucket env, obj_Key o))
            (List.filter (expired cutoff)
                         (yielded (backup_pages env (backup_bucket env) w3))).
Proof.
  intros Hunset Hint Hlist Hne.
  assert (Hset : retention_setting env = "30").
  { unfold retention_setting, environ_get_default. by rewrite Hunset. }
  rewrite <- Hset in Hint.
  destruct (completed_trace env w r objs Hint Hlist Hne)
    as (w3 & w4 & w' & Hrun & H3 & _ & [Ht _]).
  eexists _, _, w', w3. split; [exact Hrun|]. split; [exact Ht|].
  split; [| split].
  - rewrite (advances_length _ _ _ _ H3), length_app.
    assert (Hlen : forall l k, length (copy_events env (source_bucket env) (backup_bucket env)
                                         (capture_timestamp env w) k l) = length l).
    { induction l as [|o l IH]; intros k; simpl; [done | by rewrite IH]. }
    rewrite Hlen. lia.
  - destruct H3 as [_ Hc]. lia.
  - intros cutoff Hsub.
    rewrite !delete_requests_app, delete_requests_list_events,
      delete_requests_copy_events. simpl. rewrite app_nil_r.
    by destruct (cleanup_delta_requests env (backup_bucket env) r w3 cutoff Hsub).
Qed.

End Targets.

Section Keys.

Lemma undigit_digit n : 0 <= n <= 9 -> undigit (digit n) = n.
Proof.
  intros Hn. unfold undigit, digit.
  rewrite N_ascii_embedding by lia. lia.
Qed.

Lemma digit_inj a b : 0 <= a <= 9 -> 0 <= b <= 9 -> digit a = digit b -> a = b.
Proof.
  intros Ha Hb H. rewrite <- (undigit_digit a Ha), <- (undigit_digit b Hb). by rewrite H.
Qed.

Lemma digits2_inj a b : 0 <= a <= 99 -> 0 <= b <= 99 -> digits2 a = digits2 b -> a = b.
Proof.
  intros Ha Hb H. unfold digits2 in H. injection H as H1 H2.
  apply digit_inj in H1; [| Z.to_euclidean_division_equations; lia..].
  apply digit_inj in H2; [| Z.to_euclidean_division_equations; lia..].
  Z.to_euclidean_division_equations; lia.
Qed.

Lemma digits4_inj a b :
  1000 <= a <= 9999 -> 1000 <= b <= 9999 -> digits4 a = digits4 b -> a = b.
Proof.
  intros Ha Hb H. unfold digits4, digits2 in H. injection H as H1 H2 H3 H4.
  apply digit_inj in H1; [| Z.to_euclidean_division_equations; lia..].
  apply digit_inj in H2; [| Z.to_euclidean_division_equations; lia..].
  apply digit_inj in H3; [| Z.to_euclidean_division_equations; lia..].
  apply digit_inj in H4; [| Z.to_euclidean_division_equations; lia..].
  Z.to_euclidean_division_equations; lia.
Qed.

(** X18. Backup keys determine the second of the capture time and the
    original key: two backup requests (for capture times of four-digit
    years) have the same key only if the capture times agree up to the
    second and the objects have the same key. *)
Theorem backup_keys_do_not_collide sb bb sb' bb' d d' o o' :
  valid d -> valid d' -> 1000 <= year d -> 1000 <= year d' ->
  copy_Key (backup_request sb bb (strftime_Ymd_HMS d) o)
  = copy_Key (backup_request sb' bb' (strftime_Ymd_HMS d') o') ->
  year d = year d' /\ month d = month d' /\ day d = day d' /\
  hour d = hour d' /\ minute d = minute d' /\ second d = second d' /\
  obj_Key o = obj_Key o'.
Proof.
  intros V V' Hy Hy' Hkey.
  rewrite (strftime_layout _ V Hy), (strftime_layout _ V' Hy') in Hkey.
  pose proof (days_in_month_le_31 (year d) (month d)).
  pose proof (days_in_month_le_31 (year d') (month d')).
  destruct V as (By & Bm & Bd & Bh & Bmi & Bs & _).
  destruct V' as (By' & Bm' & Bd' & Bh' & Bmi' & Bs' & _).
  cbn in Hkey.
  injection Hkey as Y1 Y2 Y3 Y4 M1 M2 D1 D2 H1 H2 MI1 MI2 S1 S2 K.
  assert (HY : digits4 (year d) = digits4 (year d'))
    by (unfold digits4, digits2; by rewrite Y1, Y2, Y3, Y4).
  assert (HM : digits2 (month d) = digits2 (month d'))
    by (unfold digits2; by rewrite M1, M2).
  assert (HD : digits2 (day d) = digits2 (day d'))
    by (unfold digits2; by rewrite D1, D2).
  assert (HH : digits2 (hour d) = digits2 (hour d'))
    by (unfold digits2; by rewrite H1, H2).
  assert (HMI : digits2 (minute d) = digits2 (minute d'))
    by (unfold digits2; by rewrite MI1, MI2).
  assert (HS : digits2 (second d) = digits2 (second d'))
    by (unfold digits2; by rewrite S1, S2).
  apply digits4_inj in HY; [| lia..].
  apply digits2_inj in HM; [| lia..]. apply digits2_inj in HD; [| lia..].
  apply digits2_inj in HH; [| lia..]. apply digits2_inj in HMI; [| lia..].
  apply digits2_inj in HS; [| lia..].
  done.
Qed.

End Keys.

Section KeyOrder.

Lemma compare_digit a b :
  0 <= a <= 9 -> 0 <= b <= 9 -> Ascii.compare (digit a) (digit b) = (a ?= b).
Proof.
  intros Ha Hb. unfold Ascii.compare, digit.
  rewrite !N_ascii_embedding by lia.
  destruct (Z.compare_spec a b) as [-> | Hlt | Hgt].
  - apply N.compare_refl.
  - apply N.compare_lt_iff. lia.
  - apply N.compare_gt_iff. lia.
Qed.

Lemma compare_digits2 a b s s' :
  0 <= a <= 99 -> 0 <= b <= 99 ->
  String.compare (digits2 a +:+ s) (digits2 b +:+ s')
  = lex (a ?= b) (String.compare s s').
Proof.
  intros Ha Hb. unfold digits2. simpl.
  rewrite !compare_digit by (Z.to_euclidean_division_equations; lia).
  destruct (Z.compare_spec (a / 10) (b / 10)) as [E1 | L1 | G1];
    destruct (Z.compare_spec (a mod 10) (b mod 10)) as [E2 | L2 | G2];
    destruct (Z.compare_spec a b) as [E | L | G]; simpl; try reflexivity;
    exfalso; Z.to_euclidean_division_equations; lia.
Qed.

Lemma compare_digits4 a b s s' :
  1000 <= a <= 9999 -> 1000 <= b <= 9999 ->
  String.compare (digits4 a +:+ s) (digits4 b +:+ s')
  = lex (a ?= b) (String.compare s s').
Proof.
  intros Ha Hb. unfold digits4, digits2. simpl.
  rewrite !compare_digit by (Z.to_euclidean_division_equations; lia).
  destruct (Z.compare_spec (a / 1000) (b / 1000)) as [E1 | L1 | G1];
    destruct (Z.compare_spec (a / 100 mod 10) (b / 100 mod 10)) as [E2 | L2 | G2];
    destruct (Z.compare_spec (a mod 100 / 10) (b mod 100 / 10)) as [E3 | L3 | G3];
    destruct (Z.compare_spec ((a mod 100) mod 10) ((b mod 100) mod 10)) as [E4 | L4 | G4];
    destruct (Z.compare_spec a b) as [E | L | G]; simpl; try reflexivity;
    exfalso; Z.to_euclidean_division_equations; lia.
Qed.

Lemma string_app_assoc a b c : (a +:+ b) +:+ c = a +:+ (b +:+ c).
Proof.
  induction a as [|x a IH]; [done|].
  change (String x ((a +:+ b) +:+ c) = String x (a +:+ (b +:+ c))). by rewrite IH.
Qed.

Lemma compare_app_prefix p s s' :
  String.compare (p +:+ s) (p +:+ s') = String.compare s s'.
Proof.
  induction p as [|x p IH]; [done|].
  change (match Ascii.compare x x with
          | Eq => String.compare (p +:+ s) (p +:+ s')
          | c => c
          end = String.compare s s').
  unfold Ascii.compare. by rewrite N.compare_refl.
Qed.

Lemma compare_timestamps d d' s s' :
  valid d -> valid d' -> 1000 <= year d -> 1000 <= year d' ->
  String.compare (strftime_Ymd_HMS d +:+ s) (strftime_Ymd_HMS d' +:+ s')
  = lex (year d ?= year d')
      (lex (month d ?= month d')
         (lex (day d ?= day d')
            (lex (hour d ?= hour d')
               (lex (minute d ?= minute d')
                  (lex (second d ?= second d') (String.compare s s')))))).
Proof.
  intros V V' Hy Hy'.
  rewrite (strftime_layout _ V Hy), (strftime_layout _ V' Hy').
  pose proof (days_in_month_le_31 (year d) (month d)).
  pose proof (days_in_month_le_31 (year d') (month d')).
  destruct V as (By & Bm & Bd & Bh & Bmi & Bs & _).
  destruct V' as (By' & Bm' & Bd' & Bh' & Bmi' & Bs' & _).
  unfold YYYYMMDD_HHMMSS. rewrite !string_app_assoc.
  rewrite compare_digits4 by lia. f_equal.
  rewrite compare_digits2 by lia. f_equal.
  rewrite compare_digits2 by lia. f_equal.
  rewrite (compare_app_prefix "_").
  rewrite compare_digits2 by lia. f_equal.
  rewrite compare_digits2 by lia. f_equal.
  rewrite compare_digits2 by lia. done.
Qed.

Lemma valid_to_second d : valid d -> valid (to_second d).
Proof. unfold valid. simpl. intros (? & ? & ? & ? & ? & ? & _). repeat split; lia. Qed.

(** X19. Backup keys sort by capture time: if one capture time (of a
    four-digit year) is of an earlier second than another, every backup key
    of the first run is before every backup key of the second in the order
    of strings by character codes. *)
Theorem backup_keys_sort_by_capture_time sb bb sb' bb' d d' o o' :
  valid d -> valid d' -> 1000 <= year d -> 1000 <= year d' ->
  wall_micros (to_second d) < wall_micros (to_second d') ->
  String.ltb (copy_Key (backup_request sb bb (strftime_Ymd_HMS d) o))
             (copy_Key (backup_request sb' bb' (strftime_Ymd_HMS d') o')) = true.
Proof.
  intros V V' Hy Hy' Hearlier.
  apply Z.ltb_lt in Hearlier.
  rewrite <- (lex_lt_wall_micros _ _ (valid_to_second _ V) (valid_to_second _ V'))
    in Hearlier.
  unfold String.ltb. cbn [copy_Key backup_request].
  rewrite (compare_app_prefix "backup/").
  rewrite (compare_timestamps d d' _ _ V V' Hy Hy').
  unfold fields, lex_lt in Hearlier. cbn [year month day hour minute second microsecond to_second] in Hearlier.
  destruct (Z.compare_spec (year d) (year d')) as [Ey | Ly | Gy]; simpl; [| done |].
  2:{ exfalso. destruct (Z.ltb_spec (year d) (year d')); [lia|].
      destruct (Z.eqb_spec (year d) (year d')); [lia | discriminate]. }
  rewrite Ey, Z.ltb_irrefl, Z.eqb_refl in Hearlier. simpl in Hearlier.
  destruct (Z.compare_spec (month d) (month d')) as [Em | Lm | Gm]; simpl; [| done |].
  2:{ exfalso. destruct (Z.ltb_spec (month d) (month d')); [lia|].
      destruct (Z.eqb_spec (month d) (month d')); [lia | discriminate]. }
  rewrite Em, Z.ltb_irrefl, Z.eqb_refl in Hearlier. simpl in Hearlier.
  destruct (Z.compare_spec (day d) (day d')) as [Ed | Ld | Gd]; simpl; [| done |].
  2:{ exfalso. destruct (Z.ltb_spec (day d) (day d')); [lia|].
      destruct (Z.eqb_spec (day d) (day d')); [lia | discriminate]. }
  rewrite Ed, Z.ltb_irrefl, Z.eqb_refl in Hearlier. simpl in Hearlier.
  destruct (Z.compare_spec (hour d) (hour d')) as [Eh | Lh | Gh]; simpl; [| done |].
  2:{ exfalso. destruct (Z.ltb_spec (hour d) (hour d')); [lia|].
      destruct (Z.eqb_spec (hour d) (hour d')); [lia | discriminate]. }
  rewrite Eh, Z.ltb_irrefl, Z.eqb_refl in Hearlier. simpl in Hearlier.
  destruct (Z.compare_spec (minute d) (minute d')) as [Emi | Lmi | Gmi]; simpl; [| done |].
  2:{ exfalso. destruct (Z.ltb_spec (minute d) (minute d')); [lia|].
      destruct (Z.eqb_spec (minute d) (minute d')); [lia | discriminate]. }
  rewrite Emi, Z.ltb_irrefl, Z.eqb_refl in Hearlier. simpl in Hearlier.
  destruct (Z.compare_spec (second d) (second d')) as [Es | Ls | Gs]; simpl; [| done |].
  2:{ exfalso. destruct (Z.ltb_spec (second d) (second d')); [lia|].
      destruct (Z.eqb_spec (second d) (second d')); [lia | discriminate]. }
  rewrite Es, Z.ltb_irrefl, Z.eqb_refl in Hearlier. simpl in Hearlier. discriminate.
Qed.

End KeyOrder.

Section ListingAndRetention.
Variable env : Env.

Lemma filter_map_entries cutoff objs :
  map entry_key (List.filter (entry_expired cutoff) (map entry_of objs))
  = map obj_Key (List.filter (expired cutoff) objs).
Proof.
  induction objs as [|o objs IH]; [done|].
  change (map entry_of (o :: objs)) with (entry_of o :: map entry_of objs).
  cbn [List.filter]. change (entry_expired cutoff (entry_of o)) with (expired cutoff o).
  destruct (expired cutoff o); cbn [map]; by rewrite IH.
Qed.

(** X20.  The retention pass works on what [list_backups] reports with its
    default prefix.  Started in the same state, with a listing that
    succeeds and a cutoff that can be computed, [list_backups(bucket)]
    returns its entries, [cleanup_old_backups] returns, and the deletions
    which the pass has requested are exactly those of the keys of the
    entries whose last-modified time, timezone stripped, is before the
    cutoff, in the order of the list. *)
Theorem retention_deletes_among_listed_backups b r w objs cutoff :
  listed (backup_pages env b w) = Return objs ->
  sub_days (now env w) r = Return cutoff ->
  exists entries wl wc,
    list_backups env b "backup/" w = (Return entries, wl) /\
    cleanup_old_backups env b r w = (Return tt, wc) /\
    delete_requests (drop (length (trace w)) (trace wc))
    = map (fun k => (b, k))
          (map entry_key (List.filter (entry_expired cutoff) entries)).
Proof.
  intros Hlist Hsub.
  destruct (cleanup_old_backups_delta env b r w) as (wc & Hclean & [Ht _]).
  unfold list_backups, try_except, for_paginate.
  destruct (list_backups_pages_run b "backup/" (pages env (length (trace w)) b (Some "backup/"))
                                   0 [] w) as (wl & _ & _ & Hrun).
  fold (backup_pages env b w) in Hrun |- *. rewrite Hrun, Hlist.
  eexists _, wl, wc. split; [reflexivity|]. split; [exact Hclean|].
  change ([] ++ map entry_of objs)%list with (map entry_of objs).
  rewrite Ht, drop_app_length.
  destruct (cleanup_delta_requests env b r w cutoff Hsub) as [-> _].
  rewrite filter_map_entries, (listed_yielded _ _ Hlist), map_map. done.
Qed.

End ListingAndRetention.

(** ** The further properties at work *)


(** The two old backups of the scenario, as [list_backups] reports them. *)
Lemma list_backups_lists_every_object_witness :
  exists w',
    list_backups Scenario.env_two (Some "bak") "backup/" initial
    = (Return [ mkEntry "backup/20231201_000000/x" 100
                        (Scenario.utc 2023 12 16 9 30 0) "STANDARD";
                mkEntry "backup/20231201_000000/y" 100
                        (Scenario.utc 2023 12 16 9 29 59) "STANDARD" ], w') /\
    log w' = [].
Proof.
  destruct (list_backups_lists_every_object Scenario.env_two (Some "bak") "backup/" initial
              [Scenario.at_cutoff; Scenario.before_cutoff] eq_refl)
    as (w' & Hrun & _ & _ & _ & Hlog).
  exists w'. split; [exact Hrun | exact Hlog].
Defined.

(** The second page fails: the first page's object is not returned. *)
Lemma list_backups_propagates_failure_witness :
  exists w',
    list_backups Scenario.env_listing_fails (Some "bak") "backup/" initial
    = (Raise (mkExn "MemoryError" ""), w') /\
    log w' = [(ERROR, "Error listing backups: ")].
Proof.
  destruct (list_backups_propagates_failure Scenario.env_listing_fails (Some "bak")
              "backup/" initial (mkExn "MemoryError" "") eq_refl)
    as (w' & Hrun & _ & Hlog).
  exists w'. split; [exact Hrun | exact Hlog].
Defined.

Lemma list_source_objects_concatenates_pages_witness :
  exists w',
    list_source_objects Scenario.env_two (Some "src") initial
    = (Return [Scenario.file_csv; Scenario.b_csv], w') /\
    trace w' = [ mkEvent (list_objects_v2 (Some "src") None 0) None;
                 mkEvent (list_objects_v2 (Some "src") None 1) None ].
Proof.
  destruct (list_source_objects_concatenates_pages Scenario.env_two (Some "src") initial
              [Scenario.file_csv; Scenario.b_csv] eq_refl)
    as (w' & Hrun & _ & Ht & _).
  exists w'. split; [exact Hrun | exact Ht].
Defined.

(** [RETENTION_DAYS=thirty]. *)
Lemma invalid_retention_days_fails_before_any_request_witness :
  exists resp w',
    lambda_handler Cases.env_bad_days initial = (Return resp, w') /\
    statusCode resp = 500 /\ trace w' = [] /\ clock_reads w' = 0%nat.
Proof.
  eexists _, _. split.
  - apply (invalid_retention_days_fails_before_any_request Cases.env_bad_days initial
             (mkExn "ValueError" "invalid literal for int() with base 10: 'thirty'")).
    reflexivity.
  - split; [reflexivity | split; reflexivity].
Defined.

(** No such backup: [head_object] fails, and nothing is copied. *)
Lemma restore_needs_original_key_witness :
  exists w',
    restore_from_backup Scenario.env_two (Some "src") (Some "bak") "backup/missing" initial
    = (Return false, w') /\
    copy_requests (trace w') = [].
Proof.
  destruct (restore_needs_original_key Scenario.env_two (Some "src") (Some "bak")
              "backup/missing" initial (mkExn "ClientError" "Not Found") eq_refl)
    as (w' & outcome & Hrun & Ht & _).
  exists w'. split; [exact Hrun|]. rewrite Ht. reflexivity.
Defined.


Lemma restore_true_only_if_info_has_key_witness :
  exists info w'' k,
    get_backup_info Scenario.env_two (Some "bak") "backup/q1" initial
    = (Return (Some info), w'') /\
    info_metadata info !! "original-key" = Some k /\
    copy_requests
      (trace (restore_from_backup Scenario.env_two (Some "src") (Some "bak")
                                  "backup/q1" initial).2)
    = [mkCopy (Some "bak") "backup/q1" (Some "src") k None].
Proof.
  exact (restore_true_only_if_info_has_key Scenario.env_two (Some "src") (Some "bak")
           "backup/q1" initial
           (restore_from_backup Scenario.env_two (Some "src") (Some "bak")
                                "backup/q1" initial).2
           eq_refl).
Defined.

(** Both copies are refused. *)
Lemma all_copies_fail_still_succeeds_witness :
  exists w',
    lambda_handler Cases.env_denied initial
    = (Return (backup_completed "20240115_093000" 0 0), w') /\
    length (copy_requests (trace w')) = 2%nat.
Proof.
  destruct (all_copies_fail_still_succeeds Cases.env_denied initial 30
              [Scenario.file_csv; Scenario.b_csv] eq_refl eq_refl
              ltac:(discriminate) (fun k q => ltac:(discriminate)))
    as (delta & w' & t1 & t2 & t3 & Hrun & Ht & Hlen & _).
  exists w'. split; [exact Hrun|]. rewrite Ht. exact Hlen.
Defined.

Lemma total_size_within_listing_witness :
  exists c t w',
    lambda_handler Scenario.env_two initial
    = (Return (backup_completed "20240115_093000" c t), w') /\
    0 <= c <= 2 /\ 0 <= t <= 150.
Proof.
  exact (total_size_within_listing Scenario.env_two initial 30
           [Scenario.file_csv; Scenario.b_csv] eq_refl eq_refl ltac:(discriminate)
           ltac:(repeat constructor; vm_compute; discriminate)).
Defined.

(** 800000 days before 2024 is before year 1, and 2^31 days are no C
    [int]. *)
Lemma retention_window_out_of_range_witness :
  (exists w',
     cleanup_old_backups Scenario.env_two (Some "bak") 800000 initial = (Return tt, w') /\
     trace w' = [] /\
     log w' = [(ERROR, "Error cleaning up old backups: date value out of range")]) /\
  (exists w',
     cleanup_old_backups Scenario.env_two (Some "bak") 2147483648 initial = (Return tt, w') /\
     trace w' = [] /\
     log w' = [(ERROR, "Error cleaning up old backups: Python int too large to convert to C int")]).
Proof.
  split.
  - destruct (retention_window_out_of_range Scenario.env_two (Some "bak") 800000 initial
                ltac:(right; right; left; vm_compute; discriminate))
      as (e & w' & Hsub & _ & Hrun & Ht & _ & Hlog).
    exists w'. split; [exact Hrun|]. split; [exact Ht|].
    injection Hsub as <-. exact Hlog.
  - destruct (retention_window_out_of_range Scenario.env_two (Some "bak") 2147483648 initial
                ltac:(right; left; vm_compute; reflexivity))
      as (e & w' & Hsub & _ & Hrun & Ht & _ & Hlog).
    exists w'. split; [exact Hrun|]. split; [exact Ht|].
    injection Hsub as <-. exact Hlog.
Defined.


Lemma stripping_agrees_for_utc_witness :
  lt (obj_LastModified Scenario.before_cutoff) (as_utc Cases.cutoff_30)
  = lt (replace_tzinfo_none (obj_LastModified Scenario.before_cutoff)) Cases.cutoff_30.
Proof.
  apply (proj1 (stripping_agrees_for_utc Cases.cutoff_30 Scenario.before_cutoff
                  ltac:(repeat split; vm_compute; discriminate)
                  ltac:(repeat split; vm_compute; discriminate) eq_refl)).
  reflexivity.
Defined.

(** The run of the scenario deletes the backup last modified a second
    before the cutoff, and no other. *)
Lemma run_deletes_expired_backups_witness :
  exists delta resp w',
    lambda_handler Scenario.env_two initial = (Return resp, w') /\
    trace w' = delta /\
    delete_requests delta = [(Some "bak", "backup/20231201_000000/y")].
Proof.
  destruct (run_deletes_expired_backups Scenario.env_two initial 30
              [Scenario.file_csv; Scenario.b_csv] eq_refl eq_refl eq_refl
              ltac:(discriminate))
    as (delta & resp & w' & w3 & Hrun & Ht & _ & _ & Hdel).
  exists delta, resp, w'. split; [exact Hrun|]. split; [exact Ht|].
  exact (Hdel Cases.cutoff_30 eq_refl).
Defined.

(** Two capture times of the same second give the same key. *)
Lemma backup_keys_do_not_collide_witness :
  year Scenario.t0 = year Cases.t0_half /\ month Scenario.t0 = month Cases.t0_half /\
  day Scenario.t0 = day Cases.t0_half /\ hour Scenario.t0 = hour Cases.t0_half /\
  minute Scenario.t0 = minute Cases.t0_half /\ second Scenario.t0 = second Cases.t0_half /\
  obj_Key Scenario.file_csv = obj_Key Scenario.file_csv.
Proof.
  exact (backup_keys_do_not_collide (Some "src") (Some "bak") (Some "src") (Some "bak")
           Scenario.t0 Cases.t0_half Scenario.file_csv Scenario.file_csv
           ltac:(repeat split; vm_compute; discriminate)
           ltac:(repeat split; vm_compute; discriminate)
           ltac:(vm_compute; discriminate) ltac:(vm_compute; discriminate) eq_refl).
Defined.

(** [backup/20240115_093000/data/file.csv] is before
    [backup/20240115_093001/data/b.csv]. *)
Lemma backup_keys_sort_by_capture_time_witness :
  String.ltb
    (copy_Key (backup_request (Some "src") (Some "bak")
                              (strftime_Ymd_HMS Cases.t0_half) Scenario.file_csv))
    (copy_Key (backup_request (Some "src") (Some "bak")
                              (strftime_Ymd_HMS Cases.t0_next) Scenario.b_csv))
  = true.
Proof.
  exact (backup_keys_sort_by_capture_time (Some "src") (Some "bak") (Some "src") (Some "bak")
           Cases.t0_half Cases.t0_next Scenario.file_csv Scenario.b_csv
           ltac:(repeat split; vm_compute; discriminate)
           ltac:(repeat split; vm_compute; discriminate)
           ltac:(vm_compute; discriminate) ltac:(vm_compute; discriminate)
           ltac:(vm_compute; reflexivity)).
Defined.

Lemma retention_deletes_among_listed_backups_witness :
  exists entries wl wc,
    list_backups Scenario.env_two (Some "bak") "backup/" initial = (Return entries, wl) /\
    cleanup_old_backups Scenario.env_two (Some "bak") 30 initial = (Return tt, wc) /\
    delete_requests (trace wc)
    = map (fun k => (Some "bak", k))
          (map entry_key (List.filter (entry_expired Cases.cutoff_30) entries)).
Proof.
  exact (retention_deletes_among_listed_backups Scenario.env_two (Some "bak") 30 initial
           [Scenario.at_cutoff; Scenario.before_cutoff] Cases.cutoff_30 eq_refl eq_refl).
Defined.
